(** * deepeval/evaluate.py: the evaluation orchestrator

    A shallow embedding of [deepeval/evaluate.py]: the sequential and the
    concurrent batch executors ([execute_test_cases], [a_execute_test_cases]),
    the record builders ([create_metric_data], [create_test_result],
    [create_api_test_case]), the assertion adapter ([assert_test]) and the
    pass-rate aggregator ([aggregate_metric_pass_rates]).

    Python objects that are mutated and shared (metrics, single-turn test
    cases, the api records of conversation messages) live in stores indexed
    by their identity; every call into a collaborator that is not part of
    [evaluate.py] is recorded in a chronological trace. *)

From Stdlib Require Import QArith.
From stdpp Require Import gmap strings list pretty.

Local Open Scope Z_scope.

(** ** Plain data *)

(** [Dict] values (additional metadata, hyperparameters) are only passed
    around. *)
Definition Dict := list (string * string).

(** Floats (scores, thresholds, costs, clock readings) are only copied,
    subtracted and compared with [1]; they are read as rationals. *)
Definition float := Q.

Inductive MetricKind := BaseMetric | BaseConversationalMetric.

Definition is_BaseMetric (k : MetricKind) : bool :=
  match k with BaseMetric => true | BaseConversationalMetric => false end.

Definition is_BaseConversationalMetric (k : MetricKind) : bool :=
  match k with BaseMetric => false | BaseConversationalMetric => true end.

(** The mutable state of a metric object. *)
Module Metric.
Record t := mk {
    kind : MetricKind;
    __name__ : string;
    threshold : float;
    strict_mode : bool;
    evaluation_model : option string;
    score : option float;
    reason : option string;
    success : bool;
    error : option string;
    evaluation_cost : option float;
    verbose_logs : option string;
    async_mode : bool;
    verbose_mode : bool
  }.

Definition set_error (e : option string) (m : t) : t :=
    mk (kind m) (__name__ m) (threshold m) (strict_mode m) (evaluation_model m)
       (score m) (reason m) (success m) e (evaluation_cost m) (verbose_logs m)
       (async_mode m) (verbose_mode m).

Definition set_success (b : bool) (m : t) : t :=
    mk (kind m) (__name__ m) (threshold m) (strict_mode m) (evaluation_model m)
       (score m) (reason m) b (error m) (evaluation_cost m) (verbose_logs m)
       (async_mode m) (verbose_mode m).

Definition set_async_mode (b : bool) (m : t) : t :=
    mk (kind m) (__name__ m) (threshold m) (strict_mode m) (evaluation_model m)
       (score m) (reason m) (success m) (error m) (evaluation_cost m)
       (verbose_logs m) b (verbose_mode m).

(** The fields a cached snapshot carries over: score, reason, success,
    evaluation cost and verbose logs. *)
Definition set_outcome (sc : option float) (r : option string) (b : bool)
    (c : option float) (l : option string) (m : t) : t :=
    mk (kind m) (__name__ m) (threshold m) (strict_mode m) (evaluation_model m)
       sc r b (error m) c l (async_mode m) (verbose_mode m).

Definition set_verbose_mode (b : bool) (m : t) : t :=
    mk (kind m) (__name__ m) (threshold m) (strict_mode m) (evaluation_model m)
       (score m) (reason m) (success m) (error m) (evaluation_cost m)
       (verbose_logs m) (async_mode m) b.
End Metric.

(** The value found when [metric_data.success] is evaluated.  The guarded
    reads in [assert_test] and [print_test_result] exist because that
    evaluation may raise for user-defined metrics. *)
Inductive SuccessFlag :=
| Flag (b : bool)
| FlagRaises (msg : string).

Module MetricData.
Record t := mk {
    name : string;
    threshold : float;
    score : option float;
    reason : option string;
    success : SuccessFlag;
    strictMode : bool;
    evaluationModel : option string;
    error : option string;
    evaluationCost : option float;
    verboseLogs : option string
  }.

Definition set_evaluationCost (c : option float) (d : t) : t :=
    mk (name d) (threshold d) (score d) (reason d) (success d) (strictMode d)
       (evaluationModel d) (error d) c (verboseLogs d).
End MetricData.

Module LLMTestCase.
Record t := mk {
    input : string;
    actual_output : string;
    expected_output : option string;
    context : option (list string);
    retrieval_context : option (list string);
    tools_used : option (list string);
    expected_tools : option (list string);
    additional_metadata : option Dict;
    comments : option string;
    _dataset_rank : option Z
  }.

Definition stamp (md : option Dict) (c : option string) (x : t) : t :=
    mk (input x) (actual_output x) (expected_output x) (context x)
       (retrieval_context x) (tools_used x) (expected_tools x) md c
       (_dataset_rank x).
End LLMTestCase.

(** A message of a conversation refers to an [LLMTestCase] object by its
    identity. *)
Module Message.
Record t := mk {
    should_evaluate : bool;
    llm_test_case : nat
  }.
End Message.

Module ConversationalTestCase.
Record t := mk {
    messages : list Message.t;
    additional_metadata : option Dict;
    comments : option string;
    _dataset_rank : option Z
  }.
End ConversationalTestCase.

(** An element of the [test_cases] list: a reference to an [LLMTestCase]
    object, or a conversation. *)
Inductive TestCase :=
| LLM (id : nat)
| Conversational (c : ConversationalTestCase.t).

Module LLMApiTestCase.
Record t := mk {
    name : string;
    input : string;
    actualOutput : string;
    expectedOutput : option string;
    context : option (list string);
    retrievalContext : option (list string);
    toolsUsed : option (list string);
    expectedTools : option (list string);
    success : option bool;
    metricsData : option (list MetricData.t);
    runDuration : option float;
    evaluationCost : option float;
    order : option Z;
    additionalMetadata : option Dict;
    comments : option string;
    traceStack : option string;
    conversational_instance_id : option nat
  }.
End LLMApiTestCase.

(** [messages] holds the identities of the message records, which are shared
    with [llm_test_case_lookup_map]. *)
Module ConversationalApiTestCase.
Record t := mk {
    name : string;
    success : option bool;
    metricsData : option (list MetricData.t);
    runDuration : option float;
    evaluationCost : option float;
    order : option Z;
    instance_id : nat;
    messages : list nat
  }.

Definition set_messages (l : list nat) (a : t) : t :=
    mk (name a) (success a) (metricsData a) (runDuration a) (evaluationCost a)
       (order a) (instance_id a) l.
End ConversationalApiTestCase.

Module TestResult.
Record t := mk {
    success : option bool;
    metrics_data : option (list MetricData.t);
    input : string;
    actual_output : string;
    expected_output : option string;
    context : option (list string);
    retrieval_context : option (list string)
  }.
End TestResult.

Module CachedMetricData.
Record t := mk {
    metric_data : MetricData.t;
    metric_configuration : string
  }.
End CachedMetricData.

Module CachedTestCase.
Record t := mk {
    cached_metrics_data : list CachedMetricData.t
  }.
End CachedTestCase.

(** ** Exceptions and outcomes *)

Inductive Exn :=
| PyException (msg : string)      (* an exception [e] with [str(e) = msg] *)
| IndexError
| AssertionError (msg : string).

Inductive outcome (A : Type) :=
| Return (a : A)
| Raise (e : Exn).
Arguments Return {A} a.
Arguments Raise {A} e.

(** ** Collaborator calls

    A single-turn api record is a shared object and is named by its
    identity; a conversational api record is local to the unit that builds
    it and is carried by value. *)
Inductive ApiTestCase :=
| ApiLLM (ref : nat)
| ApiConversational (c : ConversationalApiTestCase.t).

Inductive Event :=
| EvMeasure (metric : nat) (test_case : TestCase) (raised : option string)
| EvUpdateMetricData (api_test_case : ApiTestCase) (metric_data : MetricData.t)
| EvUpdateRunDuration (api_test_case : ApiTestCase) (run_duration : float)
| EvUpdateTestRun (api_test_case : ApiTestCase) (test_case : TestCase)
| EvCacheTestCase (test_case : LLMTestCase.t) (new_cache_test_case : CachedTestCase.t)
    (hyperparameters : option Dict) (to_temp : bool).

(** The writes issued so far to [global_test_run_cache_manager]. *)
Definition is_cache_write (e : Event) : bool :=
  match e with EvCacheTestCase _ _ _ _ => true | _ => false end.

Definition cache_writes (tr : list Event) : list Event :=
  List.filter is_cache_write tr.

(** ** The interface of the code outside [evaluate.py]

    Metric implementations, the cache manager, the clock, the environment
    and the methods of the api records are opaque. *)
Class Env := {
  (** [metric.measure(test_case)]: the metric's state afterwards, and
      [str(e)] when the call raised [e]. *)
  measure : Metric.t -> TestCase -> (nat -> LLMTestCase.t) -> Metric.t * option string;
  (** [metric.is_successful()] *)
  is_successful : Metric.t -> bool;
  (** the n-th reading of [time.perf_counter()] *)
  perf_counter_reading : nat -> float;
  (** [os.getenv(PYTEST_RUN_TEST_NAME)] *)
  getenv_PYTEST_RUN_TEST_NAME : option string;
  get_trace_stack : option string;
  (** [global_test_run_cache_manager.get_cached_test_case], which sees the
      [disable_write_cache] switch and the writes issued so far *)
  get_cached_test_case :
    bool -> list Event -> LLMTestCase.t -> option Dict -> option CachedTestCase.t;
  Cache_get_metric_data : Metric.t -> CachedTestCase.t -> option CachedMetricData.t;
  Cache_create_metric_configuration : Metric.t -> string;
  (** the methods of [LLMApiTestCase] and [ConversationalApiTestCase] *)
  llm_update_metric_data : LLMApiTestCase.t -> MetricData.t -> LLMApiTestCase.t;
  llm_update_run_duration : LLMApiTestCase.t -> float -> LLMApiTestCase.t;
  conv_update_metric_data :
    ConversationalApiTestCase.t -> MetricData.t -> ConversationalApiTestCase.t;
  conv_update_run_duration :
    ConversationalApiTestCase.t -> float -> ConversationalApiTestCase.t;
  (** [test_run_manager.get_test_run().hyperparameters] *)
  test_run_hyperparameters : option Dict;
  (** the settings read by [assert_test] *)
  should_ignore_errors : bool;
  should_use_cache : bool;
  should_verbose_print : option bool;
  get_is_running_deepeval : bool;
  (** [str] of a float, as it appears in an f-string *)
  str_float : float -> string
}.

(** ** The state the batch executors work on *)
Record World := mkWorld {
  metric_objects : nat -> Metric.t;
  llm_test_cases : nat -> LLMTestCase.t;
  api_test_cases : nat -> LLMApiTestCase.t;
  next_id : nat;                                (* identities handed out so far *)
  llm_test_case_lookup_map : gmap nat nat;
  disable_write_cache : bool;
  save_to_disk : bool;
  perf_counter_calls : nat;
  trace : list Event
}.

Definition update {A} (h : nat -> A) (k : nat) (v : A) : nat -> A :=
  fun i => if Nat.eqb i k then v else h i.

Definition with_metric_objects (f : nat -> Metric.t) (w : World) : World :=
  mkWorld f (llm_test_cases w) (api_test_cases w) (next_id w)
    (llm_test_case_lookup_map w) (disable_write_cache w) (save_to_disk w)
    (perf_counter_calls w) (trace w).

Definition with_llm_test_cases (f : nat -> LLMTestCase.t) (w : World) : World :=
  mkWorld (metric_objects w) f (api_test_cases w) (next_id w)
    (llm_test_case_lookup_map w) (disable_write_cache w) (save_to_disk w)
    (perf_counter_calls w) (trace w).

Definition with_api_test_cases (f : nat -> LLMApiTestCase.t) (w : World) : World :=
  mkWorld (metric_objects w) (llm_test_cases w) f (next_id w)
    (llm_test_case_lookup_map w) (disable_write_cache w) (save_to_disk w)
    (perf_counter_calls w) (trace w).

Definition with_next_id (n : nat) (w : World) : World :=
  mkWorld (metric_objects w) (llm_test_cases w) (api_test_cases w) n
    (llm_test_case_lookup_map w) (disable_write_cache w) (save_to_disk w)
    (perf_counter_calls w) (trace w).

Definition with_lookup_map (m : gmap nat nat) (w : World) : World :=
  mkWorld (metric_objects w) (llm_test_cases w) (api_test_cases w) (next_id w)
    m (disable_write_cache w) (save_to_disk w) (perf_counter_calls w) (trace w).

Definition with_switches (dis std : bool) (w : World) : World :=
  mkWorld (metric_objects w) (llm_test_cases w) (api_test_cases w) (next_id w)
    (llm_test_case_lookup_map w) dis std (perf_counter_calls w) (trace w).

Definition with_perf_counter_calls (n : nat) (w : World) : World :=
  mkWorld (metric_objects w) (llm_test_cases w) (api_test_cases w) (next_id w)
    (llm_test_case_lookup_map w) (disable_write_cache w) (save_to_disk w)
    n (trace w).

Definition with_trace (tr : list Event) (w : World) : World :=
  mkWorld (metric_objects w) (llm_test_cases w) (api_test_cases w) (next_id w)
    (llm_test_case_lookup_map w) (disable_write_cache w) (save_to_disk w)
    (perf_counter_calls w) tr.

(** ** State and exceptions *)

Definition M (A : Type) : Type := World -> outcome A * World.

Definition ret {A} (a : A) : M A := fun w => (Return a, w).

Definition raise {A} (e : Exn) : M A := fun w => (Raise e, w).

Definition bind {A B} (m : M A) (k : A -> M B) : M B :=
  fun w =>
    match m w with
    | (Return a, w') => k a w'
    | (Raise e, w') => (Raise e, w')
    end.

Notation "'let*' x := c1 'in' c2" := (bind c1 (fun x => c2))
  (at level 10, x name, c1 at level 100, c2 at level 200).
Notation "'let*' ' pat := c1 'in' c2" :=
  (bind c1 (fun x => match x with pat => c2 end))
  (at level 10, pat pattern, c1 at level 100, c2 at level 200).
Notation "c1 ;; c2" := (bind c1 (fun _ => c2))
  (at level 100, c2 at level 200, right associativity).

Definition get : M World := fun w => (Return w, w).

Definition modify (f : World -> World) : M unit := fun w => (Return tt, f w).

Definition emit (e : Event) : M unit :=
  modify (fun w => with_trace (trace w ++ [e]) w).

(** [for x in l: acc = body(x, acc)] *)
Fixpoint for_each {A S} (body : A -> S -> M S) (l : list A) (acc : S) : M S :=
  match l with
  | [] => ret acc
  | x :: rest => let* acc' := body x acc in for_each body rest acc'
  end.

(** ** Primitive operations *)

Definition get_metric (metric : nat) : M Metric.t :=
  fun w => (Return (metric_objects w metric), w).

Definition set_metric (metric : nat) (m : Metric.t) : M unit :=
  modify (fun w => with_metric_objects (update (metric_objects w) metric m) w).

Definition get_api (ref : nat) : M LLMApiTestCase.t :=
  fun w => (Return (api_test_cases w ref), w).

Definition set_api (ref : nat) (a : LLMApiTestCase.t) : M unit :=
  modify (fun w => with_api_test_cases (update (api_test_cases w) ref a) w).

(** The identity of a newly created object; [id] never returns [0]. *)
Definition fresh_id : M nat :=
  fun w => (Return (S (next_id w)), with_next_id (S (next_id w)) w).

Definition perf_counter `{Env} : M float :=
  fun w => (Return (perf_counter_reading (perf_counter_calls w)),
            with_perf_counter_calls (S (perf_counter_calls w)) w).

Definition get_llm (test_case : nat) : M LLMTestCase.t :=
  fun w => (Return (llm_test_cases w test_case), w).

Definition set_llm (test_case : nat) (x : LLMTestCase.t) : M unit :=
  modify (fun w => with_llm_test_cases (update (llm_test_cases w) test_case x) w).

(** ** [create_metric_data] *)
Definition create_metric_data `{Env} (metric : Metric.t) : MetricData.t :=
  match Metric.error metric with
  | Some e =>
      MetricData.mk (Metric.__name__ metric) (Metric.threshold metric) None None
        (Flag false) (Metric.strict_mode metric) (Metric.evaluation_model metric)
        (Some e) (Metric.evaluation_cost metric) (Metric.verbose_logs metric)
  | None =>
      MetricData.mk (Metric.__name__ metric) (Metric.threshold metric)
        (Metric.score metric) (Metric.reason metric)
        (Flag (is_successful metric)) (Metric.strict_mode metric)
        (Metric.evaluation_model metric) None (Metric.evaluation_cost metric)
        (Metric.verbose_logs metric)
  end.

(** ** [create_test_result] *)
Definition test_result_of (tc : LLMApiTestCase.t) : TestResult.t :=
  TestResult.mk (LLMApiTestCase.success tc) (LLMApiTestCase.metricsData tc)
    (LLMApiTestCase.input tc) (LLMApiTestCase.actualOutput tc)
    (LLMApiTestCase.expectedOutput tc) (LLMApiTestCase.context tc)
    (LLMApiTestCase.retrievalContext tc).

Definition create_test_result (test_case : ApiTestCase) : M TestResult.t :=
  match test_case with
  | ApiConversational c =>
      (* test_case.messages[len(test_case.messages) - 1] *)
      match last (ConversationalApiTestCase.messages c) with
      | Some ref => let* tc := get_api ref in ret (test_result_of tc)
      | None => raise IndexError
      end
  | ApiLLM ref => let* tc := get_api ref in ret (test_result_of tc)
  end.

(** ** [create_api_test_case] *)

(** [str(index)] for an [Optional[int]] *)
Definition str_index (index : option Z) : string :=
  match index with Some i => pretty i | None => "None" end.

(** [if conversational_instance_id:] *)
Definition truthy_id (o : option nat) : bool :=
  match o with Some (S _) => true | _ => false end.

(** The [LLMTestCase] branch. *)
Definition create_llm_api_test_case `{Env} (test_case : nat) (index : option Z)
    (conversational_instance_id : option nat)
    (additional_metadata : option Dict) (comments : option string) : M nat :=
  let* w := get in
  match llm_test_case_lookup_map w !! test_case with
  | Some api_test_case => ret api_test_case
  | None =>
      let* '(success, name, order, trace_stack) :=
        if truthy_id conversational_instance_id then
          let* tc := get_llm test_case in
          set_llm test_case (LLMTestCase.stamp additional_metadata comments tc) ;;
          ret (None, "message_" +:+ str_index index, index, None)
        else
          let* tc := get_llm test_case in
          ret (Some true,
               default ("test_case_" +:+ str_index index) getenv_PYTEST_RUN_TEST_NAME,
               LLMTestCase._dataset_rank tc, get_trace_stack) in
      let* tc := get_llm test_case in
      let* ref := fresh_id in
      set_api ref
        (LLMApiTestCase.mk name (LLMTestCase.input tc) (LLMTestCase.actual_output tc)
           (LLMTestCase.expected_output tc) (LLMTestCase.context tc)
           (LLMTestCase.retrieval_context tc) (LLMTestCase.tools_used tc)
           (LLMTestCase.expected_tools tc) success None None None order
           (LLMTestCase.additional_metadata tc) (LLMTestCase.comments tc)
           trace_stack conversational_instance_id) ;;
      (if truthy_id conversational_instance_id then
         modify (fun w => with_lookup_map (<[test_case := ref]> (llm_test_case_lookup_map w)) w)
       else ret tt) ;;
      ret ref
  end.

(** [enumerate(l)] *)
Fixpoint enumerate_from {A} (i : Z) (l : list A) : list (Z * A) :=
  match l with
  | [] => []
  | x :: rest => (i, x) :: enumerate_from (i + 1) rest
  end.

(** The [ConversationalTestCase] branch. *)
Definition create_conversational_api_test_case `{Env}
    (test_case : ConversationalTestCase.t) (index : option Z)
    : M ConversationalApiTestCase.t :=
  let* instance_id := fresh_id in
  let api_test_case :=
    ConversationalApiTestCase.mk
      (default ("conversational_test_case_" +:+ str_index index)
         getenv_PYTEST_RUN_TEST_NAME)
      (Some true) None (Some 0%Q) None
      (ConversationalTestCase._dataset_rank test_case) instance_id [] in
  let* messages :=
    for_each
      (fun index_message acc =>
         let* r := create_llm_api_test_case
                     (Message.llm_test_case (snd index_message))
                     (Some (fst index_message)) (Some instance_id)
                     (ConversationalTestCase.additional_metadata test_case)
                     (ConversationalTestCase.comments test_case) in
         ret (acc ++ [r]))
      (enumerate_from 0 (ConversationalTestCase.messages test_case)) [] in
  ret (ConversationalApiTestCase.set_messages messages api_test_case).

Definition create_api_test_case `{Env} (test_case : TestCase) (index : option Z)
    : M ApiTestCase :=
  match test_case with
  | LLM id =>
      let* ref := create_llm_api_test_case id index None None None in
      ret (ApiLLM ref)
  | Conversational c =>
      let* a := create_conversational_api_test_case c index in
      ret (ApiConversational a)
  end.

(** ** Flattening: the first loop of both executors

    [for test_case in test_cases] walks a list that the body appends to, so
    the appended messages are visited too; [pending] is the part of the list
    not visited yet. *)
Definition messages_to_append (test_case : TestCase) : list TestCase :=
  match test_case with
  | Conversational c =>
      map (fun message => LLM (Message.llm_test_case message))
        (List.filter Message.should_evaluate (ConversationalTestCase.messages c))
  | LLM _ => []
  end.

Fixpoint append_messages (fuel : nat) (pending test_cases : list TestCase)
    : list TestCase :=
  match fuel, pending with
  | S fuel', test_case :: rest =>
      let new := messages_to_append test_case in
      append_messages fuel' (rest ++ new) (test_cases ++ new)
  | _, _ => test_cases
  end.

(** The number of elements the loop visits. *)
Definition visits (test_cases : list TestCase) : nat :=
  length (test_cases ++ flat_map messages_to_append test_cases).

Definition flatten_test_cases (test_cases : list TestCase) : list TestCase :=
  append_messages (visits test_cases) test_cases test_cases.

(** ** Pieces shared by both executors *)

Record Locals := mkLocals {
  llm_test_case_count : Z;
  conversational_test_case_count : Z;
  test_results : list TestResult.t
}.

(** [for metric in metrics: metric.error = None] *)
Definition reset_errors (metrics : list nat) : M unit :=
  for_each
    (fun metric _ =>
       let* m := get_metric metric in set_metric metric (Metric.set_error None m))
    metrics tt.

(** [for metric in metrics: metric.verbose_mode = verbose_mode] *)
Definition set_verbose_modes (verbose_mode : option bool) (metrics : list nat) : M unit :=
  match verbose_mode with
  | Some v =>
      for_each
        (fun metric _ =>
           let* m := get_metric metric in
           set_metric metric (Metric.set_verbose_mode v m))
        metrics tt
  | None => ret tt
  end.

(** The partition of [metrics] by [isinstance]. *)
Definition select_metrics (p : MetricKind -> bool) (w : World) (metrics : list nat)
    : list nat :=
  List.filter (fun metric => p (Metric.kind (metric_objects w metric))) metrics.

(** [Cache.get_metric_data(metric, cached_test_case)] and the two tests
    around it. *)
Definition cached_metric_data `{Env} (m : Metric.t)
    (cached_test_case : option CachedTestCase.t) : option MetricData.t :=
  match cached_test_case with
  | Some c =>
      match Cache_get_metric_data m c with
      | Some cmd => Some (CachedMetricData.metric_data cmd)
      | None => None
      end
  | None => None
  end.

(** [metric.measure(test_case)], returning [str(e)] when it raised [e]. *)
Definition call_measure `{Env} (metric : nat) (test_case : TestCase)
    : M (option string) :=
  fun w =>
    let '(m', raised) := measure (metric_objects w metric) test_case (llm_test_cases w) in
    (Return raised,
     with_trace (trace w ++ [EvMeasure metric test_case raised])
       (with_metric_objects (update (metric_objects w) metric m') w)).

(** The [try ... except Exception as e] around [measure]. *)
Definition measure_guarded `{Env} (ignore_errors : bool) (metric : nat)
    (test_case : TestCase) : M unit :=
  let* raised := call_measure metric test_case in
  match raised with
  | None => ret tt
  | Some e =>
      if ignore_errors then
        let* m := get_metric metric in
        set_metric metric (Metric.set_success false (Metric.set_error (Some e) m))
      else raise (PyException e)
  end.

Definition llm_update_metric_data_call `{Env} (ref : nat) (metric_data : MetricData.t)
    : M unit :=
  let* a := get_api ref in
  set_api ref (llm_update_metric_data a metric_data) ;;
  emit (EvUpdateMetricData (ApiLLM ref) metric_data).

Definition llm_update_run_duration_call `{Env} (ref : nat) (run_duration : float)
    : M unit :=
  let* a := get_api ref in
  set_api ref (llm_update_run_duration a run_duration) ;;
  emit (EvUpdateRunDuration (ApiLLM ref) run_duration).

(** [deepcopy(metric_data)] with [evaluation_cost = 0], wrapped with the
    metric's configuration. *)
Definition cache_copy `{Env} (m : Metric.t) (metric_data : MetricData.t)
    : CachedMetricData.t :=
  CachedMetricData.mk (MetricData.set_evaluationCost (Some 0%Q) metric_data)
    (Cache_create_metric_configuration m).

(** [if metric.error is None: new_cached_test_case.cached_metrics_data.append(...)] *)
Definition append_if_no_error `{Env} (metric : nat) (metric_data : MetricData.t)
    (new_cached : list CachedMetricData.t) : M (list CachedMetricData.t) :=
  let* m := get_metric metric in
  match Metric.error m with
  | None => ret (new_cached ++ [cache_copy m metric_data])
  | Some _ => ret new_cached
  end.

(** "Update Test Run", "Cache Test Run" and the test result of a single-turn
    unit. *)
Definition finish_llm_test_case `{Env} (test_case api_test_case : nat)
    (new_cached : list CachedMetricData.t) (count : Z) (loc : Locals) : M Locals :=
  emit (EvUpdateTestRun (ApiLLM api_test_case) (LLM test_case)) ;;
  let* tc := get_llm test_case in
  emit (EvCacheTestCase tc (CachedTestCase.mk new_cached) test_run_hyperparameters false) ;;
  emit (EvCacheTestCase tc (CachedTestCase.mk new_cached) test_run_hyperparameters true) ;;
  let* test_result := create_test_result (ApiLLM api_test_case) in
  ret (mkLocals count (conversational_test_case_count loc)
         (test_results loc ++ [test_result])).

(** [global_test_run_cache_manager.get_cached_test_case] under [if use_cache] *)
Definition lookup_cache `{Env} (use_cache : bool) (test_case : nat)
    : M (option CachedTestCase.t) :=
  fun w =>
    (Return
       (if use_cache then
          get_cached_test_case (disable_write_cache w) (cache_writes (trace w))
            (llm_test_cases w test_case) test_run_hyperparameters
        else None),
     w).

(** The statements before the flattening loop, and the partition. *)
Definition prepare (save_to_disk : bool) (verbose_mode : option bool)
    (metrics : list nat) : M unit :=
  modify (with_switches (negb save_to_disk) save_to_disk) ;;
  set_verbose_modes verbose_mode metrics ;;
  modify (with_lookup_map ∅).

(** ** [execute_test_cases] *)

(** The body of [for metric in llm_metrics]; the accumulator is
    [(read_all_metrics_from_cache, new_cached_test_case.cached_metrics_data)]. *)
Definition llm_metric_body `{Env} (ignore_errors : bool) (test_case : nat)
    (cached_test_case : option CachedTestCase.t) (api_test_case : nat)
    (metric : nat) (acc : bool * list CachedMetricData.t)
    : M (bool * list CachedMetricData.t) :=
  let* m := get_metric metric in
  let* '(metric_data, read_all) :=
    match cached_metric_data m cached_test_case with
    | Some metric_data => ret (metric_data, fst acc)
    | None =>
        set_metric metric (Metric.set_async_mode false m) ;;
        measure_guarded ignore_errors metric (LLM test_case) ;;
        let* m' := get_metric metric in
        ret (create_metric_data m', false)
    end in
  llm_update_metric_data_call api_test_case metric_data ;;
  let* new_cached := append_if_no_error metric metric_data (snd acc) in
  ret (read_all, new_cached).

Definition execute_llm_test_case `{Env} (llm_metrics : list nat)
    (ignore_errors use_cache : bool) (test_case : nat) (loc : Locals) : M Locals :=
  match llm_metrics with
  | [] => ret loc      (* continue *)
  | _ :: _ =>
      let count := llm_test_case_count loc + 1 in
      let* cached_test_case := lookup_cache use_cache test_case in
      let* api_test_case :=
        create_llm_api_test_case test_case (Some count) None None None in
      let* test_start_time := perf_counter in
      let* '(read_all_metrics_from_cache, new_cached) :=
        for_each
          (llm_metric_body ignore_errors test_case cached_test_case api_test_case)
          llm_metrics (true, []) in
      let* test_end_time := perf_counter in
      let run_duration :=
        if read_all_metrics_from_cache then 0%Q
        else (test_end_time - test_start_time)%Q in
      llm_update_run_duration_call api_test_case run_duration ;;
      finish_llm_test_case test_case api_test_case new_cached count loc
  end.

(** The body of [for metric in conversational_metrics]. *)
Definition conversational_metric_body `{Env} (ignore_errors : bool)
    (test_case : ConversationalTestCase.t) (metric : nat)
    (api_test_case : ConversationalApiTestCase.t)
    : M ConversationalApiTestCase.t :=
  let* m := get_metric metric in
  if is_BaseConversationalMetric (Metric.kind m) then
    set_metric metric (Metric.set_async_mode false m) ;;
    measure_guarded ignore_errors metric (Conversational test_case) ;;
    let* m' := get_metric metric in
    let metric_data := create_metric_data m' in
    emit (EvUpdateMetricData (ApiConversational api_test_case) metric_data) ;;
    ret (conv_update_metric_data api_test_case metric_data)
  else ret api_test_case.

(** [if len(conversational_metrics) > 0: ... update_run_duration], then
    "Update Test Run". *)
Definition finish_conversational_test_case `{Env}
    (conversational_metrics : list nat) (test_case : ConversationalTestCase.t)
    (api_test_case : ConversationalApiTestCase.t)
    (test_start_time test_end_time : float) (loc : Locals) : M Locals :=
  let* api_test_case :=
    match conversational_metrics with
    | _ :: _ =>
        let run_duration := (test_end_time - test_start_time)%Q in
        emit (EvUpdateRunDuration (ApiConversational api_test_case) run_duration) ;;
        ret (conv_update_run_duration api_test_case run_duration)
    | [] => ret api_test_case
    end in
  emit (EvUpdateTestRun (ApiConversational api_test_case) (Conversational test_case)) ;;
  ret (mkLocals (llm_test_case_count loc) (conversational_test_case_count loc + 1)
         (test_results loc)).

Definition execute_conversational_test_case `{Env}
    (conversational_metrics : list nat) (ignore_errors : bool)
    (test_case : ConversationalTestCase.t) (loc : Locals) : M Locals :=
  let count := conversational_test_case_count loc + 1 in
  let* api_test_case := create_conversational_api_test_case test_case (Some count) in
  let* test_start_time := perf_counter in
  let* api_test_case :=
    for_each (conversational_metric_body ignore_errors test_case)
      conversational_metrics api_test_case in
  let* test_end_time := perf_counter in
  finish_conversational_test_case conversational_metrics test_case api_test_case
    test_start_time test_end_time loc.

(** The body of the main loop. *)
Definition execute_test_case `{Env} (metrics llm_metrics conversational_metrics : list nat)
    (ignore_errors use_cache : bool) (test_case : TestCase) (loc : Locals) : M Locals :=
  reset_errors metrics ;;
  match test_case with
  | LLM id => execute_llm_test_case llm_metrics ignore_errors use_cache id loc
  | Conversational c =>
      execute_conversational_test_case conversational_metrics ignore_errors c loc
  end.

(** What a batch call leaves behind: what it returned or raised, the
    caller's [test_cases] list as it is afterwards, and the state. *)
Record Call := mkCall {
  returned : outcome (list TestResult.t);
  test_cases_after : list TestCase;
  world_after : World
}.

Definition run_batch (body : list nat -> list nat -> list nat -> TestCase -> Locals -> M Locals)
    (test_cases : list TestCase) (metrics : list nat)
    (save_to_disk : bool) (verbose_mode : option bool) (w : World) : Call :=
  let test_cases := flatten_test_cases test_cases in
  let r :=
    (prepare save_to_disk verbose_mode metrics ;;
     let* w0 := get in
     let llm_metrics := select_metrics is_BaseMetric w0 metrics in
     let conversational_metrics :=
       select_metrics is_BaseConversationalMetric w0 metrics in
     let* loc :=
       for_each (body metrics llm_metrics conversational_metrics) test_cases
         (mkLocals (-1) (-1) []) in
     ret (test_results loc)) w in
  mkCall (fst r) test_cases (snd r).

Definition execute_test_cases `{Env} (test_cases : list TestCase) (metrics : list nat)
    (ignore_errors use_cache save_to_disk : bool) (verbose_mode : option bool)
    (w : World) : Call :=
  run_batch
    (fun metrics llm_metrics conversational_metrics =>
       execute_test_case metrics llm_metrics conversational_metrics
         ignore_errors use_cache)
    test_cases metrics save_to_disk verbose_mode w.

(** ** [a_execute_test_cases]

    [measure_metrics_with_indicator] is imported from
    [deepeval.metrics.indicator]; the executor is stated over any
    implementation of it. *)
Definition Indicator : Type :=
  list nat -> TestCase -> option CachedTestCase.t -> bool -> M unit.

(** The body of [for metric in llm_metrics], after the awaited call. *)
Definition a_llm_metric_body `{Env} (api_test_case : nat) (metric : nat)
    (new_cached : list CachedMetricData.t) : M (list CachedMetricData.t) :=
  let* m := get_metric metric in
  let metric_data := create_metric_data m in
  llm_update_metric_data_call api_test_case metric_data ;;
  append_if_no_error metric metric_data new_cached.

(** "Quick hack to check if all metrics were from cache" *)
Definition a_run_duration (test_start_time test_end_time : float) : float :=
  let run_duration := (test_end_time - test_start_time)%Q in
  if Qlt_le_dec run_duration 1 then 0%Q else run_duration.

Definition a_execute_llm_test_case `{Env} (measure_metrics_with_indicator : Indicator)
    (metrics llm_metrics : list nat)
    (ignore_errors use_cache : bool) (test_case : nat) (loc : Locals) : M Locals :=
  match llm_metrics with
  | [] => ret loc      (* continue *)
  | _ :: _ =>
      let count := llm_test_case_count loc + 1 in
      reset_errors metrics ;;
      let* cached_test_case := lookup_cache use_cache test_case in
      let* api_test_case :=
        create_llm_api_test_case test_case (Some count) None None None in
      let* test_start_time := perf_counter in
      measure_metrics_with_indicator llm_metrics (LLM test_case) cached_test_case
        ignore_errors ;;
      let* new_cached := for_each (a_llm_metric_body api_test_case) llm_metrics [] in
      let* test_end_time := perf_counter in
      let run_duration := a_run_duration test_start_time test_end_time in
      llm_update_run_duration_call api_test_case run_duration ;;
      finish_llm_test_case test_case api_test_case new_cached count loc
  end.

(** The body of [for metric in conversational_metrics], after the awaited
    call. *)
Definition a_conversational_metric_body `{Env} (metric : nat)
    (api_test_case : ConversationalApiTestCase.t) : M ConversationalApiTestCase.t :=
  let* m := get_metric metric in
  let metric_data := create_metric_data m in
  emit (EvUpdateMetricData (ApiConversational api_test_case) metric_data) ;;
  ret (conv_update_metric_data api_test_case metric_data).

Definition a_execute_conversational_test_case `{Env}
    (measure_metrics_with_indicator : Indicator)
    (conversational_metrics : list nat) (ignore_errors : bool)
    (test_case : ConversationalTestCase.t) (loc : Locals) : M Locals :=
  let count := conversational_test_case_count loc + 1 in
  let* api_test_case := create_conversational_api_test_case test_case (Some count) in
  let* test_start_time := perf_counter in
  measure_metrics_with_indicator conversational_metrics (Conversational test_case)
    None ignore_errors ;;
  let* api_test_case :=
    for_each a_conversational_metric_body conversational_metrics api_test_case in
  let* test_end_time := perf_counter in
  finish_conversational_test_case conversational_metrics test_case api_test_case
    test_start_time test_end_time loc.

Definition a_execute_test_case `{Env} (measure_metrics_with_indicator : Indicator)
    (metrics llm_metrics conversational_metrics : list nat)
    (ignore_errors use_cache : bool) (test_case : TestCase) (loc : Locals) : M Locals :=
  match test_case with
  | LLM id =>
      a_execute_llm_test_case measure_metrics_with_indicator metrics llm_metrics
        ignore_errors use_cache id loc
  | Conversational c =>
      a_execute_conversational_test_case measure_metrics_with_indicator
        conversational_metrics ignore_errors c loc
  end.

Definition a_execute_test_cases `{Env} (measure_metrics_with_indicator : Indicator)
    (test_cases : list TestCase) (metrics : list nat)
    (ignore_errors use_cache save_to_disk : bool) (verbose_mode : option bool)
    (w : World) : Call :=
  run_batch
    (fun metrics llm_metrics conversational_metrics =>
       a_execute_test_case measure_metrics_with_indicator metrics llm_metrics
         conversational_metrics ignore_errors use_cache)
    test_cases metrics save_to_disk verbose_mode w.

(** ** [assert_test] *)

(** [str] of the values that appear in the failure message. *)
Definition str_option_float `{Env} (o : option float) : string :=
  match o with Some x => str_float x | None => "None" end.

Definition str_option_string (o : option string) : string :=
  match o with Some s => s | None => "None" end.

Definition str_bool (b : bool) : string := if b then "True" else "False".

(** The test under which [assert_test] appends a metric to
    [failed_metrics_data]: an error, a false success flag, or a success flag
    whose evaluation raises. *)
Definition metric_failed (metric_data : MetricData.t) : bool :=
  match MetricData.error metric_data with
  | Some _ => true
  | None =>
      match MetricData.success metric_data with
      | Flag b => negb b
      | FlagRaises _ => true
      end
  end.

Definition failed_metric_str `{Env} (metrics_data : MetricData.t) : string :=
  MetricData.name metrics_data +:+ " (score: "
    +:+ str_option_float (MetricData.score metrics_data)
    +:+ ", threshold: " +:+ str_float (MetricData.threshold metrics_data)
    +:+ ", strict: " +:+ str_bool (MetricData.strictMode metrics_data)
    +:+ ", error: " +:+ str_option_string (MetricData.error metrics_data) +:+ ")".

(** [", ".join(l)] *)
Fixpoint join (sep : string) (l : list string) : string :=
  match l with
  | [] => ""
  | [s] => s
  | s :: rest => s +:+ sep +:+ join sep rest
  end.

Definition failure_message `{Env} (failed_metrics_data : list MetricData.t) : string :=
  "Metrics: " +:+ join ", " (map failed_metric_str failed_metrics_data) +:+ " failed.".

(** [not test_result.success] for an [Optional[bool]] *)
Definition not_success (o : option bool) : bool :=
  match o with Some true => false | _ => true end.

(** The statements of [assert_test] after the batch call. *)
Definition check_test_result `{Env} (test_result : TestResult.t) : outcome unit :=
  if not_success (TestResult.success test_result) then
    match TestResult.metrics_data test_result with
    | Some metrics_data =>
        Raise (AssertionError (failure_message (List.filter metric_failed metrics_data)))
    | None => Raise (PyException "'NoneType' object is not iterable")
    end
  else Return tt.

(** [l[0]] *)
Definition first_of {A} (l : list A) : outcome A :=
  match l with
  | x :: _ => Return x
  | [] => Raise IndexError
  end.

Definition assert_test `{Env} (measure_metrics_with_indicator : Indicator)
    (test_case : TestCase) (metrics : list nat) (run_async : bool) (w : World)
    : outcome unit * World :=
  let call :=
    if run_async then
      a_execute_test_cases measure_metrics_with_indicator [test_case] metrics
        should_ignore_errors should_use_cache get_is_running_deepeval
        should_verbose_print w
    else
      execute_test_cases [test_case] metrics
        should_ignore_errors should_use_cache get_is_running_deepeval
        should_verbose_print w in
  match returned call with
  | Raise e => (Raise e, world_after call)
  | Return results =>
      match first_of results with
      | Raise e => (Raise e, world_after call)
      | Return test_result => (check_test_result test_result, world_after call)
      end
  end.

(** ** [aggregate_metric_pass_rates] *)

(** The truth value of [metric_data.success], when it has one. *)
Definition truth_of (f : SuccessFlag) : outcome bool :=
  match f with
  | Flag b => Return b
  | FlagRaises msg => Raise (PyException msg)
  end.

(** The body of [for metric_data in result.metrics_data]; the accumulator is
    [(metric_counts, metric_successes)]. *)
Definition tally_metric (metric_data : MetricData.t)
    (acc : gmap string nat * gmap string nat)
    : outcome (gmap string nat * gmap string nat) :=
  let metric_name := MetricData.name metric_data in
  let '(metric_counts, metric_successes) :=
    match fst acc !! metric_name with
    | Some _ => acc
    | None => (<[metric_name := 0%nat]> (fst acc), <[metric_name := 0%nat]> (snd acc))
    end in
  let metric_counts :=
    <[metric_name := S (default 0%nat (metric_counts !! metric_name))]> metric_counts in
  match truth_of (MetricData.success metric_data) with
  | Raise e => Raise e
  | Return true =>
      Return (metric_counts,
              <[metric_name := S (default 0%nat (metric_successes !! metric_name))]>
                metric_successes)
  | Return false => Return (metric_counts, metric_successes)
  end.

Fixpoint tally_metrics (metrics_data : list MetricData.t)
    (acc : gmap string nat * gmap string nat)
    : outcome (gmap string nat * gmap string nat) :=
  match metrics_data with
  | [] => Return acc
  | metric_data :: rest =>
      match tally_metric metric_data acc with
      | Raise e => Raise e
      | Return acc' => tally_metrics rest acc'
      end
  end.

Fixpoint tally_results (test_results : list TestResult.t)
    (acc : gmap string nat * gmap string nat)
    : outcome (gmap string nat * gmap string nat) :=
  match test_results with
  | [] => Return acc
  | result :: rest =>
      match TestResult.metrics_data result with
      | None => Raise (PyException "'NoneType' object is not iterable")
      | Some metrics_data =>
          match tally_metrics metrics_data acc with
          | Raise e => Raise e
          | Return acc' => tally_results rest acc'
          end
      end
  end.

(** [metric_successes[metric] / metric_counts[metric]] *)
Definition pass_rate (successes count : nat) : Q :=
  Z.of_nat successes # Pos.of_nat count.

Definition aggregate_metric_pass_rates (test_results : list TestResult.t)
    : outcome (gmap string Q) :=
  match tally_results test_results (∅, ∅) with
  | Raise e => Raise e
  | Return (metric_counts, metric_successes) =>
      Return
        (map_imap
           (fun metric count =>
              Some (pass_rate (default 0%nat (metric_successes !! metric)) count))
           metric_counts)
  end.


(** ** Collaborators as the specification describes them *)

(** Modelled from the spec: the truth value of a MetricResult's success
    flag ("success" in the MetricResult of section 3); a flag whose
    evaluation raises counts as a failure (section 4.5). *)
Definition flag_value (f : SuccessFlag) : bool :=
  match f with Flag b => b | FlagRaises _ => false end.

(** Modelled from the spec: a cache hit of the Metric Runner (section 4.3,
    step 1).  [a_execute_test_cases] builds each MetricResult from the
    metric object after the awaited call, so a hit places the outcome of the
    cached snapshot (score, reason, success, evaluation cost, verbose logs)
    on the metric. *)
Definition load_cached (metric_data : MetricData.t) (m : Metric.t) : Metric.t :=
  Metric.set_outcome (MetricData.score metric_data) (MetricData.reason metric_data)
    (flag_value (MetricData.success metric_data))
    (MetricData.evaluationCost metric_data) (MetricData.verboseLogs metric_data) m.

(** Modelled from the spec: the Metric Runner of section 4.3, steps 1 to 3,
    on one metric.  On a cache hit no invocation occurs; otherwise the
    metric's error state is reset, its concurrency mode is forced to
    synchronous and [measure] is invoked, a raised failure being captured
    into the error field with success false when [ignoreErrors] is set and
    propagated otherwise.  Step 4 is the caller's. *)
Definition metric_runner `{Env} (test_case : TestCase)
    (cached_test_case : option CachedTestCase.t) (ignore_errors : bool)
    (metric : nat) (_ : unit) : M unit :=
  let* m := get_metric metric in
  match cached_metric_data m cached_test_case with
  | Some metric_data => set_metric metric (load_cached metric_data m)
  | None =>
      set_metric metric (Metric.set_async_mode false (Metric.set_error None m)) ;;
      measure_guarded ignore_errors metric test_case
  end.

(** Modelled from the spec: [measure_metrics_with_indicator]
    (deepeval/metrics/indicator.py) is not part of [evaluate.py].  It is the
    Metric Runner applied to each metric of the set handed over by the
    concurrent strategy (section 4.4). *)
Definition spec_measure_metrics_with_indicator `{Env} : Indicator :=
  fun metrics test_case cached_test_case ignore_errors =>
    for_each (metric_runner test_case cached_test_case ignore_errors) metrics tt.

(** Modelled from the spec: the success flag of a ResultRecord after one
    more MetricResult; section 8: a metric with success false makes the
    record unsuccessful. *)
Definition record_success (so_far : option bool) (metric_data : MetricData.t)
    : option bool :=
  match so_far with
  | None => Some (flag_value (MetricData.success metric_data))
  | Some b => Some (b && flag_value (MetricData.success metric_data))
  end.

(** Modelled from the spec: the methods [update_metric_data] and
    [update_run_duration] of [LLMApiTestCase] and
    [ConversationalApiTestCase] (deepeval/test_run/api.py) are not part of
    [evaluate.py].  Section 3: a ResultRecord is "mutated by appending
    MetricResult as each metric completes; finalized when duration is
    stamped". *)
Definition spec_llm_update_metric_data (a : LLMApiTestCase.t)
    (metric_data : MetricData.t) : LLMApiTestCase.t :=
  LLMApiTestCase.mk (LLMApiTestCase.name a) (LLMApiTestCase.input a)
    (LLMApiTestCase.actualOutput a) (LLMApiTestCase.expectedOutput a)
    (LLMApiTestCase.context a) (LLMApiTestCase.retrievalContext a)
    (LLMApiTestCase.toolsUsed a) (LLMApiTestCase.expectedTools a)
    (record_success (LLMApiTestCase.success a) metric_data)
    (Some (default [] (LLMApiTestCase.metricsData a) ++ [metric_data]))
    (LLMApiTestCase.runDuration a) (LLMApiTestCase.evaluationCost a)
    (LLMApiTestCase.order a) (LLMApiTestCase.additionalMetadata a)
    (LLMApiTestCase.comments a) (LLMApiTestCase.traceStack a)
    (LLMApiTestCase.conversational_instance_id a).

(** Modelled from the spec: see [spec_llm_update_metric_data]. *)
Definition spec_llm_update_run_duration (a : LLMApiTestCase.t)
    (run_duration : float) : LLMApiTestCase.t :=
  LLMApiTestCase.mk (LLMApiTestCase.name a) (LLMApiTestCase.input a)
    (LLMApiTestCase.actualOutput a) (LLMApiTestCase.expectedOutput a)
    (LLMApiTestCase.context a) (LLMApiTestCase.retrievalContext a)
    (LLMApiTestCase.toolsUsed a) (LLMApiTestCase.expectedTools a)
    (LLMApiTestCase.success a) (LLMApiTestCase.metricsData a)
    (Some run_duration) (LLMApiTestCase.evaluationCost a)
    (LLMApiTestCase.order a) (LLMApiTestCase.additionalMetadata a)
    (LLMApiTestCase.comments a) (LLMApiTestCase.traceStack a)
    (LLMApiTestCase.conversational_instance_id a).

(** Modelled from the spec: see [spec_llm_update_metric_data]. *)
Definition spec_conv_update_metric_data (a : ConversationalApiTestCase.t)
    (metric_data : MetricData.t) : ConversationalApiTestCase.t :=
  ConversationalApiTestCase.mk (ConversationalApiTestCase.name a)
    (record_success (ConversationalApiTestCase.success a) metric_data)
    (Some (default [] (ConversationalApiTestCase.metricsData a) ++ [metric_data]))
    (ConversationalApiTestCase.runDuration a)
    (ConversationalApiTestCase.evaluationCost a)
    (ConversationalApiTestCase.order a) (ConversationalApiTestCase.instance_id a)
    (ConversationalApiTestCase.messages a).

(** Modelled from the spec: see [spec_llm_update_metric_data]. *)
Definition spec_conv_update_run_duration (a : ConversationalApiTestCase.t)
    (run_duration : float) : ConversationalApiTestCase.t :=
  ConversationalApiTestCase.mk (ConversationalApiTestCase.name a)
    (ConversationalApiTestCase.success a) (ConversationalApiTestCase.metricsData a)
    (Some run_duration) (ConversationalApiTestCase.evaluationCost a)
    (ConversationalApiTestCase.order a) (ConversationalApiTestCase.instance_id a)
    (ConversationalApiTestCase.messages a).
(** * Vocabulary of the properties *)

(** [post m w Q]: when [m] returns from [w], [Q] holds of the value and the
    state. *)
Definition post {A} (m : M A) (w : World) (Q : A -> World -> Prop) : Prop :=
  match m w with
  | (Return a, w') => Q a w'
  | (Raise _, _) => True
  end.

(** [returns m]: [m] never raises. *)
Definition returns {A} (m : M A) : Prop :=
  forall w, exists a w', m w = (Return a, w').

(** [keeps f m]: [m] leaves the component [f] of the state alone, also when
    it raises. *)
Definition keeps {A B} (f : World -> B) (m : M A) : Prop :=
  forall w, f (snd (m w)) = f w.

(** [emits P m]: the calls [m] adds to the trace all satisfy [P], also when
    [m] raises. *)
Definition emits {A} (P : Event -> Prop) (m : M A) : Prop :=
  forall w, exists evs, trace (snd (m w)) = trace w ++ evs /\ Forall P evs.

(** A conversation with at least one message flagged [should_evaluate]. *)
Definition has_evaluated_message (test_case : TestCase) : Prop :=
  match test_case with
  | Conversational c =>
      exists message,
        In message (ConversationalTestCase.messages c) /\
        Message.should_evaluate message = true
  | LLM _ => False
  end.


Definition is_single_turn (test_case : TestCase) : bool :=
  match test_case with LLM _ => true | Conversational _ => false end.

Definition is_conversation (test_case : TestCase) : bool :=
  match test_case with LLM _ => false | Conversational _ => true end.

(** The number of results a batch returns: one per single-turn unit when
    some single-turn metric is configured, none otherwise. *)
Definition expected_results (llm_metrics : list nat) (units : list TestCase) : nat :=
  match llm_metrics with
  | [] => 0
  | _ :: _ => length (List.filter is_single_turn units)
  end.

(** * A concrete setting

    One metric of each class, four single-turn test cases and collaborators
    that follow the specification; the closed statements below are run in
    it. *)
Module Sample.

(** Leibniz equality of two rationals as they are represented. *)
Definition same_float (x y : float) : bool :=
  Z.eqb (Qnum x) (Qnum y) && Pos.eqb (Qden x) (Qden y).

Definition sample_str_float (x : float) : string :=
  pretty (Qnum x) +:+ "/" +:+ pretty (Zpos (Qden x)).

(** An exact-match scorer.  It starts from a clean slate, raises ["boom"] on
    the output ["boom"] and on an empty conversation, scores [1] when the
    actual output is the expected one (for a conversation: always) and [0]
    otherwise, and succeeds when the score reaches the threshold. *)
Definition sample_measure (m : Metric.t) (test_case : TestCase)
    (llm : nat -> LLMTestCase.t) : Metric.t * option string :=
  let clean := Metric.set_outcome None None false None None (Metric.set_error None m) in
  let done (sc : float) :=
    (Metric.set_outcome (Some sc) (Some "compared") (Qle_bool (Metric.threshold m) sc)
       (Some (1 # 100)) None clean, None) in
  match test_case with
  | LLM id =>
      let x := llm id in
      if String.eqb (LLMTestCase.actual_output x) "boom" then (clean, Some "boom")
      else if bool_decide (LLMTestCase.expected_output x = Some (LLMTestCase.actual_output x))
      then done 1%Q else done 0%Q
  | Conversational c =>
      match ConversationalTestCase.messages c with
      | [] => (clean, Some "boom")
      | _ :: _ => done 1%Q
      end
  end.

Definition sample_configuration (m : Metric.t) : string :=
  sample_str_float (Metric.threshold m) +:+ ";" +:+ str_bool (Metric.strict_mode m).

(** A cached snapshot is reused only when it was taken for the same metric
    name and configuration, without error. *)
Definition sample_usable (m : Metric.t) (cmd : CachedMetricData.t) : bool :=
  let d := CachedMetricData.metric_data cmd in
  String.eqb (MetricData.name d) (Metric.__name__ m)
  && same_float (MetricData.threshold d) (Metric.threshold m)
  && Bool.eqb (MetricData.strictMode d) (Metric.strict_mode m)
  && bool_decide (MetricData.evaluationModel d = Metric.evaluation_model m)
  && bool_decide (MetricData.error d = None)
  && match MetricData.success d with Flag _ => true | FlagRaises _ => false end
  && String.eqb (CachedMetricData.metric_configuration cmd) (sample_configuration m).

Definition sample_get_metric_data (m : Metric.t) (c : CachedTestCase.t)
    : option CachedMetricData.t :=
  List.find (sample_usable m) (CachedTestCase.cached_metrics_data c).

(** The cache is keyed by the input, the outputs and the hyperparameters; the
    latest write wins, and nothing is kept while writing is disabled. *)
Definition sample_same_key (x : LLMTestCase.t) (hp : option Dict) (e : Event) : bool :=
  match e with
  | EvCacheTestCase y _ hp' _ =>
      String.eqb (LLMTestCase.input x) (LLMTestCase.input y)
      && String.eqb (LLMTestCase.actual_output x) (LLMTestCase.actual_output y)
      && bool_decide (LLMTestCase.expected_output x = LLMTestCase.expected_output y)
      && bool_decide (hp = hp')
  | _ => false
  end.

Definition sample_get_cached_test_case (disabled : bool) (writes : list Event)
    (x : LLMTestCase.t) (hp : option Dict) : option CachedTestCase.t :=
  if disabled then None
  else
    match List.find (sample_same_key x hp) (rev writes) with
    | Some (EvCacheTestCase _ c _ _) => Some c
    | _ => None
    end.

#[local] Instance env : Env := {|
  measure := sample_measure;
  is_successful := Metric.success;
  perf_counter_reading := fun n => (Z.of_nat n # 2);
  getenv_PYTEST_RUN_TEST_NAME := None;
  get_trace_stack := None;
  get_cached_test_case := sample_get_cached_test_case;
  Cache_get_metric_data := sample_get_metric_data;
  Cache_create_metric_configuration := sample_configuration;
  llm_update_metric_data := spec_llm_update_metric_data;
  llm_update_run_duration := spec_llm_update_run_duration;
  conv_update_metric_data := spec_conv_update_metric_data;
  conv_update_run_duration := spec_conv_update_run_duration;
  test_run_hyperparameters := None;
  should_ignore_errors := true;
  should_use_cache := false;
  should_verbose_print := None;
  get_is_running_deepeval := true;
  str_float := sample_str_float
|}.

Definition exact_match : Metric.t :=
  Metric.mk BaseMetric "ExactMatch" (1 # 2) false None None None false None None None
    true false.

Definition coherence : Metric.t :=
  Metric.mk BaseConversationalMetric "Coherence" (1 # 2) false None None None false
    None None None true false.

(** Metric [0] is single-turn, every other one conversational. *)
Definition metrics_store (i : nat) : Metric.t :=
  match i with O => exact_match | S _ => coherence end.

Definition question (actual : string) : LLMTestCase.t :=
  LLMTestCase.mk "question" actual (Some "yes") None None None None
    (Some [("own", "metadata")]) (Some "own comment") None.

(** Test case [0] fails the exact match, [1] and [3] pass it, on [2] the
    metric raises. *)
Definition test_case_store (i : nat) : LLMTestCase.t :=
  match i with
  | 0%nat => question "no"
  | 2%nat => question "boom"
  | _ => question "yes"
  end.

Definition blank_api_test_case : LLMApiTestCase.t :=
  LLMApiTestCase.mk "" "" "" None None None None None None None None None None None
    None None None.

Definition world : World :=
  mkWorld metrics_store test_case_store (fun _ => blank_api_test_case) 0 ∅ false
    false 0 [].

Definition message (id : nat) : Message.t := Message.mk true id.

(** A conversation whose three messages are all evaluated. *)
Definition conversation : ConversationalTestCase.t :=
  ConversationalTestCase.mk [message 0; message 1; message 3]
    (Some [("parent", "metadata")]) (Some "parent comment") None.

(** The parallel-invocation collaborator of this setting. *)
Definition indicator : Indicator := spec_measure_metrics_with_indicator.

End Sample.

(** The conversational records handed to [update_test_run], each with the
    test case it was handed over for. *)
Definition conversational_updates (evs : list Event)
    : list (ConversationalApiTestCase.t * TestCase) :=
  flat_map
    (fun e =>
       match e with
       | EvUpdateTestRun (ApiConversational a) test_case => [(a, test_case)]
       | _ => []
       end)
    evs.

(** A call made on behalf of a conversational unit. *)
Definition conversational_event (e : Event) : Prop :=
  match e with
  | EvMeasure _ (Conversational _) _
  | EvUpdateMetricData (ApiConversational _) _
  | EvUpdateRunDuration (ApiConversational _) _
  | EvUpdateTestRun (ApiConversational _) (Conversational _) => True
  | _ => False
  end.

(** A call that does not hand a conversational record to
    [update_test_run]. *)
Definition not_conversational_update (e : Event) : Prop :=
  match e with
  | EvUpdateTestRun (ApiConversational _) _ => False
  | _ => True
  end.

(** What a unit hands to [update_test_run] for conversations when no
    conversational metric is configured: nothing for a single-turn unit, one
    record without metric results for a conversation. *)
Definition bare_conversational_updates (units : list TestCase) (w w' : World) : Prop :=
  exists evs,
    trace w' = trace w ++ evs /\
    map snd (conversational_updates evs) = List.filter is_conversation units /\
    Forall (fun p => ConversationalApiTestCase.metricsData (fst p) = None)
      (conversational_updates evs).


(** A call other than a [measure] that raised. *)
Definition quiet (e : Event) : Prop :=
  match e with
  | EvMeasure _ _ (Some _) => False
  | _ => True
  end.

(** [propagates m]: [m] returns when no [measure] call it makes raises, and
    otherwise stops at the first one that does, raising its exception. *)
Definition propagates {A} (m : M A) : Prop :=
  forall w, exists evs,
    trace (snd (m w)) = trace w ++ evs /\
    match fst (m w) with
    | Return _ => Forall quiet evs
    | Raise ex =>
        exists evs0 metric test_case e,
          evs = evs0 ++ [EvMeasure metric test_case (Some e)] /\
          ex = PyException e /\ Forall quiet evs0
    end.

(** The MetricResult of a metric whose [measure] raised [e] while errors are
    ignored. *)
Definition records_failure (e : string) (metric_data : MetricData.t) : Prop :=
  MetricData.error metric_data = Some e /\
  MetricData.success metric_data = Flag false /\
  MetricData.score metric_data = None /\
  MetricData.reason metric_data = None.

(** What the loop body queues for the cache for a metric whose state after
    the body is [m] and whose MetricResult is [metric_data]: a copy with
    evaluation cost [0] when the metric finished without error, nothing
    otherwise. *)
Definition queued_for_cache `{Env} (m : Metric.t) (metric_data : MetricData.t)
    : list CachedMetricData.t :=
  match Metric.error m with
  | None =>
      [CachedMetricData.mk (MetricData.set_evaluationCost (Some 0%Q) metric_data)
         (Cache_create_metric_configuration m)]
  | Some _ => []
  end.

Definition costs_nothing (c : CachedMetricData.t) : Prop :=
  MetricData.evaluationCost (CachedMetricData.metric_data c) = Some 0%Q.

(** The record [create_api_test_case] builds for message number [index] of
    the conversation record [instance_id], from the message's test case as
    it is after the stamping. *)
Definition message_record (tc : LLMTestCase.t) (index : option Z)
    (instance_id : nat) : LLMApiTestCase.t :=
  LLMApiTestCase.mk ("message_" +:+ str_index index) (LLMTestCase.input tc)
    (LLMTestCase.actual_output tc) (LLMTestCase.expected_output tc)
    (LLMTestCase.context tc) (LLMTestCase.retrieval_context tc)
    (LLMTestCase.tools_used tc) (LLMTestCase.expected_tools tc) None None None None
    index (LLMTestCase.additional_metadata tc) (LLMTestCase.comments tc) None
    (Some instance_id).

(** The records handed to [update_test_run], in order. *)
Definition test_run_updates (evs : list Event) : list (ApiTestCase * TestCase) :=
  flat_map
    (fun e =>
       match e with
       | EvUpdateTestRun api_test_case test_case => [(api_test_case, test_case)]
       | _ => []
       end)
    evs.

Definition not_test_run_update (e : Event) : Prop :=
  match e with
  | EvUpdateTestRun _ _ => False
  | _ => True
  end.

(** The part of the state that only [create_api_test_case] changes: the
    identities handed out, the lookup map and the test case objects. *)
Definition objects (w : World) : nat * gmap nat nat * (nat -> LLMTestCase.t) :=
  (next_id w, llm_test_case_lookup_map w, llm_test_cases w).

(** The durations passed to [update_run_duration], in order. *)
Definition run_durations (evs : list Event) : list float :=
  flat_map
    (fun e =>
       match e with
       | EvUpdateRunDuration _ run_duration => [run_duration]
       | _ => []
       end)
    evs.

(** The metrics on which [measure] was called, in order. *)
Definition measured (evs : list Event) : list nat :=
  flat_map
    (fun e =>
       match e with
       | EvMeasure metric _ _ => [metric]
       | _ => []
       end)
    evs.

(** A metric result of a user-defined metric whose success flag cannot be
    evaluated. *)
Definition undefined_success : MetricData.t :=
  MetricData.mk "Custom" (1 # 2) None None (FlagRaises "score is undefined") false
    None None None None.

Definition custom_result : TestResult.t :=
  TestResult.mk (Some false) (Some [undefined_success]) "question" "no" None None None.

(** * Comparing the two strategies *)

(** What a metric is configured with: its state without the outcome of the
    last measurement and without the error. *)
Definition configuration (m : Metric.t) : Metric.t :=
  Metric.set_outcome None None false None None (Metric.set_error None m).

(** Collaborators that behave as the specification describes them: a metric
    is a scorer whose outcome is determined by its configuration and the
    test case and which does not reconfigure itself; a cached result is only
    served for a metric it was computed for, and never carries an error;
    the cache does not look at the concurrency mode; the api records append
    metric results and stamp durations. *)
Class Faithful (E : Env) : Prop := {
  measure_stateless :
    forall m test_case llm,
      measure m test_case llm = measure (configuration m) test_case llm;
  measure_configuration :
    forall m test_case llm,
      configuration (fst (measure m test_case llm)) = configuration m;
  is_successful_success : forall m, is_successful m = Metric.success m;
  get_metric_data_configuration :
    forall m c, Cache_get_metric_data m c = Cache_get_metric_data (configuration m) c;
  get_metric_data_async_mode :
    forall b m c,
      Cache_get_metric_data (Metric.set_async_mode b m) c = Cache_get_metric_data m c;
  create_metric_configuration_configuration :
    forall m,
      Cache_create_metric_configuration m =
      Cache_create_metric_configuration (configuration m);
  cache_hit_consistent :
    forall m c cmd,
      Cache_get_metric_data m c = Some cmd ->
      let d := CachedMetricData.metric_data cmd in
      MetricData.name d = Metric.__name__ m /\
      MetricData.threshold d = Metric.threshold m /\
      MetricData.strictMode d = Metric.strict_mode m /\
      MetricData.evaluationModel d = Metric.evaluation_model m /\
      MetricData.error d = None /\
      exists b, MetricData.success d = Flag b;
  llm_update_metric_data_spec :
    forall a d, llm_update_metric_data a d = spec_llm_update_metric_data a d;
  llm_update_run_duration_spec :
    forall a d, llm_update_run_duration a d = spec_llm_update_run_duration a d;
  conv_update_metric_data_spec :
    forall a d, conv_update_metric_data a d = spec_conv_update_metric_data a d;
  conv_update_run_duration_spec :
    forall a d, conv_update_run_duration a d = spec_conv_update_run_duration a d
}.

(** What the sequential loop body does to one metric object: the state it
    leaves and the MetricResult it obtains, or the exception. *)
Definition sequential_step `{Env} (ignore_errors : bool) (test_case : TestCase)
    (llm : nat -> LLMTestCase.t) (cached_test_case : option CachedTestCase.t)
    (m : Metric.t) : outcome (Metric.t * MetricData.t) :=
  match cached_metric_data m cached_test_case with
  | Some metric_data => Return (m, metric_data)
  | None =>
      let '(m', raised) := measure (Metric.set_async_mode false m) test_case llm in
      match raised with
      | None => Return (m', create_metric_data m')
      | Some e =>
          if ignore_errors then
            let m'' := Metric.set_success false (Metric.set_error (Some e) m') in
            Return (m'', create_metric_data m'')
          else Raise (PyException e)
      end
  end.

(** What [metric_runner] does to one metric object. *)
Definition concurrent_step `{Env} (ignore_errors : bool) (test_case : TestCase)
    (llm : nat -> LLMTestCase.t) (cached_test_case : option CachedTestCase.t)
    (m : Metric.t) : outcome Metric.t :=
  match cached_metric_data m cached_test_case with
  | Some metric_data => Return (load_cached metric_data m)
  | None =>
      let '(m', raised) :=
        measure (Metric.set_async_mode false (Metric.set_error None m)) test_case llm in
      match raised with
      | None => Return m'
      | Some e =>
          if ignore_errors then
            Return (Metric.set_success false (Metric.set_error (Some e) m'))
          else Raise (PyException e)
      end
  end.

(** The cache is only consulted for metric objects without error: either
    the lookup misses, or neither side carries an error. *)
Definition cache_ready `{Env} (cached_test_case : option CachedTestCase.t)
    (ms ma : Metric.t) : Prop :=
  cached_metric_data ma cached_test_case = None \/
  (Metric.error ms = None /\ Metric.error ma = None).

(** Records and calls without their wall-clock durations. *)
Definition erase_duration (a : LLMApiTestCase.t) : LLMApiTestCase.t :=
  LLMApiTestCase.mk (LLMApiTestCase.name a) (LLMApiTestCase.input a)
    (LLMApiTestCase.actualOutput a) (LLMApiTestCase.expectedOutput a)
    (LLMApiTestCase.context a) (LLMApiTestCase.retrievalContext a)
    (LLMApiTestCase.toolsUsed a) (LLMApiTestCase.expectedTools a)
    (LLMApiTestCase.success a) (LLMApiTestCase.metricsData a) None
    (LLMApiTestCase.evaluationCost a) (LLMApiTestCase.order a)
    (LLMApiTestCase.additionalMetadata a) (LLMApiTestCase.comments a)
    (LLMApiTestCase.traceStack a) (LLMApiTestCase.conversational_instance_id a).

Definition erase_conversational_duration (a : ConversationalApiTestCase.t)
    : ConversationalApiTestCase.t :=
  ConversationalApiTestCase.mk (ConversationalApiTestCase.name a)
    (ConversationalApiTestCase.success a) (ConversationalApiTestCase.metricsData a)
    None (ConversationalApiTestCase.evaluationCost a)
    (ConversationalApiTestCase.order a) (ConversationalApiTestCase.instance_id a)
    (ConversationalApiTestCase.messages a).

Definition erase_api_duration (a : ApiTestCase) : ApiTestCase :=
  match a with
  | ApiLLM ref => ApiLLM ref
  | ApiConversational c => ApiConversational (erase_conversational_duration c)
  end.

Definition erase_event_duration (e : Event) : Event :=
  match e with
  | EvMeasure metric test_case raised => EvMeasure metric test_case raised
  | EvUpdateMetricData a d => EvUpdateMetricData (erase_api_duration a) d
  | EvUpdateRunDuration a _ => EvUpdateRunDuration (erase_api_duration a) 0%Q
  | EvUpdateTestRun a test_case => EvUpdateTestRun (erase_api_duration a) test_case
  | EvCacheTestCase x c hp to_temp => EvCacheTestCase x c hp to_temp
  end.

Definition is_measure (e : Event) : bool :=
  match e with EvMeasure _ _ _ => true | _ => false end.

(** The calls made on records, on the test run and on the cache, in order
    and without durations. *)
Definition observable (tr : list Event) : list Event :=
  map erase_event_duration (List.filter (fun e => negb (is_measure e)) tr).

(** Two states that agree on everything but the metric objects, up to
    durations and to the position of the [measure] calls in the trace. *)
Record same_records (ws wa : World) : Prop := {
  same_llm_test_cases : llm_test_cases ws = llm_test_cases wa;
  same_api_test_cases :
    forall ref,
      erase_duration (api_test_cases ws ref) = erase_duration (api_test_cases wa ref);
  same_next_id : next_id ws = next_id wa;
  same_lookup_map : llm_test_case_lookup_map ws = llm_test_case_lookup_map wa;
  same_disable_write_cache : disable_write_cache ws = disable_write_cache wa;
  same_perf_counter_calls : perf_counter_calls ws = perf_counter_calls wa;
  same_observable : observable (trace ws) = observable (trace wa)
}.

(** Two states whose metric objects are configured alike. *)
Definition same_configurations (ws wa : World) : Prop :=
  forall i, configuration (metric_objects ws i) = configuration (metric_objects wa i).

(** [agree RA ms ma], for computations that leave the metric objects alone:
    from states with the same records, [ms] and [ma] either both return,
    values related by [RA] and states with the same records again, or both
    raise the same exception. *)
Definition agree {A B} (RA : A -> B -> Prop) (ms : M A) (ma : M B) : Prop :=
  forall ws wa,
    same_records ws wa ->
    match ms ws, ma wa with
    | (Return a, ws'), (Return b, wa') =>
        RA a b /\ same_records ws' wa' /\
        metric_objects ws' = metric_objects ws /\
        metric_objects wa' = metric_objects wa
    | (Raise e, _), (Raise e', _) => e = e'
    | _, _ => False
    end.

(** [only_measured w w']: from [w] to [w'] only metric objects changed and
    only [measure] calls were made. *)
Definition only_measured (w w' : World) : Prop :=
  w' = with_trace (trace w') (with_metric_objects (metric_objects w') w) /\
  observable (trace w') = observable (trace w).

Definition same_kinds (w w' : World) : Prop :=
  forall i, Metric.kind (metric_objects w' i) = Metric.kind (metric_objects w i).

(** [outcomes Q r1 r2]: two runs both returned, with results related by
    [Q], or both raised the same exception. *)
Definition outcomes {C D} (Q : C -> World -> D -> World -> Prop)
    (r1 : outcome C * World) (r2 : outcome D * World) : Prop :=
  match r1, r2 with
  | (Return c, w1), (Return d, w2) => Q c w1 d w2
  | (Raise e, _), (Raise e', _) => e = e'
  | _, _ => False
  end.

(** What is compared after a unit of work from the states [ws] and [wa]. *)
Definition units_agree (ws : World) (l : Locals) (ws' : World) (l' : Locals)
    (wa' : World) : Prop :=
  l = l' /\ same_records ws' wa' /\ same_configurations ws' wa' /\ same_kinds ws ws'.

(** * Further vocabulary: the batch as a whole *)

(** A state that differs from [w] only in what a batch call overwrites
    before it starts: the lookup map of message records and the two
    switches of the cache and test run managers. *)
Definition left_over (lookup : gmap nat nat) (dis std : bool) (w : World) : World :=
  with_lookup_map lookup (with_switches dis std w).

(** The two switches a batch call sets. *)
Definition switches (w : World) : bool * bool := (disable_write_cache w, save_to_disk w).

(** The position of the first message of [messages] that refers to
    [test_case]. *)
Fixpoint first_index (test_case : nat) (messages : list Message.t) : nat :=
  match messages with
  | [] => 0
  | message :: rest =>
      if Nat.eqb (Message.llm_test_case message) test_case then 0
      else S (first_index test_case rest)
  end.

(** A test case object of the state [w] after [create_api_test_case] has
    stamped it with a conversation's metadata and comments. *)
Definition stamped (additional_metadata : option Dict) (comments : option string)
    (w : World) (test_case : nat) : LLMTestCase.t :=
  LLMTestCase.stamp additional_metadata comments (llm_test_cases w test_case).

(** What reaches the test run manager and the cache manager, in order:
    [update_test_run(_, test_case)] and [cache_test_case(..., to_temp)]. *)
Inductive ManagerCall :=
  | Handed (test_case : TestCase)
  | Written (to_temp : bool).

Definition manager_calls (evs : list Event) : list ManagerCall :=
  flat_map
    (fun e =>
       match e with
       | EvUpdateTestRun _ test_case => [Handed test_case]
       | EvCacheTestCase _ _ _ to_temp => [Written to_temp]
       | _ => []
       end)
    evs.

(** A call that reaches neither manager. *)
Definition silent (e : Event) : Prop :=
  match e with
  | EvUpdateTestRun _ _ | EvCacheTestCase _ _ _ _ => False
  | _ => True
  end.

(** The manager calls of one unit of work that is carried through. *)
Definition unit_calls (llm_metrics : list nat) (unit : TestCase) : list ManagerCall :=
  match unit, llm_metrics with
  | LLM _, [] => []
  | LLM _, _ :: _ => [Handed unit; Written false; Written true]
  | Conversational _, _ => [Handed unit]
  end.

(** [hands_over calls m]: [m] makes the manager calls [calls] when it
    returns and none when it raises. *)
Definition hands_over {A} (calls : list ManagerCall) (m : M A) : Prop :=
  forall w, exists evs,
    trace (snd (m w)) = trace w ++ evs /\
    manager_calls evs =
      match fst (m w) with
      | Return _ => calls
      | Raise _ => []
      end.

(** A [measure] call that [execute_test_cases], called in the state [w] with
    [metrics], may make: on a metric of the batch, and on a test case of the
    variant the metric's class supports. *)
Definition fitting (w : World) (metrics : list nat) (e : Event) : Prop :=
  match e with
  | EvMeasure metric (LLM _) _ =>
      In metric metrics /\ Metric.kind (metric_objects w metric) = BaseMetric
  | EvMeasure metric (Conversational _) _ =>
      In metric metrics /\
      Metric.kind (metric_objects w metric) = BaseConversationalMetric
  | _ => True
  end.

(** Whether no [measure] call is among [evs]. *)
Definition none_measured (evs : list Event) : bool :=
  match measured evs with [] => true | _ :: _ => false end.

(** The metrics a unit of work is measured by. *)
Definition unit_metrics (llm_metrics conversational_metrics : list nat)
    (unit : TestCase) : list nat :=
  match unit with
  | LLM _ => llm_metrics
  | Conversational _ => conversational_metrics
  end.

(** [measures w0 l m]: from a state whose metric objects have the classes
    they have in [w0], [m] calls [measure] on the metrics [l], in order and
    on nothing else, up to the first call that makes it raise; when it
    returns, all of [l] were measured and the classes are as before. *)
Definition measures {A} (w0 : World) (l : list nat) (m : M A) : Prop :=
  forall w, same_kinds w0 w ->
    exists evs rest,
      trace (snd (m w)) = trace w ++ evs /\
      l = measured evs ++ rest /\
      match fst (m w) with
      | Return _ => rest = [] /\ same_kinds w0 (snd (m w))
      | Raise _ => True
      end.

(** * Further vocabulary: the pass rates *)

(** All metric results of a list of test results, in order. *)
Definition all_metrics_data (test_results : list TestResult.t) : list MetricData.t :=
  flat_map (fun result => default [] (TestResult.metrics_data result)) test_results.

(** The metric results reported under [metric_name]. *)
Definition named (metric_name : string) (l : list MetricData.t) : list MetricData.t :=
  List.filter (fun metric_data => String.eqb (MetricData.name metric_data) metric_name) l.

(** A metric result whose success flag is true. *)
Definition passed (metric_data : MetricData.t) : bool :=
  match MetricData.success metric_data with
  | Flag b => b
  | FlagRaises _ => false
  end.

(** The two dictionaries of [aggregate_metric_pass_rates] after the metric
    results [l]: a name is a key as soon as a result carries it, with the
    number of these results and the number of those that passed. *)
Definition tallied (l : list MetricData.t) (acc : gmap string nat * gmap string nat)
    : Prop :=
  forall metric_name,
    match length (named metric_name l) with
    | O => fst acc !! metric_name = None /\ snd acc !! metric_name = None
    | S k =>
        fst acc !! metric_name = Some (S k) /\
        snd acc !! metric_name =
          Some (length (List.filter passed (named metric_name l)))
    end.

(** * [print_test_result]

    What is printed is kept as the sequence of [print] calls; a call whose
    argument is an f-string is kept with the values the f-string
    interpolates rather than with Python's rendering of them. *)
Inductive Output :=
  | OutText (line : string)
  | OutMetric (successful : bool) (metric_data : MetricData.t)
  | OutInput (input : string)
  | OutActualOutput (actual_output : string)
  | OutExpectedOutput (expected_output : option string)
  | OutContext (context : option (list string))
  | OutRetrievalContext (retrieval_context : option (list string))
  | OutPassRate (metric : string) (pass_rate : Q).

Definition newline : string := String (Ascii.ascii_of_nat 10) EmptyString.

(** ["=" * 70] *)
Fixpoint repeat_string (n : nat) (s : string) : string :=
  match n with
  | O => EmptyString
  | S n' => s +:+ repeat_string n' s
  end.

Definition rule : string := repeat_string 70 "=".

(** The flag [successful] that selects the mark of a metric's line: false
    for an error, for a false success flag and for a flag that raises. *)
Definition successful (metric_data : MetricData.t) : bool :=
  match MetricData.error metric_data with
  | Some _ => false
  | None =>
      match MetricData.success metric_data with
      | Flag b => b
      | FlagRaises _ => false
      end
  end.

(** The [print] calls made, and how the function ends. *)
Definition print_test_result (test_result : TestResult.t)
    : list Output * outcome unit :=
  let header :=
    [OutText ""; OutText (rule +:+ newline); OutText ("Metrics Summary" +:+ newline)] in
  match TestResult.metrics_data test_result with
  | None => (header, Raise (PyException "'NoneType' object is not iterable"))
  | Some metrics_data =>
      (header ++
       map (fun metric_data => OutMetric (successful metric_data) metric_data)
         metrics_data ++
       [OutText ""; OutText ("For test case:" +:+ newline);
        OutInput (TestResult.input test_result);
        OutActualOutput (TestResult.actual_output test_result);
        OutExpectedOutput (TestResult.expected_output test_result);
        OutContext (TestResult.context test_result);
        OutRetrievalContext (TestResult.retrieval_context test_result)],
       Return tt)
  end.

(** * [evaluate] *)

(** A value of the [hyperparameters] dictionary: [Union[str, int, float]]. *)
Inductive HyperValue :=
  | HStr (s : string)
  | HInt (z : Z)
  | HFloat (x : float).

(** What [evaluate] does besides running the batch, in order: its calls on
    [set_indicator] and on [global_test_run_manager], what it prints, and,
    as one step, the calls the batch made. *)
Inductive Step :=
  | StSetIndicator (show_indicator : bool)
  | StReset
  | StPrint (o : Output)
  | StBatch (calls : list Event)
  | StSetHyperparameters (hyperparameters : option Dict)
  | StSaveTestRun
  | StWrapUp (run_duration : float) (display_table : bool).

(** How [evaluate] ends. *)
Inductive Ended :=
  | Returned (test_results : list TestResult.t)
  | RaisedValueError (msg : string)
  | RaisedOther (e : Exn).

Record Evaluation := mkEvaluation {
  ended : Ended;
  steps : list Step;
  evaluated_test_cases : list TestCase;
  evaluated_world : World
}.

(** The keys of a dictionary filled in the order of [names]: each name at
    its first occurrence. *)
Fixpoint keys_in_order (names : list string) : list string :=
  match names with
  | [] => []
  | metric :: rest =>
      metric :: List.filter (fun metric' => negb (String.eqb metric' metric))
                  (keys_in_order rest)
  end.

(** What [aggregate_metric_pass_rates] prints once the table [rates] is
    computed. *)
Definition print_pass_rates (test_results : list TestResult.t)
    (rates : gmap string Q) : list Output :=
  [OutText (newline +:+ rule +:+ newline);
   OutText ("Overall Metric Pass Rates" +:+ newline)] ++
  map (fun metric => OutPassRate metric (default 0%Q (rates !! metric)))
    (keys_in_order (map MetricData.name (all_metrics_data test_results))) ++
  [OutText (newline +:+ rule +:+ newline)].

(** [for test_result in test_results: print_test_result(test_result)] *)
Fixpoint print_test_results (test_results : list TestResult.t)
    : list Output * outcome unit :=
  match test_results with
  | [] => ([], Return tt)
  | test_result :: rest =>
      match print_test_result test_result with
      | (printed, Raise e) => (printed, Raise e)
      | (printed, Return _) =>
          let '(printed', end') := print_test_results rest in
          (printed ++ printed', end')
      end
  end.

(** The [if print_results:] block after the batch. *)
Definition print_all (test_results : list TestResult.t) : list Output * outcome unit :=
  match print_test_results test_results with
  | (printed, Raise e) => (printed, Raise e)
  | (printed, Return _) =>
      match aggregate_metric_pass_rates test_results with
      | Raise e => (printed, Raise e)
      | Return rates => (printed ++ print_pass_rates test_results rates, Return tt)
      end
  end.

(** The [hyperparameters] test of [evaluate]. *)
Definition lacks_key (hyperparameters : option (gmap string HyperValue)) : bool :=
  match hyperparameters with
  | Some h =>
      match h !! "model", h !! "prompt template" with
      | Some _, Some _ => false
      | _, _ => true
      end
  | None => false
  end.

Definition hyperparameters_message : string :=
  "A `model` and `prompt template` key must be provided when logging `hyperparameters`.".

(** [evaluate].  [process_hyperparameters] (deepeval.test_run.hyperparameters)
    is a parameter, as [measure_metrics_with_indicator] is; the telemetry
    context managers are left out. *)
Definition evaluate `{Env} (measure_metrics_with_indicator : Indicator)
    (process_hyperparameters : gmap string HyperValue -> Dict)
    (test_cases : list TestCase) (metrics : list nat)
    (hyperparameters : option (gmap string HyperValue))
    (run_async show_indicator print_results write_cache use_cache ignore_errors : bool)
    (verbose_mode : option bool) (w : World) : Evaluation :=
  if lacks_key hyperparameters then
    mkEvaluation (RaisedValueError hyperparameters_message) [] test_cases w
  else
    let hyperparameters := option_map process_hyperparameters hyperparameters in
    let start_time := perf_counter_reading (perf_counter_calls w) in
    let w1 := with_perf_counter_calls (S (perf_counter_calls w)) w in
    let before :=
      [StSetIndicator show_indicator; StReset] ++
      (if print_results then [StPrint (OutText "Evaluating test cases...")] else []) in
    let call :=
      if run_async then
        a_execute_test_cases measure_metrics_with_indicator test_cases metrics
          ignore_errors use_cache write_cache verbose_mode w1
      else
        execute_test_cases test_cases metrics ignore_errors use_cache write_cache
          verbose_mode w1 in
    let batch := StBatch (drop (length (trace w1)) (trace (world_after call))) in
    match returned call with
    | Raise e =>
        mkEvaluation (RaisedOther e) (before ++ [batch]) (test_cases_after call)
          (world_after call)
    | Return test_results =>
        let end_time :=
          perf_counter_reading (perf_counter_calls (world_after call)) in
        let w2 :=
          with_perf_counter_calls (S (perf_counter_calls (world_after call)))
            (world_after call) in
        let run_duration := (end_time - start_time)%Q in
        let '(printed, end_of_printing) :=
          if print_results then print_all test_results else ([], Return tt) in
        match end_of_printing with
        | Raise e =>
            mkEvaluation (RaisedOther e) (before ++ [batch] ++ map StPrint printed)
              (test_cases_after call) w2
        | Return _ =>
            mkEvaluation (Returned test_results)
              (before ++ [batch] ++ map StPrint printed ++
               [StSetHyperparameters hyperparameters; StSaveTestRun;
                StWrapUp run_duration false])
              (test_cases_after call) w2
        end
    end.

(** A step that is none of the three calls that close the test run. *)
Definition open_step (s : Step) : Prop :=
  match s with
  | StSetHyperparameters _ | StSaveTestRun | StWrapUp _ _ => False
  | _ => True
  end.

Definition is_print (s : Step) : bool :=
  match s with StPrint _ => true | _ => false end.
(** * Properties *)

(** ** Reasoning about computations in [M] *)

Lemma post_ret {A} (a : A) w (Q : A -> World -> Prop) : Q a w -> post (ret a) w Q.
Proof. exact id. Qed.

Lemma post_bind {A B} (m : M A) (k : A -> M B) w (Q : B -> World -> Prop) :
  post m w (fun a w' => post (k a) w' Q) -> post (bind m k) w Q.
Proof. unfold post, bind. destruct (m w) as [[a|e] w']; auto. Qed.

Lemma post_mono {A} (m : M A) w (Q Q' : A -> World -> Prop) :
  (forall a w', Q a w' -> Q' a w') -> post m w Q -> post m w Q'.
Proof. unfold post. destruct (m w) as [[a|e] w']; auto. Qed.

Lemma post_bind_any {A B} (m : M A) (k : A -> M B) w (Q : B -> World -> Prop) :
  (forall a w', post (k a) w' Q) -> post (bind m k) w Q.
Proof. intros Hk. apply post_bind. unfold post. destruct (m w) as [[a|e] w']; auto. apply Hk. Qed.

Lemma post_returned {A} (m : M A) w (Q : A -> World -> Prop) a w' :
  post m w Q -> m w = (Return a, w') -> Q a w'.
Proof. unfold post. intros HQ E. now rewrite E in HQ. Qed.

Lemma post_for_each {A S} (body : A -> S -> M S) (I : S -> World -> Prop) l :
  (forall x acc w, I acc w -> post (body x acc) w I) ->
  forall acc w, I acc w -> post (for_each body l acc) w I.
Proof.
  intros Hbody. induction l as [|x l IH]; intros acc w HI; simpl.
  - exact HI.
  - apply post_bind. eapply post_mono; [|apply Hbody; exact HI].
    intros acc' w' HI'. now apply IH.
Qed.

Lemma returns_ret {A} (a : A) : returns (ret a).
Proof. intros w. now exists a, w. Qed.

Lemma returns_bind {A B} (m : M A) (k : A -> M B) :
  returns m -> (forall a, returns (k a)) -> returns (bind m k).
Proof.
  intros Hm Hk w. unfold bind. destruct (Hm w) as (a & w' & ->). apply Hk.
Qed.

Lemma returns_for_each {A S} (body : A -> S -> M S) l :
  (forall x acc, returns (body x acc)) -> forall acc, returns (for_each body l acc).
Proof.
  intros Hbody. induction l as [|x l IH]; intros acc; simpl.
  - apply returns_ret.
  - apply returns_bind; auto.
Qed.

Lemma returns_modify f : returns (modify f).
Proof. intros w. now exists tt, (f w). Qed.

Lemma returns_get : returns get.
Proof. intros w. now exists w, w. Qed.

Lemma keeps_ret {A B} (f : World -> B) (a : A) : keeps f (ret a).
Proof. now intros w. Qed.

Lemma keeps_raise {A B} (f : World -> B) e : keeps f (@raise A e).
Proof. now intros w. Qed.

Lemma keeps_bind {A B C} (f : World -> C) (m : M A) (k : A -> M B) :
  keeps f m -> (forall a, keeps f (k a)) -> keeps f (bind m k).
Proof.
  intros Hm Hk w. unfold bind. specialize (Hm w).
  destruct (m w) as [[a|e] w']; simpl in *; [|exact Hm].
  now rewrite Hk.
Qed.

Lemma keeps_for_each {A S C} (f : World -> C) (body : A -> S -> M S) l :
  (forall x acc, keeps f (body x acc)) -> forall acc, keeps f (for_each body l acc).
Proof.
  intros Hbody. induction l as [|x l IH]; intros acc; simpl.
  - apply keeps_ret.
  - apply keeps_bind; auto.
Qed.

Lemma for_each_app {A S} (body : A -> S -> M S) l1 l2 acc w :
  for_each body (l1 ++ l2) acc w =
  bind (for_each body l1 acc) (for_each body l2) w.
Proof.
  revert acc w. induction l1 as [|x l1 IH]; intros acc w; simpl.
  - reflexivity.
  - unfold bind in *. destruct (body x acc w) as [[a|e] w']; auto.
Qed.

Create HintDb returns.
Create HintDb keeps.
#[local] Hint Resolve returns_ret returns_modify returns_get : returns.
#[local] Hint Resolve keeps_ret keeps_raise : keeps.

(** ** Flattening *)

Lemma messages_to_append_are_single_turn test_case :
  flat_map messages_to_append (messages_to_append test_case) = [].
Proof.
  destruct test_case as [id|c]; simpl; [reflexivity|].
  induction (List.filter _ _) as [|m l IH]; simpl; auto.
Qed.

Lemma append_messages_closed_form fuel : forall pending test_cases,
  (length pending + length (flat_map messages_to_append pending) <= fuel)%nat ->
  append_messages fuel pending test_cases =
  test_cases ++ flat_map messages_to_append pending.
Proof.
  induction fuel as [|fuel IH]; intros pending test_cases Hfuel.
  - destruct pending; simpl in *; [now rewrite app_nil_r|lia].
  - destruct pending as [|tc rest]; simpl; [now rewrite app_nil_r|].
    rewrite IH.
    + rewrite flat_map_app, messages_to_append_are_single_turn, app_nil_r.
      now rewrite <- app_assoc.
    + rewrite flat_map_app, messages_to_append_are_single_turn, app_nil_r.
      simpl in Hfuel. rewrite !length_app in *. lia.
Qed.

(** The loop visits every element and leaves the original list followed by
    the evaluated messages of its conversations, in order. *)
Lemma flatten_test_cases_closed_form test_cases :
  flatten_test_cases test_cases =
  test_cases ++ flat_map messages_to_append test_cases.
Proof.
  unfold flatten_test_cases, visits. apply append_messages_closed_form.
  rewrite length_app. lia.
Qed.

Lemma evaluated_message_is_appended test_cases test_case :
  In test_case test_cases -> has_evaluated_message test_case ->
  (0 < length (flat_map messages_to_append test_cases))%nat.
Proof.
  intros Hin Hmsg. destruct test_case as [id|c]; [contradiction|].
  destruct Hmsg as (message & Hm & Heval).
  assert (Hin' : In (LLM (Message.llm_test_case message))
                   (flat_map messages_to_append test_cases)).
  { apply in_flat_map. exists (Conversational c). split; [exact Hin|].
    simpl. apply (in_map (fun m => LLM (Message.llm_test_case m))).
    apply filter_In. auto. }
  destruct (flat_map messages_to_append test_cases); [contradiction|simpl; lia].
Qed.


Lemma emits_keeps {A} (P : Event -> Prop) (m : M A) : keeps trace m -> emits P m.
Proof. intros Hm w. exists []. rewrite app_nil_r. auto. Qed.

Lemma emits_emit (P : Event -> Prop) e : P e -> emits P (emit e).
Proof. intros He w. exists [e]. simpl. auto. Qed.

Lemma emits_bind {A B} (P : Event -> Prop) (m : M A) (k : A -> M B) :
  emits P m -> (forall a, emits P (k a)) -> emits P (bind m k).
Proof.
  intros Hm Hk w. unfold bind. destruct (Hm w) as (evs & Ht & Hevs).
  destruct (m w) as [[a|e] w']; simpl in *; [|eauto].
  destruct (Hk a w') as (evs' & Ht' & Hevs').
  exists (evs ++ evs'). rewrite Ht', Ht, app_assoc. split; [reflexivity|].
  apply Forall_app; auto.
Qed.

Lemma emits_for_each {A S} (P : Event -> Prop) (body : A -> S -> M S) l :
  (forall x acc, emits P (body x acc)) -> forall acc, emits P (for_each body l acc).
Proof.
  intros Hbody. induction l as [|x l IH]; intros acc; simpl.
  - apply emits_keeps, keeps_ret.
  - apply emits_bind; auto.
Qed.

Lemma emits_mono {A} (P P' : Event -> Prop) (m : M A) :
  (forall e, P e -> P' e) -> emits P m -> emits P' m.
Proof.
  intros HP Hm w. destruct (Hm w) as (evs & Ht & Hevs). exists evs.
  split; [exact Ht|]. eapply Forall_impl; eauto.
Qed.

Ltac keeps_tac :=
  repeat first
    [ apply keeps_ret
    | apply keeps_raise
    | apply keeps_bind; [|intros]
    | apply keeps_for_each; intros
    | match goal with |- keeps _ (match ?x with _ => _ end) => destruct x end
    | solve [intros ?; reflexivity]
    | solve [auto with keeps] ].

Ltac returns_tac :=
  repeat first
    [ apply returns_ret
    | apply returns_modify
    | apply returns_get
    | apply returns_bind; [|intros]
    | apply returns_for_each; intros
    | match goal with |- returns (match ?x with _ => _ end) => destruct x end
    | solve [intros w; eexists; eexists; reflexivity]
    | solve [auto with returns] ].

Ltac emits_tac :=
  repeat first
    [ apply emits_bind; [|intros]
    | apply emits_for_each; intros
    | match goal with |- emits _ (match ?x with _ => _ end) => destruct x end
    | solve [apply emits_emit; simpl; auto]
    | solve [apply emits_keeps; keeps_tac] ].

Section Executors.
Context `{Env}.

(** ** The primitive operations and the record builders *)

Lemma returns_reset_errors metrics : returns (reset_errors metrics).
Proof. unfold reset_errors. returns_tac. Qed.

Lemma keeps_trace_reset_errors metrics : keeps trace (reset_errors metrics).
Proof. unfold reset_errors. keeps_tac. Qed.

Lemma returns_create_llm_api_test_case test_case index cid amd com :
  returns (create_llm_api_test_case test_case index cid amd com).
Proof. unfold create_llm_api_test_case. returns_tac. Qed.

Lemma keeps_trace_create_llm_api_test_case test_case index cid amd com :
  keeps trace (create_llm_api_test_case test_case index cid amd com).
Proof. unfold create_llm_api_test_case. keeps_tac. Qed.

Lemma returns_create_conversational_api_test_case c index :
  returns (create_conversational_api_test_case c index).
Proof.
  unfold create_conversational_api_test_case. returns_tac.
Qed.

Lemma keeps_trace_create_conversational_api_test_case c index :
  keeps trace (create_conversational_api_test_case c index).
Proof.
  unfold create_conversational_api_test_case. keeps_tac.
Qed.

Lemma returns_measure_guarded metric test_case :
  returns (measure_guarded true metric test_case).
Proof.
  unfold measure_guarded. apply returns_bind.
  - intros w. unfold call_measure. destruct (measure _ _ _). eauto.
  - intros [e|]; returns_tac.
Qed.

Lemma returns_create_test_result ref : returns (create_test_result (ApiLLM ref)).
Proof. simpl. returns_tac. Qed.

Lemma returns_llm_metric_body test_case cached api metric acc :
  returns (llm_metric_body true test_case cached api metric acc).
Proof.
  unfold llm_metric_body. apply returns_bind; [returns_tac|intros m].
  apply returns_bind.
  - destruct (cached_metric_data m cached); [returns_tac|].
    apply returns_bind; [returns_tac|intros _].
    apply returns_bind; [apply returns_measure_guarded|intros _]. returns_tac.
  - intros [metric_data read_all]. returns_tac.
Qed.

Lemma returns_execute_llm_test_case llm_metrics use_cache test_case loc :
  returns (execute_llm_test_case llm_metrics true use_cache test_case loc).
Proof.
  unfold execute_llm_test_case. destruct llm_metrics as [|m ms]; [returns_tac|].
  apply returns_bind; [returns_tac|intros cached].
  apply returns_bind; [apply returns_create_llm_api_test_case|intros api].
  apply returns_bind; [returns_tac|intros t0].
  apply returns_bind.
  { apply returns_for_each. intros. apply returns_llm_metric_body. }
  intros [read_all new_cached]. unfold finish_llm_test_case. returns_tac.
Qed.

Lemma returns_conversational_metric_body c metric api :
  returns (conversational_metric_body true c metric api).
Proof.
  unfold conversational_metric_body. apply returns_bind; [returns_tac|intros m].
  destruct (is_BaseConversationalMetric _); [|returns_tac].
  apply returns_bind; [returns_tac|intros _].
  apply returns_bind; [apply returns_measure_guarded|intros _]. returns_tac.
Qed.

Lemma returns_execute_conversational_test_case conversational_metrics c loc :
  returns (execute_conversational_test_case conversational_metrics true c loc).
Proof.
  unfold execute_conversational_test_case.
  apply returns_bind; [apply returns_create_conversational_api_test_case|intros api].
  apply returns_bind; [returns_tac|intros t0].
  apply returns_bind.
  { apply returns_for_each. intros. apply returns_conversational_metric_body. }
  intros api'. unfold finish_conversational_test_case. returns_tac.
Qed.

Lemma returns_execute_test_case metrics llm_metrics conversational_metrics
    use_cache test_case loc :
  returns (execute_test_case metrics llm_metrics conversational_metrics true
             use_cache test_case loc).
Proof.
  unfold execute_test_case.
  apply returns_bind; [apply returns_reset_errors|intros _].
  destruct test_case.
  - apply returns_execute_llm_test_case.
  - apply returns_execute_conversational_test_case.
Qed.

Lemma returns_prepare save_to_disk verbose_mode metrics :
  returns (prepare save_to_disk verbose_mode metrics).
Proof. unfold prepare, set_verbose_modes. returns_tac. Qed.

(** With [ignore_errors] set the sequential executor returns a list. *)
Lemma execute_test_cases_returns test_cases metrics use_cache save_to_disk
    verbose_mode w :
  exists results,
    returned (execute_test_cases test_cases metrics true use_cache save_to_disk
                verbose_mode w) = Return results.
Proof.
  unfold execute_test_cases, run_batch; simpl.
  match goal with |- context [fst (?m w)] => assert (Hr : returns m) end.
  { apply returns_bind; [apply returns_prepare|intros _].
    apply returns_bind; [returns_tac|intros w0].
    apply returns_bind; [|returns_tac].
    apply returns_for_each. intros. apply returns_execute_test_case. }
  destruct (Hr w) as (a & w' & ->). now exists a.
Qed.

(** ** Which units contribute to the returned list *)

Ltac post_any :=
  repeat
    lazymatch goal with
    | |- post (bind _ _) _ _ => apply post_bind_any; intros
    | |- post (match ?x with _ => _ end) _ _ => destruct x
    end.

Lemma finish_llm_test_case_results test_case api new_cached count loc w :
  post (finish_llm_test_case test_case api new_cached count loc) w
    (fun loc' _ => length (test_results loc') = S (length (test_results loc))).
Proof.
  unfold finish_llm_test_case. post_any. apply post_ret. simpl.
  rewrite length_app. simpl. lia.
Qed.

Lemma finish_conversational_test_case_results cms c api t0 t1 loc w :
  post (finish_conversational_test_case cms c api t0 t1 loc) w
    (fun loc' _ => test_results loc' = test_results loc).
Proof. unfold finish_conversational_test_case. post_any; now apply post_ret. Qed.

Lemma execute_test_case_results metrics llm_metrics cms ie uc test_case loc w :
  post (execute_test_case metrics llm_metrics cms ie uc test_case loc) w
    (fun loc' _ =>
       length (test_results loc') =
       (length (test_results loc) + expected_results llm_metrics [test_case])%nat).
Proof.
  unfold execute_test_case. apply post_bind_any. intros _ w1.
  destruct test_case as [id|c].
  - unfold execute_llm_test_case. destruct llm_metrics as [|m ms].
    + apply post_ret. simpl. lia.
    + post_any. eapply post_mono; [|apply finish_llm_test_case_results].
      simpl. intros. lia.
  - unfold execute_conversational_test_case. post_any.
    eapply post_mono; [|apply finish_conversational_test_case_results].
    simpl. intros ? ? ->. destruct llm_metrics; simpl; lia.
Qed.

Lemma a_execute_test_case_results ind metrics llm_metrics cms ie uc test_case loc w :
  post (a_execute_test_case ind metrics llm_metrics cms ie uc test_case loc) w
    (fun loc' _ =>
       length (test_results loc') =
       (length (test_results loc) + expected_results llm_metrics [test_case])%nat).
Proof.
  unfold a_execute_test_case. destruct test_case as [id|c].
  - unfold a_execute_llm_test_case. destruct llm_metrics as [|m ms].
    + apply post_ret. simpl. lia.
    + post_any. eapply post_mono; [|apply finish_llm_test_case_results].
      simpl. intros. lia.
  - unfold a_execute_conversational_test_case. post_any.
    eapply post_mono; [|apply finish_conversational_test_case_results].
    simpl. intros ? ? ->. destruct llm_metrics; simpl; lia.
Qed.

Lemma expected_results_cons llm_metrics test_case units :
  expected_results llm_metrics (test_case :: units) =
  (expected_results llm_metrics [test_case] + expected_results llm_metrics units)%nat.
Proof. destruct llm_metrics; simpl; [reflexivity|]. destruct (is_single_turn _); simpl; lia. Qed.

Lemma for_each_results (body : TestCase -> Locals -> M Locals) llm_metrics :
  (forall test_case loc w,
     post (body test_case loc) w
       (fun loc' _ =>
          length (test_results loc') =
          (length (test_results loc) + expected_results llm_metrics [test_case])%nat)) ->
  forall units loc w,
    post (for_each body units loc) w
      (fun loc' _ =>
         length (test_results loc') =
         (length (test_results loc) + expected_results llm_metrics units)%nat).
Proof.
  intros Hbody. induction units as [|tc units IH]; intros loc w.
  - apply post_ret. destruct llm_metrics; simpl; lia.
  - cbn [for_each]. apply post_bind. eapply post_mono; [|apply Hbody].
    intros loc1 w1 H1. eapply post_mono; [|apply IH].
    cbv beta in *. intros loc2 _ H2. rewrite (expected_results_cons _ tc units). lia.
Qed.

(** [prepare] changes no metric's class. *)
Lemma prepare_kind save_to_disk verbose_mode metrics i :
  keeps (fun w => Metric.kind (metric_objects w i))
    (prepare save_to_disk verbose_mode metrics).
Proof.
  unfold prepare, set_verbose_modes.
  apply keeps_bind; [intros w; reflexivity|intros _].
  apply keeps_bind; [|intros _ w; reflexivity].
  destruct verbose_mode as [v|]; [|apply keeps_ret].
  apply keeps_for_each. intros metric _ w. simpl. unfold update.
  destruct (Nat.eqb_spec i metric) as [->|]; reflexivity.
Qed.

Lemma prepare_select p save_to_disk verbose_mode metrics w l :
  select_metrics p (snd (prepare save_to_disk verbose_mode metrics w)) l =
  select_metrics p w l.
Proof.
  unfold select_metrics. induction l as [|i l IH]; simpl; [reflexivity|].
  rewrite IH. now rewrite (prepare_kind save_to_disk verbose_mode metrics i w).
Qed.

Lemma run_batch_results body test_cases metrics save_to_disk verbose_mode w :
  (forall llm_metrics cms test_case loc w,
     post (body metrics llm_metrics cms test_case loc) w
       (fun loc' _ =>
          length (test_results loc') =
          (length (test_results loc) + expected_results llm_metrics [test_case])%nat)) ->
  let call := run_batch body test_cases metrics save_to_disk verbose_mode w in
  match returned call with
  | Return results =>
      length results =
      expected_results (select_metrics is_BaseMetric w metrics) (test_cases_after call)
  | Raise _ => True
  end.
Proof.
  intros Hbody. unfold run_batch; simpl.
  unfold bind at 1.
  destruct (returns_prepare save_to_disk verbose_mode metrics w) as ([] & w0 & E).
  pose proof (prepare_select is_BaseMetric save_to_disk verbose_mode metrics w metrics) as Hsel.
  rewrite E in *. simpl in Hsel. unfold bind at 1. simpl. unfold bind at 1.
  pose proof (for_each_results _ _ (Hbody (select_metrics is_BaseMetric w0 metrics)
    (select_metrics is_BaseConversationalMetric w0 metrics))
    (flatten_test_cases test_cases) (mkLocals (-1) (-1) []) w0) as Hloop.
  unfold post in Hloop.
  destruct (for_each _ _ _ w0) as [[loc|e] w1]; simpl; [|exact I].
  simpl in Hloop. now rewrite <- Hsel.
Qed.

(** ** The calls each unit makes *)

Lemma emits_call_measure (P : Event -> Prop) metric test_case :
  (forall raised, P (EvMeasure metric test_case raised)) ->
  emits P (call_measure metric test_case).
Proof.
  intros HP w. unfold call_measure. destruct (measure _ _ _) as [m' raised].
  exists [EvMeasure metric test_case raised]. simpl. auto.
Qed.

Lemma emits_measure_guarded (P : Event -> Prop) ie metric test_case :
  (forall raised, P (EvMeasure metric test_case raised)) ->
  emits P (measure_guarded ie metric test_case).
Proof.
  intros HP. unfold measure_guarded.
  apply emits_bind; [now apply emits_call_measure|intros [e|]]; emits_tac.
Qed.

Lemma emits_execute_llm_test_case llm_metrics ie uc test_case loc :
  emits not_conversational_update
    (execute_llm_test_case llm_metrics ie uc test_case loc).
Proof.
  unfold execute_llm_test_case. destruct llm_metrics as [|m ms]; [emits_tac|].
  apply emits_bind; [emits_tac|intros cached].
  apply emits_bind; [apply emits_keeps, keeps_trace_create_llm_api_test_case|intros api].
  apply emits_bind; [emits_tac|intros t0].
  apply emits_bind.
  { apply emits_for_each. intros metric acc. unfold llm_metric_body.
    apply emits_bind; [emits_tac|intros m0].
    apply emits_bind.
    - destruct (cached_metric_data m0 cached); [emits_tac|].
      apply emits_bind; [emits_tac|intros _].
      apply emits_bind; [now apply emits_measure_guarded|intros _]. emits_tac.
    - intros [metric_data read_all]. unfold llm_update_metric_data_call, append_if_no_error.
      emits_tac. }
  intros [read_all new_cached].
  unfold llm_update_run_duration_call, finish_llm_test_case. emits_tac.
Qed.

Lemma emits_execute_conversational_test_case cms ie c loc :
  emits conversational_event (execute_conversational_test_case cms ie c loc).
Proof.
  unfold execute_conversational_test_case.
  apply emits_bind;
    [apply emits_keeps, keeps_trace_create_conversational_api_test_case|intros api].
  apply emits_bind; [emits_tac|intros t0].
  apply emits_bind.
  { apply emits_for_each. intros metric acc. unfold conversational_metric_body.
    apply emits_bind; [emits_tac|intros m0].
    destruct (is_BaseConversationalMetric _); [|emits_tac].
    apply emits_bind; [emits_tac|intros _].
    apply emits_bind; [now apply emits_measure_guarded|intros _]. emits_tac. }
  intros api'. unfold finish_conversational_test_case. emits_tac.
Qed.

(** Without a single-turn metric a unit only makes calls on behalf of a
    conversation. *)
Lemma emits_execute_test_case_no_llm_metric metrics cms ie uc test_case loc :
  emits conversational_event
    (execute_test_case metrics [] cms ie uc test_case loc).
Proof.
  unfold execute_test_case.
  apply emits_bind; [apply emits_keeps, keeps_trace_reset_errors|intros _].
  destruct test_case as [id|c].
  - simpl. apply emits_keeps, keeps_ret.
  - apply emits_execute_conversational_test_case.
Qed.

Lemma conversational_updates_app evs evs' :
  conversational_updates (evs ++ evs') =
  conversational_updates evs ++ conversational_updates evs'.
Proof. apply flat_map_app. Qed.

Lemma conversational_updates_none evs :
  Forall not_conversational_update evs -> conversational_updates evs = [].
Proof.
  induction 1 as [|e evs He _ IH]; [reflexivity|].
  simpl. rewrite IH. destruct e as [| | |[ref|a] tc|]; simpl in *; tauto.
Qed.

Lemma create_conversational_api_test_case_bare c index w :
  post (create_conversational_api_test_case c index) w
    (fun a w' =>
       ConversationalApiTestCase.metricsData a = None /\ trace w' = trace w).
Proof.
  pose proof (keeps_trace_create_conversational_api_test_case c index w) as Hk.
  unfold post. destruct (create_conversational_api_test_case c index w) as [[a|e] w'] eqn:E;
    [|exact I].
  split; [|exact Hk].
  revert E. unfold create_conversational_api_test_case, bind, fresh_id.
  destruct (for_each _ _ _ _) as [[msgs|e] w1]; [|discriminate].
  unfold ret. intros [= <- _]. reflexivity.
Qed.

Lemma execute_test_case_bare metrics llm_metrics ie uc test_case loc w :
  post (execute_test_case metrics llm_metrics [] ie uc test_case loc) w
    (fun _ w' => bare_conversational_updates [test_case] w w').
Proof.
  unfold execute_test_case, post, bind.
  pose proof (keeps_trace_reset_errors metrics w) as Hreset.
  destruct (returns_reset_errors metrics w) as ([] & w1 & E1).
  rewrite E1 in *. simpl in Hreset.
  destruct test_case as [id|c].
  - destruct (emits_execute_llm_test_case llm_metrics ie uc id loc w1)
      as (evs & Ht & Hevs).
    destruct (execute_llm_test_case _ _ _ _ _ w1) as [[loc'|e] w2]; [|exact I].
    exists evs. simpl in Ht. rewrite Ht, Hreset.
    rewrite (conversational_updates_none _ Hevs). simpl. auto.
  - unfold execute_conversational_test_case, bind.
    pose proof (create_conversational_api_test_case_bare c
                  (Some (conversational_test_case_count loc + 1)) w1) as Hc.
    unfold post in Hc.
    destruct (create_conversational_api_test_case _ _ w1) as [[a|e] w2]; [|exact I].
    destruct Hc as [Hbare Htr]. simpl.
    exists [EvUpdateTestRun (ApiConversational a) (Conversational c)].
    simpl. rewrite Htr, Hreset. repeat split. constructor; [exact Hbare|constructor].
Qed.

Lemma bare_conversational_updates_app l1 l2 w w1 w2 :
  bare_conversational_updates l1 w w1 -> bare_conversational_updates l2 w1 w2 ->
  bare_conversational_updates (l1 ++ l2) w w2.
Proof.
  intros (evs1 & Ht1 & Hm1 & Hf1) (evs2 & Ht2 & Hm2 & Hf2).
  exists (evs1 ++ evs2). rewrite Ht2, Ht1, app_assoc.
  rewrite conversational_updates_app, map_app, List.filter_app, Hm1, Hm2.
  split; [reflexivity|]. split; [reflexivity|]. apply Forall_app; auto.
Qed.

Lemma for_each_bare (body : TestCase -> Locals -> M Locals) :
  (forall test_case loc w,
     post (body test_case loc) w
       (fun _ w' => bare_conversational_updates [test_case] w w')) ->
  forall units loc w,
    post (for_each body units loc) w
      (fun _ w' => bare_conversational_updates units w w').
Proof.
  intros Hbody. induction units as [|tc units IH]; intros loc w.
  - apply post_ret. exists []. rewrite app_nil_r. simpl. auto.
  - cbn [for_each]. apply post_bind. eapply post_mono; [|apply Hbody].
    intros loc1 w1 H1. eapply post_mono; [|apply IH].
    cbv beta in *. intros loc2 w2 H2.
    apply (bare_conversational_updates_app [tc] units w w1 w2 H1 H2).
Qed.

Lemma filter_conversation_flatten test_cases :
  List.filter is_conversation (flatten_test_cases test_cases) =
  List.filter is_conversation test_cases.
Proof.
  rewrite flatten_test_cases_closed_form, List.filter_app.
  assert (Hnil : List.filter is_conversation
                   (flat_map messages_to_append test_cases) = []).
  { induction test_cases as [|tc l IH]; simpl; [reflexivity|].
    rewrite List.filter_app, IH, app_nil_r.
    destruct tc as [id|c]; simpl; [reflexivity|].
    generalize (List.filter Message.should_evaluate (ConversationalTestCase.messages c)).
    intros ms. induction ms; simpl; auto. }
  now rewrite Hnil, app_nil_r.
Qed.

Lemma keeps_trace_prepare save_to_disk verbose_mode metrics :
  keeps trace (prepare save_to_disk verbose_mode metrics).
Proof. unfold prepare, set_verbose_modes. keeps_tac. Qed.

Lemma emits_execute_test_case metrics llm_metrics cms ie uc test_case loc :
  emits (fun _ => True) (execute_test_case metrics llm_metrics cms ie uc test_case loc).
Proof.
  unfold execute_test_case.
  apply emits_bind; [apply emits_keeps, keeps_trace_reset_errors|intros _].
  destruct test_case as [id|c].
  - eapply emits_mono; [|apply emits_execute_llm_test_case]. auto.
  - eapply emits_mono; [|apply emits_execute_conversational_test_case]. auto.
Qed.

(** The state of a batch call when its main loop starts. *)
Lemma run_batch_unfold body test_cases metrics save_to_disk verbose_mode w :
  exists w0,
    w0 = snd (prepare save_to_disk verbose_mode metrics w) /\
    trace w0 = trace w /\
    (forall p, select_metrics p w0 metrics = select_metrics p w metrics) /\
    let loop :=
      for_each
        (body metrics (select_metrics is_BaseMetric w0 metrics)
           (select_metrics is_BaseConversationalMetric w0 metrics))
        (flatten_test_cases test_cases) (mkLocals (-1) (-1) []) w0 in
    world_after (run_batch body test_cases metrics save_to_disk verbose_mode w) =
    snd loop /\
    returned (run_batch body test_cases metrics save_to_disk verbose_mode w) =
    match fst loop with
    | Return loc => Return (test_results loc)
    | Raise e => Raise e
    end.
Proof.
  destruct (returns_prepare save_to_disk verbose_mode metrics w) as ([] & w0 & E).
  exists w0.
  pose proof (keeps_trace_prepare save_to_disk verbose_mode metrics w) as Ht.
  rewrite E in Ht. split; [now rewrite E|]. split; [exact Ht|]. split.
  { intros p. rewrite <- (prepare_select p save_to_disk verbose_mode metrics w).
    now rewrite E. }
  unfold run_batch, bind, get; cbn [returned world_after]. rewrite E.
  destruct (for_each _ _ _ w0) as [[loc|e] w1]; simpl; auto.
Qed.

(** ** A [measure] call that raises *)

Lemma propagates_pure {A} (m : M A) : keeps trace m -> returns m -> propagates m.
Proof.
  intros Hk Hr w. exists []. rewrite app_nil_r. split; [apply Hk|].
  destruct (Hr w) as (a & w' & ->). constructor.
Qed.

Lemma propagates_emit e : quiet e -> propagates (emit e).
Proof. intros He w. exists [e]. simpl. auto. Qed.

Lemma propagates_bind {A B} (m : M A) (k : A -> M B) :
  propagates m -> (forall a, propagates (k a)) -> propagates (bind m k).
Proof.
  intros Hm Hk w. unfold bind. destruct (Hm w) as (evs & Ht & Hevs).
  destruct (m w) as [[a|ex] w']; simpl in *; [|eauto].
  destruct (Hk a w') as (evs' & Ht' & Hevs').
  exists (evs ++ evs'). rewrite Ht', Ht, app_assoc. split; [reflexivity|].
  destruct (fst (k a w')) as [b|ex].
  - apply Forall_app; auto.
  - destruct Hevs' as (evs0 & metric & tc & e & Hevs' & Hex & Hq). subst evs' ex.
    exists (evs ++ evs0), metric, tc, e. rewrite app_assoc.
    repeat split. apply Forall_app; auto.
Qed.

Lemma propagates_for_each {A S} (body : A -> S -> M S) l :
  (forall x acc, propagates (body x acc)) ->
  forall acc, propagates (for_each body l acc).
Proof.
  intros Hbody. induction l as [|x l IH]; intros acc; simpl.
  - apply propagates_pure; [apply keeps_ret|apply returns_ret].
  - apply propagates_bind; auto.
Qed.

Lemma propagates_measure_guarded metric test_case :
  propagates (measure_guarded false metric test_case).
Proof.
  intros w. unfold measure_guarded, bind, call_measure.
  destruct (measure _ _ _) as [m' [e|]]; simpl.
  - exists [EvMeasure metric test_case (Some e)]. split; [reflexivity|].
    exists [], metric, test_case, e. auto.
  - exists [EvMeasure metric test_case None]. split; [reflexivity|].
    repeat constructor.
Qed.

Ltac propagates_tac :=
  repeat first
    [ apply propagates_bind; [|intros]
    | apply propagates_for_each; intros
    | match goal with |- propagates (match ?x with _ => _ end) => destruct x end
    | solve [apply propagates_emit; exact I]
    | solve [apply propagates_pure; [keeps_tac|returns_tac]] ].

Lemma propagates_execute_llm_test_case llm_metrics uc test_case loc :
  propagates (execute_llm_test_case llm_metrics false uc test_case loc).
Proof.
  unfold execute_llm_test_case. destruct llm_metrics as [|m ms]; [propagates_tac|].
  apply propagates_bind; [propagates_tac|intros cached].
  apply propagates_bind.
  { apply propagates_pure;
      [apply keeps_trace_create_llm_api_test_case|apply returns_create_llm_api_test_case]. }
  intros api. apply propagates_bind; [propagates_tac|intros t0].
  apply propagates_bind.
  { apply propagates_for_each. intros metric acc. unfold llm_metric_body.
    apply propagates_bind; [propagates_tac|intros m0].
    apply propagates_bind.
    - destruct (cached_metric_data m0 cached); [propagates_tac|].
      apply propagates_bind; [propagates_tac|intros _].
      apply propagates_bind; [apply propagates_measure_guarded|intros _].
      propagates_tac.
    - intros [metric_data read_all].
      unfold llm_update_metric_data_call, append_if_no_error. propagates_tac. }
  intros [read_all new_cached].
  unfold llm_update_run_duration_call, finish_llm_test_case. propagates_tac.
Qed.

Lemma propagates_execute_conversational_test_case cms c loc :
  propagates (execute_conversational_test_case cms false c loc).
Proof.
  unfold execute_conversational_test_case.
  apply propagates_bind.
  { apply propagates_pure;
      [apply keeps_trace_create_conversational_api_test_case
      |apply returns_create_conversational_api_test_case]. }
  intros api. apply propagates_bind; [propagates_tac|intros t0].
  apply propagates_bind.
  { apply propagates_for_each. intros metric acc. unfold conversational_metric_body.
    apply propagates_bind; [propagates_tac|intros m0].
    destruct (is_BaseConversationalMetric _); [|propagates_tac].
    apply propagates_bind; [propagates_tac|intros _].
    apply propagates_bind; [apply propagates_measure_guarded|intros _].
    propagates_tac. }
  intros api'. unfold finish_conversational_test_case. propagates_tac.
Qed.

Lemma propagates_execute_test_case metrics llm_metrics cms uc test_case loc :
  propagates (execute_test_case metrics llm_metrics cms false uc test_case loc).
Proof.
  unfold execute_test_case. apply propagates_bind.
  { apply propagates_pure; [apply keeps_trace_reset_errors|apply returns_reset_errors]. }
  intros _. destruct test_case as [id|c].
  - apply propagates_execute_llm_test_case.
  - apply propagates_execute_conversational_test_case.
Qed.

Lemma update_same {A} (h : nat -> A) k v : update h k v k = v.
Proof. unfold update. now rewrite Nat.eqb_refl. Qed.

(** The MetricResult built for a metric that carries an error. *)
Lemma create_metric_data_error m e :
  Metric.error m = Some e -> records_failure e (create_metric_data m).
Proof. intros He. unfold create_metric_data. rewrite He. repeat split. Qed.

Lemma llm_metric_body_raised (ie : bool) test_case cached api metric acc w m' e :
  cached_metric_data (metric_objects w metric) cached = None ->
  measure (Metric.set_async_mode false (metric_objects w metric)) (LLM test_case)
    (llm_test_cases w) = (m', Some e) ->
  if ie then
    exists metric_data w',
      llm_metric_body true test_case cached api metric acc w =
        (Return (false, snd acc), w') /\
      trace w' =
        trace w ++ [EvMeasure metric (LLM test_case) (Some e);
                    EvUpdateMetricData (ApiLLM api) metric_data] /\
      records_failure e metric_data
  else
    fst (llm_metric_body false test_case cached api metric acc w) =
      Raise (PyException e).
Proof.
  intros Hmiss Hraise. destruct ie.
  - eexists. eexists.
    unfold llm_metric_body, bind, get_metric. rewrite Hmiss.
    unfold set_metric, modify, measure_guarded, bind, call_measure. simpl.
    rewrite update_same, Hraise. simpl.
    unfold llm_update_metric_data_call, append_if_no_error, bind, get_api, get_metric,
      set_api, emit, modify, ret. simpl. rewrite !update_same. simpl.
    split; [reflexivity|]. rewrite <- app_assoc. split; [reflexivity|].
    apply create_metric_data_error. reflexivity.
  - unfold llm_metric_body, bind, get_metric. rewrite Hmiss.
    unfold set_metric, modify, measure_guarded, bind, call_measure. simpl.
    rewrite update_same, Hraise. reflexivity.
Qed.

Lemma conversational_metric_body_raised (ie : bool) c metric api w m' e :
  is_BaseConversationalMetric (Metric.kind (metric_objects w metric)) = true ->
  measure (Metric.set_async_mode false (metric_objects w metric)) (Conversational c)
    (llm_test_cases w) = (m', Some e) ->
  if ie then
    exists metric_data w',
      conversational_metric_body true c metric api w =
        (Return (conv_update_metric_data api metric_data), w') /\
      trace w' =
        trace w ++ [EvMeasure metric (Conversational c) (Some e);
                    EvUpdateMetricData (ApiConversational api) metric_data] /\
      records_failure e metric_data
  else
    fst (conversational_metric_body false c metric api w) = Raise (PyException e).
Proof.
  intros Hkind Hraise. destruct ie.
  - eexists. eexists.
    unfold conversational_metric_body, bind, get_metric. rewrite Hkind.
    unfold set_metric, modify, measure_guarded, bind, call_measure. simpl.
    rewrite update_same, Hraise. simpl.
    unfold get_metric, emit, modify, ret. simpl. rewrite !update_same. simpl.
    split; [reflexivity|]. rewrite <- app_assoc. split; [reflexivity|].
    apply create_metric_data_error. reflexivity.
  - unfold conversational_metric_body, bind, get_metric. rewrite Hkind.
    unfold set_metric, modify, measure_guarded, bind, call_measure. simpl.
    rewrite update_same, Hraise. reflexivity.
Qed.

(** The length of the list the sequential executor returns. *)
Lemma execute_test_cases_results test_cases metrics ie uc sd vm w results :
  returned (execute_test_cases test_cases metrics ie uc sd vm w) = Return results ->
  length results =
  expected_results (select_metrics is_BaseMetric w metrics)
    (test_cases_after (execute_test_cases test_cases metrics ie uc sd vm w)).
Proof.
  intros E.
  pose proof (run_batch_results
    (fun metrics llm_metrics cms => execute_test_case metrics llm_metrics cms ie uc)
    test_cases metrics sd vm w
    (fun llm_metrics cms tc loc w' =>
       execute_test_case_results metrics llm_metrics cms ie uc tc loc w')) as Hr.
  unfold execute_test_cases in *. cbv zeta in Hr. now rewrite E in Hr.
Qed.

(** ** The cache entry of a single-turn unit *)

Lemma llm_metric_body_queues ie test_case cached api metric acc w acc' w' :
  llm_metric_body ie test_case cached api metric acc w = (Return acc', w') ->
  exists metric_data evs,
    trace w' = trace w ++ evs ++ [EvUpdateMetricData (ApiLLM api) metric_data] /\
    Forall (fun e => is_cache_write e = false) evs /\
    snd acc' = snd acc ++ queued_for_cache (metric_objects w' metric) metric_data.
Proof.
  unfold llm_metric_body, bind, get_metric.
  destruct (cached_metric_data (metric_objects w metric) cached) as [metric_data|].
  - unfold llm_update_metric_data_call, append_if_no_error, bind, get_api, get_metric,
      set_api, emit, modify, ret, queued_for_cache. simpl.
    destruct (Metric.error (metric_objects w metric)) eqn:E; intros [= <- <-]; simpl;
      rewrite E; exists metric_data, []; rewrite ?app_nil_r; auto.
  - unfold set_metric, modify, measure_guarded, bind, call_measure. simpl.
    rewrite update_same.
    destruct (measure _ _ _) as [m' [e|]]; simpl.
    + destruct ie; [|discriminate]. simpl.
      unfold llm_update_metric_data_call, append_if_no_error, bind, get_api, get_metric,
        set_api, emit, modify, ret, queued_for_cache. simpl.
      rewrite !update_same. simpl. intros [= <- <-]. simpl.
      rewrite !update_same. simpl.
      eexists. exists [EvMeasure metric (LLM test_case) (Some e)].
      rewrite <- !app_assoc, app_nil_r. simpl. repeat split. repeat constructor.
    + unfold llm_update_metric_data_call, append_if_no_error, bind, get_api, get_metric,
        set_api, emit, modify, ret, queued_for_cache. simpl.
      rewrite !update_same.
      destruct (Metric.error m') eqn:E; intros [= <- <-]; simpl;
        rewrite !update_same, E;
        eexists; exists [EvMeasure metric (LLM test_case) None];
        rewrite <- !app_assoc, ?app_nil_r; simpl; repeat split; repeat constructor.
Qed.

Lemma for_each_llm_metric_body_costs ie test_case cached api llm_metrics :
  forall acc w,
    Forall costs_nothing (snd acc) ->
    post (for_each (llm_metric_body ie test_case cached api) llm_metrics acc) w
      (fun acc' _ => Forall costs_nothing (snd acc')).
Proof.
  apply (post_for_each _ (fun acc _ => Forall costs_nothing (snd acc))).
  intros metric acc w Hacc. unfold post.
  destruct (llm_metric_body _ _ _ _ _ _ w) as [[acc'|e] w'] eqn:E; [|exact I].
  destruct (llm_metric_body_queues _ _ _ _ _ _ _ _ _ E) as (md & evs & _ & _ & ->).
  apply Forall_app. split; [exact Hacc|].
  unfold queued_for_cache. destruct (Metric.error _); repeat constructor.
Qed.

Lemma execute_llm_test_case_writes m ms ie uc test_case loc w :
  post (execute_llm_test_case (m :: ms) ie uc test_case loc) w
    (fun _ w' =>
       exists cached api w0 w1 read_all new_cached run_duration,
         trace w0 = trace w /\
         for_each (llm_metric_body ie test_case cached api) (m :: ms) (true, []) w0 =
           (Return (read_all, new_cached), w1) /\
         Forall costs_nothing new_cached /\
         trace w' =
           trace w1 ++
           [EvUpdateRunDuration (ApiLLM api) run_duration;
            EvUpdateTestRun (ApiLLM api) (LLM test_case);
            EvCacheTestCase (llm_test_cases w' test_case)
              (CachedTestCase.mk new_cached) test_run_hyperparameters false;
            EvCacheTestCase (llm_test_cases w' test_case)
              (CachedTestCase.mk new_cached) test_run_hyperparameters true]).
Proof.
  unfold execute_llm_test_case, post, bind at 1. unfold lookup_cache at 1.
  set (cached := if uc then _ else None).
  unfold bind at 1.
  pose proof (keeps_trace_create_llm_api_test_case test_case
    (Some (llm_test_case_count loc + 1)) None None None w) as Hk.
  destruct (returns_create_llm_api_test_case test_case
    (Some (llm_test_case_count loc + 1)) None None None w) as (api & w0 & E0).
  rewrite E0 in *. simpl in Hk. unfold bind at 1. unfold perf_counter at 1.
  unfold bind at 1.
  set (w0' := with_perf_counter_calls _ w0).
  pose proof (for_each_llm_metric_body_costs ie test_case cached api (m :: ms)
                (true, []) w0' (List.Forall_nil _)) as Hcost.
  unfold post in Hcost.
  destruct (for_each _ _ _ w0') as [[[read_all new_cached]|e] w1] eqn:E1; [|exact I].
  unfold bind, perf_counter, llm_update_run_duration_call, finish_llm_test_case, bind,
    get_api, set_api, emit, modify, get_llm, create_test_result, ret. simpl.
  exists cached, api, w0', w1, read_all, new_cached.
  eexists. split; [exact Hk|]. split; [exact E1|]. split; [exact Hcost|].
  rewrite <- !app_assoc. reflexivity.
Qed.

Lemma emits_llm_metric_body_no_write ie test_case cached api metric acc :
  emits (fun e => is_cache_write e = false)
    (llm_metric_body ie test_case cached api metric acc).
Proof.
  unfold llm_metric_body.
  apply emits_bind; [emits_tac|intros m0].
  apply emits_bind.
  - destruct (cached_metric_data m0 cached); [emits_tac|].
    apply emits_bind; [emits_tac|intros _].
    apply emits_bind; [now apply emits_measure_guarded|intros _]. emits_tac.
  - intros [metric_data read_all].
    unfold llm_update_metric_data_call, append_if_no_error. emits_tac.
Qed.

Lemma execute_llm_test_case_entry m ms ie uc test_case loc w loc' w' :
  execute_llm_test_case (m :: ms) ie uc test_case loc w = (Return loc', w') ->
  exists cached api w0 w1 read_all new_cached run_duration evs,
    for_each (llm_metric_body ie test_case cached api) (m :: ms) (true, []) w0 =
      (Return (read_all, new_cached), w1) /\
    Forall costs_nothing new_cached /\
    Forall (fun e => is_cache_write e = false) evs /\
    trace w' =
      trace w ++ evs ++
      [EvUpdateRunDuration (ApiLLM api) run_duration;
       EvUpdateTestRun (ApiLLM api) (LLM test_case);
       EvCacheTestCase (llm_test_cases w' test_case)
         (CachedTestCase.mk new_cached) test_run_hyperparameters false;
       EvCacheTestCase (llm_test_cases w' test_case)
         (CachedTestCase.mk new_cached) test_run_hyperparameters true].
Proof.
  intros E.
  pose proof (execute_llm_test_case_writes m ms ie uc test_case loc w) as Hw.
  unfold post in Hw. rewrite E in Hw.
  destruct Hw as (cached & api & w0 & w1 & read_all & new_cached & d & Ht0 & Hloop
                  & Hcost & Ht).
  destruct (emits_for_each (fun e => is_cache_write e = false)
              (llm_metric_body ie test_case cached api) (m :: ms)
              (fun metric acc => emits_llm_metric_body_no_write ie test_case cached
                                   api metric acc)
              (true, []) w0) as (evs & Hevs & Hno).
  rewrite Hloop in Hevs. simpl in Hevs.
  exists cached, api, w0, w1, read_all, new_cached, d, evs.
  split; [exact Hloop|]. split; [exact Hcost|]. split; [exact Hno|].
  rewrite Ht, Hevs, Ht0, <- app_assoc. reflexivity.
Qed.

(** ** The records of a conversation and of its messages *)

Lemma create_llm_api_test_case_hit test_case index cid amd com w ref :
  llm_test_case_lookup_map w !! test_case = Some ref ->
  create_llm_api_test_case test_case index cid amd com w = (Return ref, w).
Proof.
  intros Hhit. unfold create_llm_api_test_case, bind, get. now rewrite Hhit.
Qed.

Lemma create_llm_api_test_case_message test_case index k amd com w :
  llm_test_case_lookup_map w !! test_case = None ->
  let tc := LLMTestCase.stamp amd com (llm_test_cases w test_case) in
  let ref := S (next_id w) in
  create_llm_api_test_case test_case index (Some (S k)) amd com w =
  (Return ref,
   with_lookup_map (<[test_case := ref]> (llm_test_case_lookup_map w))
     (with_api_test_cases (update (api_test_cases w) ref (message_record tc index (S k)))
        (with_next_id ref
           (with_llm_test_cases (update (llm_test_cases w) test_case tc) w)))).
Proof.
  intros Hmiss tc ref. unfold create_llm_api_test_case, bind, get. rewrite Hmiss.
  cbn [truthy_id]. unfold get_llm, set_llm, modify, fresh_id, set_api, ret.
  cbn [llm_test_cases with_llm_test_cases next_id api_test_cases
       llm_test_case_lookup_map with_next_id with_api_test_cases].
  rewrite update_same. reflexivity.
Qed.

Lemma create_conversational_three c index w id1 id2 id3 :
  ConversationalTestCase.messages c =
    [Message.mk true id1; Message.mk true id2; Message.mk true id3] ->
  id1 <> id2 -> id1 <> id3 -> id2 <> id3 ->
  llm_test_case_lookup_map w = ∅ ->
  let n := next_id w in
  let amd := ConversationalTestCase.additional_metadata c in
  let com := ConversationalTestCase.comments c in
  let stamped id := LLMTestCase.stamp amd com (llm_test_cases w id) in
  exists a w',
    create_conversational_api_test_case c index w = (Return a, w') /\
    ConversationalApiTestCase.instance_id a = S n /\
    ConversationalApiTestCase.messages a = [S (S n); S (S (S n)); S (S (S (S n)))] /\
    next_id w' = S (S (S (S n))) /\
    llm_test_case_lookup_map w' =
      <[id3 := S (S (S (S n)))]> (<[id2 := S (S (S n))]> (<[id1 := S (S n)]> ∅)) /\
    llm_test_cases w' id1 = stamped id1 /\
    llm_test_cases w' id2 = stamped id2 /\
    llm_test_cases w' id3 = stamped id3 /\
    api_test_cases w' (S (S n)) = message_record (stamped id1) (Some 0) (S n) /\
    api_test_cases w' (S (S (S n))) = message_record (stamped id2) (Some 1) (S n) /\
    api_test_cases w' (S (S (S (S n)))) = message_record (stamped id3) (Some 2) (S n) /\
    trace w' = trace w.
Proof.
  intros Hmsgs H12 H13 H23 Hmap n amd com stamped.
  unfold create_conversational_api_test_case, fresh_id. rewrite Hmsgs.
  cbn [enumerate_from for_each fst snd Message.llm_test_case]. fold amd com.
  unfold bind.
  rewrite create_llm_api_test_case_message
    by (cbn [llm_test_case_lookup_map with_next_id]; rewrite Hmap; apply lookup_empty).
  cbn [ret].
  rewrite create_llm_api_test_case_message
    by (cbn [llm_test_case_lookup_map with_next_id with_lookup_map]; rewrite Hmap;
        rewrite lookup_insert_ne by congruence; apply lookup_empty).
  cbn [ret].
  rewrite create_llm_api_test_case_message
    by (cbn [llm_test_case_lookup_map with_next_id with_lookup_map]; rewrite Hmap;
        rewrite !lookup_insert_ne by congruence; apply lookup_empty).
  cbn [ret]. eexists. eexists. split; [reflexivity|].
  cbn. rewrite Hmap. unfold update.
  repeat match goal with
         | |- context [Nat.eqb ?x ?y] => destruct (Nat.eqb_spec x y); try lia; try congruence
         end.
  repeat split; reflexivity.
Qed.

Lemma keeps_objects_call_measure metric test_case :
  keeps objects (call_measure metric test_case).
Proof. intros w. unfold call_measure. now destruct (measure _ _ _). Qed.

Lemma keeps_objects_measure_guarded ie metric test_case :
  keeps objects (measure_guarded ie metric test_case).
Proof.
  unfold measure_guarded. apply keeps_bind; [apply keeps_objects_call_measure|].
  intros [e|]; [destruct ie|]; keeps_tac.
Qed.

Lemma keeps_objects_llm_metric_body ie test_case cached api metric acc :
  keeps objects (llm_metric_body ie test_case cached api metric acc).
Proof.
  unfold llm_metric_body. apply keeps_bind; [keeps_tac|intros m0].
  apply keeps_bind.
  - destruct (cached_metric_data m0 cached); [keeps_tac|].
    apply keeps_bind; [keeps_tac|intros _].
    apply keeps_bind; [apply keeps_objects_measure_guarded|intros _]. keeps_tac.
  - intros [metric_data read_all].
    unfold llm_update_metric_data_call, append_if_no_error. keeps_tac.
Qed.

Lemma keeps_objects_conversational_metric_body ie c metric api :
  keeps objects (conversational_metric_body ie c metric api).
Proof.
  unfold conversational_metric_body. apply keeps_bind; [keeps_tac|intros m0].
  destruct (is_BaseConversationalMetric _); [|keeps_tac].
  apply keeps_bind; [keeps_tac|intros _].
  apply keeps_bind; [apply keeps_objects_measure_guarded|intros _]. keeps_tac.
Qed.

Lemma keeps_objects_reset_errors metrics : keeps objects (reset_errors metrics).
Proof. unfold reset_errors. keeps_tac. Qed.

Lemma emits_llm_metric_body (P : Event -> Prop) ie test_case cached api metric acc :
  (forall metric test_case raised, P (EvMeasure metric test_case raised)) ->
  (forall a metric_data, P (EvUpdateMetricData a metric_data)) ->
  emits P (llm_metric_body ie test_case cached api metric acc).
Proof.
  intros Hm Hu. unfold llm_metric_body.
  apply emits_bind; [emits_tac|intros m0].
  apply emits_bind.
  - destruct (cached_metric_data m0 cached); [emits_tac|].
    apply emits_bind; [emits_tac|intros _].
    apply emits_bind; [now apply emits_measure_guarded|intros _]. emits_tac.
  - intros [metric_data read_all].
    unfold llm_update_metric_data_call, append_if_no_error.
    apply emits_bind; [|intros; emits_tac].
    apply emits_bind; [emits_tac|intros a].
    apply emits_bind; [emits_tac|intros _]. now apply emits_emit.
Qed.

Lemma emits_conversational_metric_body (P : Event -> Prop) ie c metric api :
  (forall metric test_case raised, P (EvMeasure metric test_case raised)) ->
  (forall a metric_data, P (EvUpdateMetricData a metric_data)) ->
  emits P (conversational_metric_body ie c metric api).
Proof.
  intros Hm Hu. unfold conversational_metric_body.
  apply emits_bind; [emits_tac|intros m0].
  destruct (is_BaseConversationalMetric _); [|emits_tac].
  apply emits_bind; [emits_tac|intros _].
  apply emits_bind; [now apply emits_measure_guarded|intros _].
  apply emits_bind; [emits_tac|intros m1].
  apply emits_bind; [now apply emits_emit|intros _]. emits_tac.
Qed.

Lemma test_run_updates_app evs evs' :
  test_run_updates (evs ++ evs') = test_run_updates evs ++ test_run_updates evs'.
Proof. apply flat_map_app. Qed.

Lemma test_run_updates_none evs :
  Forall not_test_run_update evs -> test_run_updates evs = [].
Proof.
  induction 1 as [|e evs He _ IH]; [reflexivity|].
  simpl. rewrite IH. destruct e; simpl in *; tauto.
Qed.

(** A message unit finds the record made with its conversation and hands it
    to [update_test_run]. *)
Lemma execute_llm_test_case_message m ms ie uc test_case loc w ref :
  llm_test_case_lookup_map w !! test_case = Some ref ->
  post (execute_llm_test_case (m :: ms) ie uc test_case loc) w
    (fun _ w' =>
       objects w' = objects w /\
       exists evs,
         trace w' = trace w ++ evs /\
         test_run_updates evs = [(ApiLLM ref, LLM test_case)]).
Proof.
  intros Hhit.
  unfold execute_llm_test_case, post, bind at 1. unfold lookup_cache at 1.
  set (cached := if uc then _ else None).
  unfold bind at 1. rewrite (create_llm_api_test_case_hit _ _ _ _ _ _ _ Hhit).
  unfold bind at 1. unfold perf_counter at 1. unfold bind at 1.
  set (w0 := with_perf_counter_calls _ w).
  pose proof (keeps_for_each objects
    (llm_metric_body ie test_case cached ref) (m :: ms)
    (fun metric acc => keeps_objects_llm_metric_body ie test_case cached ref metric acc)
    (true, []) w0) as Hobj.
  destruct (emits_for_each not_test_run_update
    (llm_metric_body ie test_case cached ref) (m :: ms)
    (fun metric acc => emits_llm_metric_body not_test_run_update ie test_case cached
       ref metric acc (fun _ _ _ => I) (fun _ _ => I))
    (true, []) w0) as (evs & Hevs & Hnone).
  destruct (for_each _ _ _ w0) as [[[read_all new_cached]|e] w1]; [|exact I].
  simpl in Hobj, Hevs.
  unfold bind, perf_counter, llm_update_run_duration_call, finish_llm_test_case, bind,
    get_api, set_api, emit, modify, get_llm, create_test_result, ret. simpl.
  split; [exact Hobj|].
  eexists. rewrite Hevs. rewrite <- !app_assoc. split; [reflexivity|].
  rewrite test_run_updates_app, (test_run_updates_none _ Hnone). reflexivity.
Qed.

Lemma execute_test_case_message metrics llm_metrics cms ie uc test_case loc w ref :
  llm_test_case_lookup_map w !! test_case = Some ref ->
  post (execute_test_case metrics llm_metrics cms ie uc (LLM test_case) loc) w
    (fun _ w' =>
       objects w' = objects w /\
       exists evs,
         trace w' = trace w ++ evs /\
         test_run_updates evs =
           match llm_metrics with
           | [] => []
           | _ :: _ => [(ApiLLM ref, LLM test_case)]
           end).
Proof.
  intros Hhit. unfold execute_test_case, post, bind.
  pose proof (keeps_trace_reset_errors metrics w) as Ht.
  pose proof (keeps_objects_reset_errors metrics w) as Ho.
  destruct (returns_reset_errors metrics w) as ([] & w1 & E1).
  rewrite E1 in *. simpl in Ht, Ho.
  destruct llm_metrics as [|m ms].
  - simpl. split; [exact Ho|]. exists []. now rewrite app_nil_r.
  - assert (Hhit1 : llm_test_case_lookup_map w1 !! test_case = Some ref).
    { injection Ho as _ Hm _. now rewrite Hm. }
    pose proof (execute_llm_test_case_message m ms ie uc test_case loc w1 ref Hhit1)
      as Hunit.
    unfold post in Hunit.
    destruct (execute_llm_test_case _ _ _ _ _ w1) as [[loc'|e] w2]; [|exact I].
    destruct Hunit as (Ho2 & evs & Hevs & Hupd).
    split; [now rewrite Ho2|]. exists evs. now rewrite Hevs, Ht.
Qed.

Lemma execute_test_case_conversation_three metrics llm_metrics cms ie uc c loc w
    id1 id2 id3 :
  ConversationalTestCase.messages c =
    [Message.mk true id1; Message.mk true id2; Message.mk true id3] ->
  id1 <> id2 -> id1 <> id3 -> id2 <> id3 ->
  llm_test_case_lookup_map w = ∅ ->
  let n := next_id w in
  let stamped id :=
    LLMTestCase.stamp (ConversationalTestCase.additional_metadata c)
      (ConversationalTestCase.comments c) (llm_test_cases w id) in
  post (execute_test_case metrics llm_metrics cms ie uc (Conversational c) loc) w
    (fun _ w' =>
       (exists a evs,
          trace w' = trace w ++ evs /\
          test_run_updates evs = [(ApiConversational a, Conversational c)]) /\
       next_id w' = S (S (S (S n))) /\
       llm_test_case_lookup_map w' =
         <[id3 := S (S (S (S n)))]> (<[id2 := S (S (S n))]> (<[id1 := S (S n)]> ∅)) /\
       llm_test_cases w' id1 = stamped id1 /\
       llm_test_cases w' id2 = stamped id2 /\
       llm_test_cases w' id3 = stamped id3).
Proof.
  intros Hmsgs H12 H13 H23 Hmap n stamped.
  unfold execute_test_case, post, bind at 1.
  pose proof (keeps_trace_reset_errors metrics w) as Ht.
  pose proof (keeps_objects_reset_errors metrics w) as Ho.
  destruct (returns_reset_errors metrics w) as ([] & w1 & E1).
  rewrite E1 in *. simpl in Ht, Ho. injection Ho as Hn1 Hm1 Hl1.
  unfold execute_conversational_test_case, bind at 1.
  destruct (create_conversational_three c
              (Some (conversational_test_case_count loc + 1)) w1 id1 id2 id3
              Hmsgs H12 H13 H23 (eq_trans Hm1 Hmap))
    as (a & w2 & E2 & _ & _ & Hn2 & Hm2 & Hs1 & Hs2 & Hs3 & _ & _ & _ & Ht2).
  rewrite E2. unfold bind at 1. unfold perf_counter at 1. unfold bind at 1.
  set (w3 := with_perf_counter_calls _ w2).
  pose proof (keeps_for_each objects (conversational_metric_body ie c) cms
    (fun metric acc => keeps_objects_conversational_metric_body ie c metric acc)
    a w3) as Hobj.
  destruct (emits_for_each not_test_run_update (conversational_metric_body ie c) cms
    (fun metric acc => emits_conversational_metric_body not_test_run_update ie c
       metric acc (fun _ _ _ => I) (fun _ _ => I))
    a w3) as (evs & Hevs & Hnone).
  destruct (for_each _ _ _ w3) as [[a'|e] w4]; [|exact I].
  simpl in Hobj, Hevs. injection Hobj as Hn4 Hm4 Hl4.
  unfold bind, perf_counter, finish_conversational_test_case, bind, emit, modify, ret.
  rewrite Hl1 in Hs1, Hs2, Hs3. rewrite Hn1 in Hn2, Hm2.
  destruct cms as [|cm cms]; simpl.
  - split.
    + eexists. eexists. rewrite Hevs, Ht2, Ht, <- app_assoc. split; [reflexivity|].
      rewrite test_run_updates_app, (test_run_updates_none _ Hnone). reflexivity.
    + rewrite Hn4, Hm4, Hl4. auto.
  - split.
    + eexists. eexists. rewrite Hevs, Ht2, Ht, <- !app_assoc. split; [reflexivity|].
      rewrite test_run_updates_app, (test_run_updates_none _ Hnone). reflexivity.
    + rewrite Hn4, Hm4, Hl4. auto.
Qed.

Lemma prepare_objects save_to_disk verbose_mode metrics w :
  let w0 := snd (prepare save_to_disk verbose_mode metrics w) in
  next_id w0 = next_id w /\
  llm_test_cases w0 = llm_test_cases w /\
  llm_test_case_lookup_map w0 = ∅.
Proof.
  assert (Hk : keeps (fun w => (next_id w, llm_test_cases w))
                 (prepare save_to_disk verbose_mode metrics)).
  { unfold prepare, set_verbose_modes. keeps_tac. }
  specialize (Hk w). injection Hk as Hn Hl. split; [exact Hn|]. split; [exact Hl|].
  unfold prepare, bind, modify. destruct (set_verbose_modes _ _ _) as [[[]|e] w1] eqn:E.
  - reflexivity.
  - destruct verbose_mode as [v|]; [|discriminate].
    unfold set_verbose_modes in E.
    match type of E with ?m ?w = _ => assert (Hr : returns m) by returns_tac;
      destruct (Hr w) as (? & ? & E') end.
    congruence.
Qed.

End Executors.


(** ** Conversations and the returned list *)

(** C10. The list a batch call returns has one entry per single-turn unit of
    the flattened batch when some single-turn metric is configured and none
    otherwise: a conversational unit never adds an entry, its record only
    goes to [update_test_run].  So without a single-turn metric the returned
    list is empty, and [assert_test] on a conversation then ends exactly as
    the batch call does when that raises, and with [IndexError] from
    indexing the empty list when it returns (as it always does in the
    sequential strategy with errors ignored); it never raises a metric
    assertion. *)
Theorem conversations_are_not_returned `{Env}
    (measure_metrics_with_indicator : Indicator)
    (test_cases : list TestCase) (metrics : list nat)
    (ignore_errors use_cache save_to_disk : bool) (verbose_mode : option bool)
    (w : World) (c : ConversationalTestCase.t) (run_async : bool) :
  let sync :=
    execute_test_cases test_cases metrics ignore_errors use_cache save_to_disk
      verbose_mode w in
  let async :=
    a_execute_test_cases measure_metrics_with_indicator test_cases metrics
      ignore_errors use_cache save_to_disk verbose_mode w in
  let one :=
    if run_async then
      a_execute_test_cases measure_metrics_with_indicator [Conversational c] metrics
        should_ignore_errors should_use_cache get_is_running_deepeval
        should_verbose_print w
    else
      execute_test_cases [Conversational c] metrics
        should_ignore_errors should_use_cache get_is_running_deepeval
        should_verbose_print w in
  (forall results, returned sync = Return results ->
     length results =
     expected_results (select_metrics is_BaseMetric w metrics) (test_cases_after sync)) /\
  (forall results, returned async = Return results ->
     length results =
     expected_results (select_metrics is_BaseMetric w metrics) (test_cases_after async)) /\
  (select_metrics is_BaseMetric w metrics = [] ->
     (forall results, returned sync = Return results -> results = []) /\
     (forall results, returned async = Return results -> results = []) /\
     fst (assert_test measure_metrics_with_indicator (Conversational c) metrics
            run_async w) =
     match returned one with
     | Return _ => Raise IndexError
     | Raise e => Raise e
     end /\
     (should_ignore_errors = true ->
      fst (assert_test measure_metrics_with_indicator (Conversational c) metrics
             false w) = Raise IndexError)).
Proof.
  intros sync async one.
  assert (Hsync : forall tcs ie uc sd vm results,
    returned (execute_test_cases tcs metrics ie uc sd vm w) = Return results ->
    length results =
    expected_results (select_metrics is_BaseMetric w metrics)
      (test_cases_after (execute_test_cases tcs metrics ie uc sd vm w))).
  { intros tcs ie uc sd vm results E.
    pose proof (run_batch_results
      (fun metrics llm_metrics cms =>
         execute_test_case metrics llm_metrics cms ie uc)
      tcs metrics sd vm w
      (fun llm_metrics cms tc loc w' =>
         execute_test_case_results metrics llm_metrics cms ie uc tc loc w')) as Hr.
    unfold execute_test_cases in *. cbv zeta in Hr. now rewrite E in Hr. }
  assert (Hasync : forall tcs ie uc sd vm results,
    returned (a_execute_test_cases measure_metrics_with_indicator tcs metrics ie uc
                sd vm w) = Return results ->
    length results =
    expected_results (select_metrics is_BaseMetric w metrics)
      (test_cases_after
         (a_execute_test_cases measure_metrics_with_indicator tcs metrics ie uc sd
            vm w))).
  { intros tcs ie uc sd vm results E.
    pose proof (run_batch_results
      (fun metrics llm_metrics cms =>
         a_execute_test_case measure_metrics_with_indicator metrics llm_metrics cms
           ie uc)
      tcs metrics sd vm w
      (fun llm_metrics cms tc loc w' =>
         a_execute_test_case_results measure_metrics_with_indicator metrics
           llm_metrics cms ie uc tc loc w')) as Hr.
    unfold a_execute_test_cases in *. cbv zeta in Hr. now rewrite E in Hr. }
  split; [apply Hsync|]. split; [apply Hasync|].
  intros Hnone.
  assert (Hone : forall results, returned one = Return results -> results = []).
  { intros results E. apply length_zero_iff_nil. unfold one in E.
    destruct run_async; [apply Hasync in E|apply Hsync in E];
      rewrite E, Hnone; reflexivity. }
  split.
  { intros results E. apply length_zero_iff_nil.
    rewrite (Hsync _ _ _ _ _ _ E), Hnone. reflexivity. }
  split.
  { intros results E. apply length_zero_iff_nil.
    rewrite (Hasync _ _ _ _ _ _ E), Hnone. reflexivity. }
  split.
  { unfold assert_test. fold one. destruct (returned one) as [results|e].
    - now rewrite (Hone results eq_refl).
    - reflexivity. }
  intros Hignore. unfold assert_test.
  destruct (execute_test_cases_returns [Conversational c] metrics should_use_cache
              get_is_running_deepeval should_verbose_print w) as (results & E).
  rewrite Hignore. rewrite E.
  assert (results = []) as ->.
  { apply length_zero_iff_nil. rewrite <- Hignore in E.
    rewrite (Hsync _ _ _ _ _ _ E), Hnone. reflexivity. }
  reflexivity.
Qed.

Lemma conversations_are_not_returned_witness :
  select_metrics is_BaseMetric Sample.world [1%nat] = [] /\
  fst (assert_test (H := Sample.env) Sample.indicator
         (Conversational Sample.conversation) [1%nat] false Sample.world) =
  Raise IndexError.
Proof.
  split; [reflexivity|].
  apply (conversations_are_not_returned (H := Sample.env) Sample.indicator
           [] [1%nat] true false false None Sample.world Sample.conversation false);
    reflexivity.
Defined.

(** ** Units without an applicable metric *)

(** C6. In a batch run by [execute_test_cases]: when no single-turn metric
    is configured, every call made is made on behalf of a conversation (no
    single-turn record is updated, handed to [update_test_run] or cached) and
    the returned list is empty; when no conversational metric is configured
    and the call returns, the conversational records handed to
    [update_test_run] are, in order, one per conversational test case of the
    batch, each without metric results. *)
Theorem units_without_applicable_metric `{Env}
    (test_cases : list TestCase) (metrics : list nat)
    (ignore_errors use_cache save_to_disk : bool) (verbose_mode : option bool)
    (w : World) :
  let call :=
    execute_test_cases test_cases metrics ignore_errors use_cache save_to_disk
      verbose_mode w in
  exists evs,
    trace (world_after call) = trace w ++ evs /\
    (select_metrics is_BaseMetric w metrics = [] ->
       Forall conversational_event evs /\
       forall results, returned call = Return results -> results = []) /\
    (select_metrics is_BaseConversationalMetric w metrics = [] ->
       forall results, returned call = Return results ->
         map snd (conversational_updates evs) =
           List.filter is_conversation test_cases /\
         Forall (fun p => ConversationalApiTestCase.metricsData (fst p) = None)
           (conversational_updates evs)).
Proof.
  intros call. unfold call, execute_test_cases.
  destruct (run_batch_unfold
    (fun metrics llm_metrics cms => execute_test_case metrics llm_metrics cms
                                      ignore_errors use_cache)
    test_cases metrics save_to_disk verbose_mode w)
    as (w0 & _ & Ht0 & Hsel & Hworld & Hret).
  cbv zeta in Hworld, Hret. rewrite Hworld, Hret.
  set (llm_metrics := select_metrics is_BaseMetric w0 metrics) in *.
  set (cms := select_metrics is_BaseConversationalMetric w0 metrics) in *.
  set (units := flatten_test_cases test_cases) in *.
  destruct (emits_for_each (fun _ => True)
              (execute_test_case metrics llm_metrics cms ignore_errors use_cache)
              units
              (fun tc loc => emits_execute_test_case metrics llm_metrics cms
                               ignore_errors use_cache tc loc)
              (mkLocals (-1) (-1) []) w0) as (evs & Hevs & _).
  exists evs. rewrite <- Ht0. split; [exact Hevs|]. split.
  - intros Hnone. rewrite <- (Hsel is_BaseMetric) in Hnone. fold llm_metrics in Hnone.
    rewrite Hnone in *. split.
    + destruct (emits_for_each conversational_event
                  (execute_test_case metrics [] cms ignore_errors use_cache) units
                  (fun tc loc => emits_execute_test_case_no_llm_metric metrics cms
                                   ignore_errors use_cache tc loc)
                  (mkLocals (-1) (-1) []) w0) as (evs' & Hevs' & Hconv).
      rewrite Hevs in Hevs'. apply app_inv_head in Hevs'. now subst evs'.
    + intros results E.
      pose proof (for_each_results _ []
        (fun tc loc w' => execute_test_case_results metrics [] cms ignore_errors
                            use_cache tc loc w') units (mkLocals (-1) (-1) []) w0) as Hlen.
      unfold post in Hlen.
      destruct (for_each _ _ _ w0) as [[loc|e] w1]; simpl in *; [|discriminate].
      injection E as <-. now apply length_zero_iff_nil.
  - intros Hnone results E. rewrite <- (Hsel is_BaseConversationalMetric) in Hnone.
    fold cms in Hnone. rewrite Hnone in *.
    pose proof (for_each_bare _
      (fun tc loc w' => execute_test_case_bare metrics llm_metrics ignore_errors
                          use_cache tc loc w') units (mkLocals (-1) (-1) []) w0) as Hbare.
    unfold post in Hbare.
    destruct (for_each _ _ _ w0) as [[loc|e] w1]; simpl in *; [|discriminate].
    destruct Hbare as (evs' & Hevs' & Hmap & Hall).
    rewrite Hevs in Hevs'. apply app_inv_head in Hevs'. subst evs'.
    unfold units in Hmap. rewrite filter_conversation_flatten in Hmap. auto.
Qed.

(** ** Metric failures *)

(** C5. In [execute_test_cases], when the [measure] call of a metric that is
    not served from the cache raises [e]: with [ignore_errors] the loop body
    returns, and the MetricResult it hands to the record carries [str(e)] as
    its error, success false and no score or reason (and the result is not
    queued for the cache); the batch call then always returns, with one
    result per single-turn unit.  Without [ignore_errors] the loop body
    raises [e], and a batch call returns a list only if no [measure] call
    raised: otherwise it stops at the first call that did and raises its
    exception. *)
Theorem measure_failure `{Env} :
  (forall (ie : bool) test_case cached api metric acc w m' e,
     cached_metric_data (metric_objects w metric) cached = None ->
     measure (Metric.set_async_mode false (metric_objects w metric)) (LLM test_case)
       (llm_test_cases w) = (m', Some e) ->
     if ie then
       exists metric_data w',
         llm_metric_body true test_case cached api metric acc w =
           (Return (false, snd acc), w') /\
         trace w' =
           trace w ++ [EvMeasure metric (LLM test_case) (Some e);
                       EvUpdateMetricData (ApiLLM api) metric_data] /\
         records_failure e metric_data
     else
       fst (llm_metric_body false test_case cached api metric acc w) =
         Raise (PyException e)) /\
  (forall (ie : bool) c metric api w m' e,
     is_BaseConversationalMetric (Metric.kind (metric_objects w metric)) = true ->
     measure (Metric.set_async_mode false (metric_objects w metric)) (Conversational c)
       (llm_test_cases w) = (m', Some e) ->
     if ie then
       exists metric_data w',
         conversational_metric_body true c metric api w =
           (Return (conv_update_metric_data api metric_data), w') /\
         trace w' =
           trace w ++ [EvMeasure metric (Conversational c) (Some e);
                       EvUpdateMetricData (ApiConversational api) metric_data] /\
         records_failure e metric_data
     else
       fst (conversational_metric_body false c metric api w) = Raise (PyException e)) /\
  (forall test_cases metrics use_cache save_to_disk verbose_mode w,
     let call :=
       execute_test_cases test_cases metrics true use_cache save_to_disk
         verbose_mode w in
     exists results,
       returned call = Return results /\
       length results =
         expected_results (select_metrics is_BaseMetric w metrics)
           (test_cases_after call)) /\
  (forall test_cases metrics use_cache save_to_disk verbose_mode w,
     let call :=
       execute_test_cases test_cases metrics false use_cache save_to_disk
         verbose_mode w in
     exists evs,
       trace (world_after call) = trace w ++ evs /\
       match returned call with
       | Return _ => Forall quiet evs
       | Raise ex =>
           exists evs0 metric test_case e,
             evs = evs0 ++ [EvMeasure metric test_case (Some e)] /\
             ex = PyException e /\ Forall quiet evs0
       end).
Proof.
  split; [intros; eapply llm_metric_body_raised; eauto|].
  split; [intros; eapply conversational_metric_body_raised; eauto|].
  split.
  - intros test_cases metrics use_cache save_to_disk verbose_mode w call.
    destruct (execute_test_cases_returns test_cases metrics use_cache save_to_disk
                verbose_mode w) as (results & E).
    exists results. split; [exact E|]. now apply execute_test_cases_results.
  - intros test_cases metrics use_cache save_to_disk verbose_mode w call.
    unfold call, execute_test_cases.
    destruct (run_batch_unfold
      (fun metrics llm_metrics cms => execute_test_case metrics llm_metrics cms
                                        false use_cache)
      test_cases metrics save_to_disk verbose_mode w)
      as (w0 & _ & Ht0 & _ & Hworld & Hret).
    cbv zeta in Hworld, Hret. rewrite Hworld, Hret.
    destruct (propagates_for_each _ (flatten_test_cases test_cases)
      (fun tc loc => propagates_execute_test_case metrics
         (select_metrics is_BaseMetric w0 metrics)
         (select_metrics is_BaseConversationalMetric w0 metrics) use_cache tc loc)
      (mkLocals (-1) (-1) []) w0) as (evs & Hevs & Hout).
    exists evs. rewrite <- Ht0. split; [exact Hevs|].
    destruct (fst (for_each _ _ _ w0)); exact Hout.
Qed.

(** ** Cache write-back *)

(** C7. In [execute_test_cases], the body of the metric loop of a
    single-turn unit queues the MetricResult it has just handed to the
    record, copied with evaluation cost [0] and paired with the metric's
    configuration, exactly when the metric's error is [None] at that point,
    and queues nothing otherwise.  When the loop has run through all
    metrics, the unit issues two [cache_test_case] calls and no other: both
    for this test case and the run's hyperparameters, both with the list
    queued by the loop (every element of which costs [0]), the first to the
    durable and the second to the transient tier.  With [ignore_errors] the
    unit always gets there, whatever the metrics raised. *)
Theorem cache_entry_written `{Env} :
  (forall ie test_case cached api metric acc w acc' w',
     llm_metric_body ie test_case cached api metric acc w = (Return acc', w') ->
     exists metric_data evs,
       trace w' = trace w ++ evs ++ [EvUpdateMetricData (ApiLLM api) metric_data] /\
       Forall (fun e => is_cache_write e = false) evs /\
       snd acc' = snd acc ++ queued_for_cache (metric_objects w' metric) metric_data) /\
  (forall m ms ie uc test_case loc w loc' w',
     execute_llm_test_case (m :: ms) ie uc test_case loc w = (Return loc', w') ->
     exists cached api w0 w1 read_all new_cached run_duration evs,
       for_each (llm_metric_body ie test_case cached api) (m :: ms) (true, []) w0 =
         (Return (read_all, new_cached), w1) /\
       Forall costs_nothing new_cached /\
       Forall (fun e => is_cache_write e = false) evs /\
       trace w' =
         trace w ++ evs ++
         [EvUpdateRunDuration (ApiLLM api) run_duration;
          EvUpdateTestRun (ApiLLM api) (LLM test_case);
          EvCacheTestCase (llm_test_cases w' test_case)
            (CachedTestCase.mk new_cached) test_run_hyperparameters false;
          EvCacheTestCase (llm_test_cases w' test_case)
            (CachedTestCase.mk new_cached) test_run_hyperparameters true]) /\
  (forall m ms uc test_case loc w,
     exists loc' w',
       execute_llm_test_case (m :: ms) true uc test_case loc w = (Return loc', w')).
Proof.
  split; [exact llm_metric_body_queues|].
  split; [exact execute_llm_test_case_entry|].
  intros m ms uc test_case loc w.
  apply (returns_execute_llm_test_case (m :: ms) uc test_case loc w).
Qed.

(** ** A conversation with three evaluated messages *)

(** C8. For a batch made of one conversation with three distinct messages,
    all flagged [should_evaluate]: the flattened batch has exactly four
    units, the conversation first and its messages after it;
    [create_api_test_case] on the conversation creates four records, the
    conversation's and one per message, each message record built from the
    message's test case after it was stamped with the conversation's
    additional metadata and comments; and when [execute_test_cases] returns,
    the conversation's record was handed to [update_test_run] first,
    followed (when a single-turn metric is configured) by the three message
    records created with it, in order, no further record was created, and
    the three message objects carry the conversation's additional metadata
    and comments instead of their own. *)
Theorem conversation_with_three_messages `{Env}
    (c : ConversationalTestCase.t) (id1 id2 id3 : nat) (metrics : list nat)
    (ignore_errors use_cache save_to_disk : bool) (verbose_mode : option bool)
    (w : World) :
  ConversationalTestCase.messages c =
    [Message.mk true id1; Message.mk true id2; Message.mk true id3] ->
  id1 <> id2 -> id1 <> id3 -> id2 <> id3 ->
  let call :=
    execute_test_cases [Conversational c] metrics ignore_errors use_cache
      save_to_disk verbose_mode w in
  let amd := ConversationalTestCase.additional_metadata c in
  let com := ConversationalTestCase.comments c in
  test_cases_after call = [Conversational c; LLM id1; LLM id2; LLM id3] /\
  (forall index w0,
     llm_test_case_lookup_map w0 = ∅ ->
     let n := next_id w0 in
     let stamped id := LLMTestCase.stamp amd com (llm_test_cases w0 id) in
     exists a w',
       create_api_test_case (Conversational c) index w0 =
         (Return (ApiConversational a), w') /\
       ConversationalApiTestCase.instance_id a = S n /\
       ConversationalApiTestCase.messages a =
         [S (S n); S (S (S n)); S (S (S (S n)))] /\
       next_id w' = S (S (S (S n))) /\
       api_test_cases w' (S (S n)) = message_record (stamped id1) (Some 0) (S n) /\
       api_test_cases w' (S (S (S n))) = message_record (stamped id2) (Some 1) (S n) /\
       api_test_cases w' (S (S (S (S n)))) =
         message_record (stamped id3) (Some 2) (S n)) /\
  (forall results,
     returned call = Return results ->
     let n := next_id w in
     let stamped id := LLMTestCase.stamp amd com (llm_test_cases w id) in
     exists a evs,
       trace (world_after call) = trace w ++ evs /\
       test_run_updates evs =
         (ApiConversational a, Conversational c) ::
         match select_metrics is_BaseMetric w metrics with
         | [] => []
         | _ :: _ =>
             [(ApiLLM (S (S n)), LLM id1); (ApiLLM (S (S (S n))), LLM id2);
              (ApiLLM (S (S (S (S n)))), LLM id3)]
         end /\
       next_id (world_after call) = S (S (S (S n))) /\
       llm_test_cases (world_after call) id1 = stamped id1 /\
       llm_test_cases (world_after call) id2 = stamped id2 /\
       llm_test_cases (world_after call) id3 = stamped id3).
Proof.
  intros Hmsgs H12 H13 H23 call amd com.
  assert (Hflat : flatten_test_cases [Conversational c] =
                  [Conversational c; LLM id1; LLM id2; LLM id3]).
  { rewrite flatten_test_cases_closed_form. simpl. now rewrite Hmsgs. }
  split; [exact Hflat|]. split.
  { intros index w0 Hmap n stamped.
    destruct (create_conversational_three c index w0 id1 id2 id3 Hmsgs H12 H13 H23 Hmap)
      as (a & w' & E & Hinst & Hmess & Hn & _ & _ & _ & _ & Hr1 & Hr2 & Hr3 & _).
    exists a, w'. simpl. unfold bind. rewrite E. auto 10. }
  intros results E n stamped. unfold call, execute_test_cases in *.
  destruct (run_batch_unfold
    (fun metrics llm_metrics cms => execute_test_case metrics llm_metrics cms
                                      ignore_errors use_cache)
    [Conversational c] metrics save_to_disk verbose_mode w)
    as (w0 & Hw0 & Ht0 & Hsel & Hworld & Hret).
  cbv zeta in Hworld, Hret. rewrite Hworld. rewrite Hret in E. clear Hworld Hret.
  destruct (prepare_objects save_to_disk verbose_mode metrics w) as (Hn0 & Hl0 & Hm0).
  rewrite <- Hw0 in Hn0, Hl0, Hm0.
  rewrite Hflat in *. rewrite <- (Hsel is_BaseMetric).
  set (llm_metrics := select_metrics is_BaseMetric w0 metrics) in *.
  set (cms := select_metrics is_BaseConversationalMetric w0 metrics) in *.
  set (body := execute_test_case metrics llm_metrics cms ignore_errors use_cache) in *.
  assert (Hpost : post
    (for_each body [Conversational c; LLM id1; LLM id2; LLM id3]
       (mkLocals (-1) (-1) [])) w0
    (fun _ w' =>
       exists a evs,
         trace w' = trace w0 ++ evs /\
         test_run_updates evs =
           (ApiConversational a, Conversational c) ::
           match llm_metrics with
           | [] => []
           | _ :: _ =>
               [(ApiLLM (S (S n)), LLM id1); (ApiLLM (S (S (S n))), LLM id2);
                (ApiLLM (S (S (S (S n)))), LLM id3)]
           end /\
         next_id w' = S (S (S (S n))) /\
         llm_test_cases w' id1 = stamped id1 /\
         llm_test_cases w' id2 = stamped id2 /\
         llm_test_cases w' id3 = stamped id3)).
  { cbn [for_each]. apply post_bind.
    eapply post_mono;
      [|apply (execute_test_case_conversation_three metrics llm_metrics cms
                 ignore_errors use_cache c _ w0 id1 id2 id3 Hmsgs H12 H13 H23 Hm0)].
    cbv beta. rewrite Hn0, Hl0. fold n amd com stamped.
    intros loc1 w1 ((a & evs0 & Hevs0 & Hupd0) & Hn1 & Hm1 & Hs1 & Hs2 & Hs3).
    apply post_bind.
    eapply post_mono;
      [|apply (execute_test_case_message metrics llm_metrics cms ignore_errors
                 use_cache id1 loc1 w1 (S (S n)))].
    2:{ rewrite Hm1, !lookup_insert_ne by congruence. apply lookup_insert_eq. }
    cbv beta. intros loc2 w2 (Ho2 & evs1 & Hevs1 & Hupd1).
    injection Ho2 as Hn2 Hm2 Hl2.
    apply post_bind.
    eapply post_mono;
      [|apply (execute_test_case_message metrics llm_metrics cms ignore_errors
                 use_cache id2 loc2 w2 (S (S (S n))))].
    2:{ rewrite Hm2, Hm1, lookup_insert_ne by congruence. apply lookup_insert_eq. }
    cbv beta. intros loc3 w3 (Ho3 & evs2 & Hevs2 & Hupd2).
    injection Ho3 as Hn3 Hm3 Hl3.
    apply post_bind.
    eapply post_mono;
      [|apply (execute_test_case_message metrics llm_metrics cms ignore_errors
                 use_cache id3 loc3 w3 (S (S (S (S n)))))].
    2:{ rewrite Hm3, Hm2, Hm1. apply lookup_insert_eq. }
    cbv beta. intros loc4 w4 (Ho4 & evs3 & Hevs3 & Hupd3).
    injection Ho4 as Hn4 Hm4 Hl4.
    apply post_ret.
    exists a, (evs0 ++ evs1 ++ evs2 ++ evs3).
    split; [rewrite Hevs3, Hevs2, Hevs1, Hevs0, <- !app_assoc; reflexivity|].
    split.
    { rewrite !test_run_updates_app, Hupd0, Hupd1, Hupd2, Hupd3.
      destruct llm_metrics; reflexivity. }
    rewrite Hn4, Hn3, Hn2, Hl4, Hl3, Hl2. auto. }
  unfold post in Hpost.
  destruct (for_each body _ _ w0) as [[loc|e] w']; [|discriminate].
  destruct Hpost as (a & evs & Hevs & Hrest). exists a, evs. simpl.
  rewrite Hevs, Ht0. auto.
Qed.

(** ** The run duration of a unit *)

(** The concurrent strategy stamps [0] exactly when the measured time is
    below one second, whatever the metrics did. *)
Lemma a_run_duration_zero test_start_time test_end_time :
  (test_end_time - test_start_time < 1)%Q ->
  a_run_duration test_start_time test_end_time = 0%Q.
Proof.
  intros Hlt. unfold a_run_duration.
  destruct (Qlt_le_dec _ _) as [_|Hle]; [reflexivity|].
  exfalso. exact (Qlt_not_le _ _ Hlt Hle).
Qed.

(** C2, at a single-turn unit whose only metric is measured afresh (the
    cache is not read) between the clock readings [0] and [1/2]: the
    sequential strategy stamps the measured half second, the concurrent
    strategy stamps [0] although nothing came from the cache. *)
Theorem fresh_result_with_zero_duration :
  let sync :=
    execute_test_cases (H := Sample.env) [LLM 1%nat] [0%nat] true false true None
      Sample.world in
  let async :=
    a_execute_test_cases (H := Sample.env) Sample.indicator [LLM 1%nat] [0%nat] true
      false true None Sample.world in
  measured (trace (world_after sync)) = [0%nat] /\
  measured (trace (world_after async)) = [0%nat] /\
  run_durations (trace (world_after sync)) = [2 # 4] /\
  run_durations (trace (world_after async)) = [0%Q].
Proof. vm_compute. repeat split; reflexivity. Qed.

(** ** The unit [assert_test] judges *)

(** [assert_test] returns exactly when the success flag of the result it
    looks at is [True]; otherwise the message lists the metric results with
    an error, a false success flag or a success flag that cannot be
    evaluated. *)
Lemma check_test_result_returns `{Env} test_result :
  check_test_result test_result = Return tt <->
  TestResult.success test_result = Some true.
Proof.
  unfold check_test_result.
  destruct (TestResult.success test_result) as [[|]|]; simpl;
    destruct (TestResult.metrics_data test_result); split; congruence.
Qed.

(** C3, at a conversation whose first message fails the metric and whose
    last message passes it: [assert_test] raises, in both strategies, on
    the result of the first evaluated message, while the record of the last
    message (test case [3], record [4]) is successful. *)
Theorem assert_test_judges_first_message :
  let sync :=
    assert_test (H := Sample.env) Sample.indicator
      (Conversational Sample.conversation) [0%nat; 1%nat] false Sample.world in
  let async :=
    assert_test (H := Sample.env) Sample.indicator
      (Conversational Sample.conversation) [0%nat; 1%nat] true Sample.world in
  let failure :=
    AssertionError
      "Metrics: ExactMatch (score: 0/1, threshold: 1/2, strict: False, error: None) failed." in
  fst sync = Raise failure /\
  fst async = Raise failure /\
  llm_test_case_lookup_map (snd sync) !! 3%nat = Some 4%nat /\
  LLMApiTestCase.success (api_test_cases (snd sync) 4%nat) = Some true /\
  llm_test_case_lookup_map (snd async) !! 3%nat = Some 4%nat /\
  LLMApiTestCase.success (api_test_cases (snd async) 4%nat) = Some true.
Proof. vm_compute. repeat split; reflexivity. Qed.

(** ** Pass rates *)

(** C4, at one result whose metric has a success flag that raises when
    evaluated: [assert_test] would count that metric as failed, but
    [aggregate_metric_pass_rates] lets the exception out. *)
Theorem aggregate_lets_exception_out :
  metric_failed undefined_success = true /\
  aggregate_metric_pass_rates [custom_result] =
    Raise (PyException "score is undefined").
Proof. split; reflexivity. Qed.

(** ** The statements above at the concrete setting *)


Lemma measure_failure_witness :
  exists metric_data w',
    llm_metric_body (H := Sample.env) true 2 None 7 0 (true, []) Sample.world =
      (Return (false, []), w') /\
    trace w' =
      trace Sample.world ++
      [EvMeasure 0 (LLM 2) (Some "boom"); EvUpdateMetricData (ApiLLM 7) metric_data] /\
    records_failure "boom" metric_data.
Proof.
  refine (proj1 (measure_failure (H := Sample.env)) true 2%nat None 7%nat 0%nat
            (true, []) Sample.world
            (Metric.set_async_mode false Sample.exact_match) "boom" _ _);
    reflexivity.
Defined.

Lemma units_without_applicable_metric_witness :
  (exists evs,
     trace (world_after
              (execute_test_cases (H := Sample.env)
                 [LLM 1%nat; Conversational Sample.conversation] [1%nat] true false
                 true None Sample.world)) = trace Sample.world ++ evs /\
     Forall conversational_event evs) /\
  (exists evs,
     trace (world_after
              (execute_test_cases (H := Sample.env)
                 [LLM 1%nat; Conversational Sample.conversation] [0%nat] true false
                 true None Sample.world)) = trace Sample.world ++ evs /\
     map snd (conversational_updates evs) = [Conversational Sample.conversation] /\
     Forall (fun p => ConversationalApiTestCase.metricsData (fst p) = None)
       (conversational_updates evs)).
Proof.
  split.
  - destruct (units_without_applicable_metric (H := Sample.env)
                [LLM 1%nat; Conversational Sample.conversation] [1%nat] true false
                true None Sample.world) as (evs & Ht & Hllm & _).
    exists evs. split; [exact Ht|]. exact (proj1 (Hllm eq_refl)).
  - destruct (units_without_applicable_metric (H := Sample.env)
                [LLM 1%nat; Conversational Sample.conversation] [0%nat] true false
                true None Sample.world) as (evs & Ht & _ & Hconv).
    exists evs. split; [exact Ht|].
    destruct (execute_test_cases_returns (H := Sample.env)
                [LLM 1%nat; Conversational Sample.conversation] [0%nat] false true
                None Sample.world) as (results & E).
    exact (Hconv eq_refl results E).
Defined.

Lemma cache_entry_written_witness :
  exists cached api w0 w1 read_all new_cached run_duration evs loc' w',
    execute_llm_test_case (H := Sample.env) [0%nat] true false 2
      (mkLocals (-1) (-1) []) Sample.world = (Return loc', w') /\
    for_each (llm_metric_body (H := Sample.env) true 2 cached api) [0%nat]
      (true, []) w0 = (Return (read_all, new_cached), w1) /\
    Forall costs_nothing new_cached /\
    Forall (fun e => is_cache_write e = false) evs /\
    trace w' =
      trace Sample.world ++ evs ++
      [EvUpdateRunDuration (ApiLLM api) run_duration;
       EvUpdateTestRun (ApiLLM api) (LLM 2);
       EvCacheTestCase (llm_test_cases w' 2%nat) (CachedTestCase.mk new_cached)
         None false;
       EvCacheTestCase (llm_test_cases w' 2%nat) (CachedTestCase.mk new_cached)
         None true].
Proof.
  destruct (proj2 (proj2 (cache_entry_written (H := Sample.env))) 0%nat [] false
              2%nat (mkLocals (-1) (-1) []) Sample.world) as (loc' & w' & E).
  destruct (proj1 (proj2 (cache_entry_written (H := Sample.env))) 0%nat [] true false
              2%nat (mkLocals (-1) (-1) []) Sample.world loc' w' E)
    as (cached & api & w0 & w1 & read_all & new_cached & d & evs & Hrest).
  exists cached, api, w0, w1, read_all, new_cached, d, evs, loc', w'.
  split; [exact E|exact Hrest].
Defined.

Lemma conversation_with_three_messages_witness :
  test_cases_after
    (execute_test_cases (H := Sample.env) [Conversational Sample.conversation]
       [0%nat; 1%nat] true false true None Sample.world) =
  [Conversational Sample.conversation; LLM 0; LLM 1; LLM 3].
Proof.
  refine (proj1
    (conversation_with_three_messages (H := Sample.env) Sample.conversation
       0%nat 1%nat 3%nat [0%nat; 1%nat] true false true None Sample.world
       _ _ _ _)); [reflexivity|lia|lia|lia].
Defined.

(** ** The two strategies side by side *)

Section Agreement.
Context `{F : Faithful}.

Lemma configuration_set_error e m :
  configuration (Metric.set_error e m) = configuration m.
Proof. now destruct m. Qed.

Lemma configuration_set_success b m :
  configuration (Metric.set_success b m) = configuration m.
Proof. now destruct m. Qed.

Lemma configuration_load_cached d m : configuration (load_cached d m) = configuration m.
Proof. now destruct m. Qed.

Lemma configuration_set_async_mode b m :
  configuration (Metric.set_async_mode b m) = Metric.set_async_mode b (configuration m).
Proof. now destruct m. Qed.

Lemma configuration_kind m : Metric.kind (configuration m) = Metric.kind m.
Proof. now destruct m. Qed.

Lemma cached_metric_data_configuration m m' cached :
  configuration m = configuration m' ->
  cached_metric_data m cached = cached_metric_data m' cached.
Proof.
  intros Hc. unfold cached_metric_data. destruct cached as [c|]; [|reflexivity].
  now rewrite (get_metric_data_configuration m), (get_metric_data_configuration m'), Hc.
Qed.

(** A cached result is the MetricResult of the metric it is loaded on. *)
Lemma create_metric_data_load_cached m cached d :
  cached_metric_data m cached = Some d ->
  Metric.error m = None ->
  create_metric_data (load_cached d m) = d.
Proof.
  unfold cached_metric_data. destruct cached as [c|]; [|discriminate].
  destruct (Cache_get_metric_data m c) as [cmd|] eqn:Eget; [|discriminate].
  intros [= <-] Herr.
  destruct (cache_hit_consistent m c cmd Eget) as (Hn & Ht & Hs & Hm & He & b & Hb).
  unfold create_metric_data. rewrite is_successful_success.
  destruct m; destruct (CachedMetricData.metric_data cmd); simpl in *. subst.
  reflexivity.
Qed.

Lemma kind_of_configuration m m' :
  configuration m = configuration m' -> Metric.kind m = Metric.kind m'.
Proof. intros Hc. now rewrite <- (configuration_kind m), Hc, configuration_kind. Qed.

Lemma cached_metric_data_async_mode b m cached :
  cached_metric_data (Metric.set_async_mode b m) cached = cached_metric_data m cached.
Proof.
  unfold cached_metric_data. destruct cached as [c|]; [|reflexivity].
  now rewrite get_metric_data_async_mode.
Qed.

Lemma cached_metric_data_measured m m' cached :
  configuration m' = configuration (Metric.set_async_mode false m) ->
  cached_metric_data m' cached = cached_metric_data m cached.
Proof.
  intros Hc. rewrite (cached_metric_data_configuration _ _ cached Hc).
  apply cached_metric_data_async_mode.
Qed.

Lemma measure_of_configuration m m' test_case llm :
  configuration m = configuration m' ->
  measure (Metric.set_async_mode false m) test_case llm =
  measure (Metric.set_async_mode false m') test_case llm.
Proof.
  intros Hc.
  rewrite (measure_stateless (Metric.set_async_mode false m)),
    (measure_stateless (Metric.set_async_mode false m')).
  now rewrite !configuration_set_async_mode, Hc.
Qed.

(** The core of the comparison: on one metric object, configured alike on
    both sides (and without error when the cache is consulted), the
    sequential body and the Metric Runner obtain the same MetricResult or
    raise the same exception. *)
Lemma steps_agree ie test_case llm cached ms ma :
  configuration ms = configuration ma ->
  cache_ready cached ms ma ->
  match sequential_step ie test_case llm cached ms,
        concurrent_step ie test_case llm cached ma with
  | Return (m1, d), Return m2 =>
      create_metric_data m2 = d /\
      Metric.error m2 = Metric.error m1 /\
      configuration m1 = configuration m2 /\
      Metric.kind m1 = Metric.kind ms /\
      Cache_create_metric_configuration m1 = Cache_create_metric_configuration m2 /\
      cache_ready cached m1 m2
  | Raise e, Raise e' => e = e'
  | _, _ => False
  end.
Proof.
  intros Hc Hpre. unfold sequential_step, concurrent_step.
  rewrite (cached_metric_data_configuration ms ma cached Hc).
  destruct (cached_metric_data ma cached) as [d|] eqn:Ehit.
  - destruct Hpre as [Hmiss|[Hes Hea]]; [congruence|].
    assert (Herr : Metric.error (load_cached d ma) = None)
      by (destruct ma; simpl in *; congruence).
    split; [now apply (create_metric_data_load_cached ma cached)|].
    split; [congruence|].
    split; [now rewrite configuration_load_cached|]. split; [reflexivity|].
    split; [|right; now split].
    rewrite (create_metric_configuration_configuration ms),
      (create_metric_configuration_configuration (load_cached d ma)),
      configuration_load_cached. now rewrite Hc.
  - assert (Hin : measure (Metric.set_async_mode false ms) test_case llm =
                  measure (Metric.set_async_mode false (Metric.set_error None ma))
                    test_case llm).
    { apply measure_of_configuration. now rewrite configuration_set_error. }
    pose proof (measure_configuration (Metric.set_async_mode false ms) test_case llm)
      as Hs.
    rewrite <- Hin.
    destruct (measure (Metric.set_async_mode false ms) test_case llm) as [m' [e|]];
      simpl in Hs.
    + destruct ie; [|reflexivity].
      repeat split.
      * rewrite <- (configuration_kind (Metric.set_success _ _)),
          configuration_set_success, configuration_set_error, Hs,
          configuration_kind. now destruct ms.
      * left. rewrite <- Ehit. apply cached_metric_data_measured.
        rewrite configuration_set_success, configuration_set_error, Hs.
        now rewrite !configuration_set_async_mode, Hc.
    + repeat split.
      * rewrite <- (configuration_kind m'), Hs, configuration_kind. now destruct ms.
      * left. rewrite <- Ehit. apply cached_metric_data_measured.
        rewrite Hs. now rewrite !configuration_set_async_mode, Hc.
Qed.

(** The Metric Runner leaves a metric object it has run on as it is when it
    runs on it again for the same test case. *)
Lemma concurrent_step_settled ie test_case llm cached ma m2 :
  concurrent_step ie test_case llm cached ma = Return m2 ->
  concurrent_step ie test_case llm cached m2 = Return m2.
Proof.
  unfold concurrent_step.
  destruct (cached_metric_data ma cached) as [d|] eqn:Ehit.
  - intros [= <-].
    rewrite (cached_metric_data_configuration (load_cached d ma) ma cached
               (configuration_load_cached d ma)), Ehit.
    reflexivity.
  - pose proof (measure_configuration
                  (Metric.set_async_mode false (Metric.set_error None ma)) test_case llm)
      as Hs.
    destruct (measure (Metric.set_async_mode false (Metric.set_error None ma))
                test_case llm) as [m' raised] eqn:Em.
    simpl in Hs.
    assert (Hcfg : forall m, configuration m = configuration m' ->
              cached_metric_data m cached = None /\
              measure (Metric.set_async_mode false (Metric.set_error None m))
                test_case llm = (m', raised)).
    { intros m Hm. split.
      - rewrite <- Ehit. apply cached_metric_data_measured.
        rewrite Hm, Hs. now rewrite !configuration_set_async_mode, configuration_set_error.
      - rewrite <- Em.
        rewrite (measure_stateless (Metric.set_async_mode false (Metric.set_error None m))),
          (measure_stateless (Metric.set_async_mode false (Metric.set_error None ma))).
        rewrite !configuration_set_async_mode, !configuration_set_error, Hm, Hs.
        rewrite configuration_set_async_mode, configuration_set_error.
        now destruct (configuration ma). }
    destruct raised as [e|].
    + destruct ie; [|discriminate]. intros [= <-].
      destruct (Hcfg (Metric.set_success false (Metric.set_error (Some e) m'))) as [-> ->];
        [now rewrite configuration_set_success, configuration_set_error|reflexivity].
    + intros [= <-]. destruct (Hcfg m' eq_refl) as [-> ->]. reflexivity.
Qed.

(** *** Computations that leave the metric objects alone *)

Lemma observable_app tr tr' : observable (tr ++ tr') = observable tr ++ observable tr'.
Proof. unfold observable. now rewrite List.filter_app, map_app. Qed.

Lemma cache_writes_observable tr : cache_writes (observable tr) = cache_writes tr.
Proof.
  unfold cache_writes, observable. induction tr as [|e tr IH]; [reflexivity|].
  destruct e as [| [|] | [|] | [|] |]; simpl; rewrite ?IH; reflexivity.
Qed.

Lemma agree_ret {A B} (RA : A -> B -> Prop) a b : RA a b -> agree RA (ret a) (ret b).
Proof. intros Hab ws wa Hr. simpl. auto. Qed.

Lemma agree_bind {A B C D} (RA : A -> B -> Prop) (RC : C -> D -> Prop)
    (ms : M A) (ma : M B) (ks : A -> M C) (ka : B -> M D) :
  agree RA ms ma -> (forall a b, RA a b -> agree RC (ks a) (ka b)) ->
  agree RC (bind ms ks) (bind ma ka).
Proof.
  intros Hm Hk ws wa Hr. unfold bind. specialize (Hm ws wa Hr).
  destruct (ms ws) as [[a|e] ws1], (ma wa) as [[b|e'] wa1]; try contradiction; auto.
  destruct Hm as (Hab & Hr1 & Hms & Hma). specialize (Hk a b Hab ws1 wa1 Hr1).
  destruct (ks a ws1) as [[c|e] ws2], (ka b wa1) as [[d|e'] wa2]; auto.
  destruct Hk as (Hcd & Hr2 & Hms2 & Hma2).
  split; [exact Hcd|]. split; [exact Hr2|].
  split; [now rewrite Hms2|now rewrite Hma2].
Qed.

Lemma agree_for_each {A S T} (RS : S -> T -> Prop)
    (bs : A -> S -> M S) (ba : A -> T -> M T) l :
  (forall x s t, RS s t -> agree RS (bs x s) (ba x t)) ->
  forall s t, RS s t -> agree RS (for_each bs l s) (for_each ba l t).
Proof.
  intros Hb. induction l as [|x l IH]; intros s t Hst; simpl.
  - now apply agree_ret.
  - eapply agree_bind; [now apply Hb|]. intros s' t' Hst'. now apply IH.
Qed.

Ltac agree_primitive :=
  let Hl := fresh "Hl" in
  let Ha := fresh "Ha" in
  let Hn := fresh "Hn" in
  let Hm := fresh "Hm" in
  let Hd := fresh "Hd" in
  let Hp := fresh "Hp" in
  let Ho := fresh "Ho" in
  intros ws wa [Hl Ha Hn Hm Hd Hp Ho]; simpl;
  split; [try congruence|];
  (split; [constructor; simpl; auto; try congruence|split; reflexivity]).

Lemma agree_emit e e' :
  is_measure e = false -> is_measure e' = false ->
  erase_event_duration e = erase_event_duration e' ->
  agree eq (emit e) (emit e').
Proof.
  intros He He' Heq. agree_primitive.
  rewrite !observable_app, Ho. unfold observable. simpl. rewrite He, He'. simpl.
  now rewrite Heq.
Qed.

Lemma agree_get_llm id : agree eq (get_llm id) (get_llm id).
Proof. agree_primitive. Qed.

Lemma agree_set_llm id x : agree eq (set_llm id x) (set_llm id x).
Proof. agree_primitive. Qed.

Lemma agree_fresh_id : agree eq fresh_id fresh_id.
Proof. agree_primitive. Qed.

Lemma agree_perf_counter : agree eq perf_counter perf_counter.
Proof. agree_primitive. Qed.

Lemma agree_get_api ref :
  agree (fun a b => erase_duration a = erase_duration b) (get_api ref) (get_api ref).
Proof. agree_primitive. Qed.

Lemma agree_set_api ref a b :
  erase_duration a = erase_duration b -> agree eq (set_api ref a) (set_api ref b).
Proof.
  intros Hab. agree_primitive.
  intros r. unfold update. destruct (Nat.eqb r ref); auto.
Qed.

Lemma agree_lookup_map :
  agree (fun w w' => llm_test_case_lookup_map w = llm_test_case_lookup_map w') get get.
Proof. agree_primitive. Qed.

Lemma agree_insert_lookup_map id ref :
  agree eq
    (modify (fun w => with_lookup_map (<[id := ref]> (llm_test_case_lookup_map w)) w))
    (modify (fun w => with_lookup_map (<[id := ref]> (llm_test_case_lookup_map w)) w)).
Proof. agree_primitive. Qed.

Lemma agree_create_llm_api_test_case test_case index cid amd com :
  agree eq (create_llm_api_test_case test_case index cid amd com)
    (create_llm_api_test_case test_case index cid amd com).
Proof.
  unfold create_llm_api_test_case.
  eapply agree_bind; [apply agree_lookup_map|]. intros w w' Hmap. cbv beta in Hmap.
  rewrite Hmap. destruct (llm_test_case_lookup_map w' !! test_case).
  { now apply agree_ret. }
  eapply agree_bind with (RA := eq).
  { destruct (truthy_id cid).
    - eapply agree_bind; [apply agree_get_llm|]. intros tc ? <-.
      eapply agree_bind; [apply agree_set_llm|]. intros _ _ _. now apply agree_ret.
    - eapply agree_bind; [apply agree_get_llm|]. intros tc ? <-. now apply agree_ret. }
  intros [[[success name] order] trace_stack] ? <-.
  eapply agree_bind; [apply agree_get_llm|]. intros tc ? <-.
  eapply agree_bind; [apply agree_fresh_id|]. intros ref ? <-.
  eapply agree_bind; [now apply agree_set_api|]. intros _ _ _.
  eapply agree_bind with (RA := eq).
  { destruct (truthy_id cid); [apply agree_insert_lookup_map|now apply agree_ret]. }
  intros _ _ _. now apply agree_ret.
Qed.

Lemma agree_create_conversational_api_test_case c index :
  agree eq (create_conversational_api_test_case c index)
    (create_conversational_api_test_case c index).
Proof.
  unfold create_conversational_api_test_case.
  eapply agree_bind; [apply agree_fresh_id|]. intros instance_id ? <-.
  eapply agree_bind with (RA := eq).
  { apply agree_for_each; [|reflexivity]. intros x s t <-.
    eapply agree_bind; [apply agree_create_llm_api_test_case|]. intros r ? <-.
    now apply agree_ret. }
  intros messages ? <-. now apply agree_ret.
Qed.

Lemma agree_lookup_cache use_cache test_case :
  agree eq (lookup_cache use_cache test_case) (lookup_cache use_cache test_case).
Proof.
  unfold lookup_cache. intros ws wa Hr.
  assert (Hcw : cache_writes (trace ws) = cache_writes (trace wa)).
  { rewrite <- (cache_writes_observable (trace ws)), (same_observable _ _ Hr).
    apply cache_writes_observable. }
  rewrite Hcw, (same_llm_test_cases _ _ Hr), (same_disable_write_cache _ _ Hr).
  auto.
Qed.

Lemma erase_duration_update_metric_data a b d :
  erase_duration a = erase_duration b ->
  erase_duration (llm_update_metric_data a d) =
  erase_duration (llm_update_metric_data b d).
Proof.
  intros Hab. rewrite !llm_update_metric_data_spec.
  destruct a, b. simpl in *. injection Hab as -> -> -> -> -> -> -> -> -> -> -> -> -> -> -> ->.
  reflexivity.
Qed.

Lemma erase_duration_update_run_duration a b d d' :
  erase_duration a = erase_duration b ->
  erase_duration (llm_update_run_duration a d) =
  erase_duration (llm_update_run_duration b d').
Proof.
  intros Hab. rewrite !llm_update_run_duration_spec.
  destruct a, b. simpl in *. exact Hab.
Qed.

Lemma test_result_of_erase_duration a b :
  erase_duration a = erase_duration b -> test_result_of a = test_result_of b.
Proof.
  intros Hab. destruct a, b. simpl in *.
  injection Hab as -> -> -> -> -> -> -> -> -> -> -> -> -> -> -> ->. reflexivity.
Qed.

Lemma agree_llm_update_metric_data_call ref d :
  agree eq (llm_update_metric_data_call ref d) (llm_update_metric_data_call ref d).
Proof.
  unfold llm_update_metric_data_call.
  eapply agree_bind; [apply agree_get_api|]. intros a b Hab.
  eapply agree_bind; [now apply agree_set_api, erase_duration_update_metric_data|].
  intros _ _ _. now apply agree_emit.
Qed.

Lemma agree_llm_update_run_duration_call ref d d' :
  agree eq (llm_update_run_duration_call ref d) (llm_update_run_duration_call ref d').
Proof.
  unfold llm_update_run_duration_call.
  eapply agree_bind; [apply agree_get_api|]. intros a b Hab.
  eapply agree_bind; [now apply agree_set_api, erase_duration_update_run_duration|].
  intros _ _ _. now apply agree_emit.
Qed.

Lemma agree_finish_llm_test_case test_case api new_cached count loc :
  agree eq (finish_llm_test_case test_case api new_cached count loc)
    (finish_llm_test_case test_case api new_cached count loc).
Proof.
  unfold finish_llm_test_case.
  eapply agree_bind; [now apply agree_emit|]. intros _ _ _.
  eapply agree_bind; [apply agree_get_llm|]. intros tc ? <-.
  eapply agree_bind; [now apply agree_emit|]. intros _ _ _.
  eapply agree_bind; [now apply agree_emit|]. intros _ _ _.
  eapply agree_bind with (RA := eq).
  { simpl. eapply agree_bind; [apply agree_get_api|]. intros a b Hab.
    apply agree_ret. now apply test_result_of_erase_duration. }
  intros r ? <-. now apply agree_ret.
Qed.

Lemma agree_finish_conversational_test_case cms c a t0 t1 t0' t1' loc :
  agree eq (finish_conversational_test_case cms c a t0 t1 loc)
    (finish_conversational_test_case cms c a t0' t1' loc).
Proof.
  unfold finish_conversational_test_case.
  eapply agree_bind
    with (RA := fun a b => erase_conversational_duration a = erase_conversational_duration b).
  { destruct cms as [|m cms]; [now apply agree_ret|].
    eapply agree_bind; [now apply agree_emit|]. intros _ _ _.
    apply agree_ret. rewrite !conv_update_run_duration_spec. now destruct a. }
  intros a1 a2 Ha.
  eapply agree_bind; [|intros _ _ _; now apply agree_ret].
  apply agree_emit; auto. simpl. now rewrite Ha.
Qed.

(** *** Computations on the metric objects *)

Lemma only_measured_refl w : only_measured w w.
Proof. split; [now destruct w|reflexivity]. Qed.

Lemma only_measured_trans w1 w2 w3 :
  only_measured w1 w2 -> only_measured w2 w3 -> only_measured w1 w3.
Proof.
  intros [H12 Ho12] [H23 Ho23]. split; [|congruence].
  rewrite H23 at 1. rewrite H12 at 1. reflexivity.
Qed.

Lemma only_measured_llm_test_cases w w' :
  only_measured w w' -> llm_test_cases w' = llm_test_cases w.
Proof. intros [-> _]. reflexivity. Qed.

Lemma same_records_only_measured ws wa ws' wa' :
  same_records ws wa -> only_measured ws ws' -> only_measured wa wa' ->
  same_records ws' wa'.
Proof.
  intros [Hl Ha Hn Hm Hd Hp Ho] [Hs Hos] [Hw Hoa].
  rewrite Hs, Hw. constructor; simpl; auto. congruence.
Qed.

Lemma only_measured_set_metric i m w :
  only_measured w (with_metric_objects (update (metric_objects w) i m) w).
Proof. split; reflexivity. Qed.

Lemma reset_errors_effect metrics : forall w,
  exists w',
    reset_errors metrics w = (Return tt, w') /\
    only_measured w w' /\
    (forall i, In i metrics -> Metric.error (metric_objects w' i) = None) /\
    (forall i, configuration (metric_objects w' i) = configuration (metric_objects w i)).
Proof.
  unfold reset_errors.
  induction metrics as [|k metrics IH]; intros w; simpl.
  - exists w. split; [reflexivity|]. split; [apply only_measured_refl|].
    split; [contradiction|reflexivity].
  - unfold bind at 1. unfold bind at 1. unfold get_metric at 1.
    unfold set_metric at 1. unfold modify at 1.
    set (w1 := with_metric_objects _ w).
    destruct (IH w1) as (w' & E' & Hom & Herr & Hcfg). exists w'.
    split; [exact E'|]. split.
    { eapply only_measured_trans; [apply only_measured_set_metric|exact Hom]. }
    assert (Hframe : forall i, configuration (metric_objects w' i) =
                               configuration (metric_objects w i)).
    { intros i. rewrite Hcfg. unfold w1. simpl. unfold update.
      destruct (Nat.eqb i k) eqn:Ek; [|reflexivity].
      apply Nat.eqb_eq in Ek. subst. apply configuration_set_error. }
    split; [|exact Hframe].
    intros i [->|Hin]; [|now apply Herr].
    destruct (in_dec Nat.eq_dec i metrics) as [Hin|Hnin]; [now apply Herr|].
    clear - E' Hnin.
    assert (Hkeep : forall l w0 w0',
      for_each (fun metric (_ : unit) =>
                  let* m := get_metric metric in
                  set_metric metric (Metric.set_error None m)) l tt w0 = (Return tt, w0') ->
      ~ In i l -> metric_objects w0' i = metric_objects w0 i).
    { induction l as [|x l IHl]; intros w0 w0' E0 Hn; simpl in E0.
      - now injection E0 as <-.
      - unfold bind at 1 in E0. unfold bind at 1 in E0. simpl in E0.
        rewrite (IHl _ _ E0) by (intros Hx; apply Hn; now right).
        simpl. unfold update. destruct (Nat.eqb_spec i x); [|reflexivity].
        subst. exfalso. apply Hn. now left. }
    rewrite (Hkeep _ _ _ E' Hnin). unfold w1. simpl. rewrite update_same.
    now destruct (metric_objects w i).
Qed.

Lemma metric_runner_step test_case cached ie i wa :
  match concurrent_step ie test_case (llm_test_cases wa) cached (metric_objects wa i) with
  | Raise e => fst (metric_runner test_case cached ie i tt wa) = Raise e
  | Return m2 =>
      exists wa',
        metric_runner test_case cached ie i tt wa = (Return tt, wa') /\
        metric_objects wa' i = m2 /\
        (forall j, j <> i -> metric_objects wa' j = metric_objects wa j) /\
        only_measured wa wa'
  end.
Proof.
  unfold concurrent_step, metric_runner, bind, get_metric.
  destruct (cached_metric_data (metric_objects wa i) cached) as [d|].
  - eexists. split; [reflexivity|]. simpl. rewrite update_same.
    split; [reflexivity|]. split; [|apply only_measured_set_metric].
    intros j Hj. unfold update. now destruct (Nat.eqb_spec j i).
  - unfold set_metric, modify, measure_guarded, bind, call_measure. simpl.
    rewrite update_same.
    destruct (measure _ test_case (llm_test_cases wa)) as [m' [e|]]; simpl.
    + destruct ie; [|reflexivity]. simpl.
      eexists. split; [reflexivity|]. simpl. rewrite !update_same.
      split; [reflexivity|]. split.
      * intros j Hj. unfold update. now destruct (Nat.eqb_spec j i).
      * split; [reflexivity|]. simpl. rewrite observable_app. simpl.
        now rewrite app_nil_r.
    + eexists. split; [reflexivity|]. simpl. rewrite !update_same.
      split; [reflexivity|]. split.
      * intros j Hj. unfold update. now destruct (Nat.eqb_spec j i).
      * split; [reflexivity|]. simpl. rewrite observable_app. simpl.
        now rewrite app_nil_r.
Qed.

Lemma llm_metric_body_step ie test_case cached api i acc ws :
  match sequential_step ie (LLM test_case) (llm_test_cases ws) cached
          (metric_objects ws i) with
  | Raise e => fst (llm_metric_body ie test_case cached api i acc ws) = Raise e
  | Return (m1, d) =>
      exists read_all ws1 ws',
        llm_metric_body ie test_case cached api i acc ws =
          (Return (read_all, snd acc ++ queued_for_cache m1 d), ws') /\
        only_measured ws ws1 /\
        metric_objects ws1 i = m1 /\
        (forall j, j <> i -> metric_objects ws1 j = metric_objects ws j) /\
        llm_update_metric_data_call api d ws1 = (Return tt, ws')
  end.
Proof.
  unfold sequential_step, llm_metric_body, bind, get_metric.
  destruct (cached_metric_data (metric_objects ws i) cached) as [d|].
  - exists (fst acc), ws. eexists.
    unfold ret, llm_update_metric_data_call, append_if_no_error, bind, get_api,
      get_metric, set_api, emit, modify, ret, queued_for_cache. simpl.
    split; [|split; [apply only_measured_refl|auto]].
    destruct (Metric.error (metric_objects ws i)); rewrite ?app_nil_r; reflexivity.
  - unfold set_metric, modify, measure_guarded, bind, call_measure. simpl.
    rewrite update_same.
    destruct (measure _ (LLM test_case) (llm_test_cases ws)) as [m' [e|]]; simpl.
    + destruct ie; [|reflexivity]. simpl.
      exists false.
      exists (with_trace (trace ws ++ [EvMeasure i (LLM test_case) (Some e)])
                (with_metric_objects
                   (update
                      (update
                         (update (metric_objects ws) i
                            (Metric.set_async_mode false (metric_objects ws i)))
                         i m')
                      i (Metric.set_success false (Metric.set_error (Some e) m')))
                   ws)).
      eexists.
      unfold ret, llm_update_metric_data_call, append_if_no_error, bind, get_api,
        get_metric, set_metric, set_api, emit, modify, ret, queued_for_cache. simpl.
      rewrite !update_same. simpl. rewrite app_nil_r.
      split; [reflexivity|]. split.
      { split; [reflexivity|]. simpl. rewrite observable_app.
        simpl. now rewrite app_nil_r. }
      split; [reflexivity|]. split; [|reflexivity].
      intros j Hj. unfold update. now destruct (Nat.eqb_spec j i).
    + exists false.
      exists (with_trace (trace ws ++ [EvMeasure i (LLM test_case) None])
                (with_metric_objects
                   (update
                      (update (metric_objects ws) i
                         (Metric.set_async_mode false (metric_objects ws i)))
                      i m')
                   ws)).
      eexists.
      unfold ret, llm_update_metric_data_call, append_if_no_error, bind, get_api,
        get_metric, set_metric, set_api, emit, modify, ret, queued_for_cache. simpl.
      rewrite !update_same.
      split; [destruct (Metric.error m'); rewrite ?app_nil_r; reflexivity|]. split.
      { split; [reflexivity|]. simpl. rewrite observable_app.
        simpl. now rewrite app_nil_r. }
      split; [reflexivity|]. split; [|reflexivity].
      intros j Hj. unfold update. now destruct (Nat.eqb_spec j i).
Qed.

Lemma conversational_metric_body_step ie c i a ws :
  is_BaseConversationalMetric (Metric.kind (metric_objects ws i)) = true ->
  match sequential_step ie (Conversational c) (llm_test_cases ws) None
          (metric_objects ws i) with
  | Raise e => fst (conversational_metric_body ie c i a ws) = Raise e
  | Return (m1, d) =>
      exists ws1 ws',
        conversational_metric_body ie c i a ws =
          (Return (conv_update_metric_data a d), ws') /\
        only_measured ws ws1 /\
        metric_objects ws1 i = m1 /\
        (forall j, j <> i -> metric_objects ws1 j = metric_objects ws j) /\
        emit (EvUpdateMetricData (ApiConversational a) d) ws1 = (Return tt, ws')
  end.
Proof.
  intros Hkind.
  unfold sequential_step, conversational_metric_body, bind, get_metric. rewrite Hkind.
  unfold set_metric, modify, measure_guarded, bind, call_measure. simpl.
  rewrite update_same.
  destruct (measure _ (Conversational c) (llm_test_cases ws)) as [m' [e|]]; simpl.
  - destruct ie; [|reflexivity]. simpl.
    exists (with_trace (trace ws ++ [EvMeasure i (Conversational c) (Some e)])
              (with_metric_objects
                 (update
                    (update
                       (update (metric_objects ws) i
                          (Metric.set_async_mode false (metric_objects ws i)))
                       i m')
                    i (Metric.set_success false (Metric.set_error (Some e) m')))
                 ws)).
    eexists.
    unfold ret, get_metric, set_metric, emit, modify, ret. simpl.
    rewrite !update_same. simpl.
    split; [reflexivity|]. split.
    { split; [reflexivity|]. simpl. rewrite observable_app.
      simpl. now rewrite app_nil_r. }
    split; [reflexivity|]. split; [|reflexivity].
    intros j Hj. unfold update. now destruct (Nat.eqb_spec j i).
  - exists (with_trace (trace ws ++ [EvMeasure i (Conversational c) None])
              (with_metric_objects
                 (update
                    (update (metric_objects ws) i
                       (Metric.set_async_mode false (metric_objects ws i)))
                    i m')
                 ws)).
    eexists.
    unfold ret, get_metric, set_metric, emit, modify, ret. simpl.
    rewrite !update_same.
    split; [reflexivity|]. split.
    { split; [reflexivity|]. simpl. rewrite observable_app.
      simpl. now rewrite app_nil_r. }
    split; [reflexivity|]. split; [|reflexivity].
    intros j Hj. unfold update. now destruct (Nat.eqb_spec j i).
Qed.

Lemma a_llm_metric_body_step api i new_cached wb :
  exists wb',
    a_llm_metric_body api i new_cached wb =
      (Return
         (new_cached ++
          queued_for_cache (metric_objects wb i) (create_metric_data (metric_objects wb i))),
       wb') /\
    llm_update_metric_data_call api (create_metric_data (metric_objects wb i)) wb =
      (Return tt, wb').
Proof.
  eexists.
  unfold a_llm_metric_body, llm_update_metric_data_call, append_if_no_error, bind,
    get_api, get_metric, set_api, emit, modify, ret, queued_for_cache. simpl.
  split; [|reflexivity].
  destruct (Metric.error (metric_objects wb i)); rewrite ?app_nil_r; reflexivity.
Qed.

Lemma a_conversational_metric_body_step i a wb :
  exists wb',
    a_conversational_metric_body i a wb =
      (Return (conv_update_metric_data a (create_metric_data (metric_objects wb i))),
       wb') /\
    emit (EvUpdateMetricData (ApiConversational a)
            (create_metric_data (metric_objects wb i))) wb = (Return tt, wb').
Proof.
  eexists. unfold a_conversational_metric_body, bind, get_metric, emit, modify, ret.
  split; reflexivity.
Qed.

(** *** A metric loop against the Metric Runner followed by the loop that
    builds the results *)

Lemma metric_runner_keeps_settled test_case cached ie j : forall metrics wa wa1,
  for_each (metric_runner test_case cached ie) metrics tt wa = (Return tt, wa1) ->
  concurrent_step ie test_case (llm_test_cases wa) cached (metric_objects wa j) =
    Return (metric_objects wa j) ->
  metric_objects wa1 j = metric_objects wa j.
Proof.
  induction metrics as [|i metrics IH]; intros wa wa1 E1 Hset.
  - simpl in E1. now injection E1 as <-.
  - cbn [for_each] in E1. unfold bind in E1.
    pose proof (metric_runner_step test_case cached ie i wa) as Hr.
    destruct (metric_runner test_case cached ie i tt wa) as [[[]|e] wai];
      [|discriminate].
    destruct (concurrent_step ie test_case (llm_test_cases wa) cached
                (metric_objects wa i)) as [m2|e] eqn:Ei; [|discriminate].
    destruct Hr as (wa' & [= <-] & Hm2 & Hfr & Hom).
    assert (Hj : metric_objects wai j = metric_objects wa j).
    { destruct (Nat.eq_dec j i) as [->|Hj]; [|now apply Hfr].
      rewrite Hm2. congruence. }
    rewrite <- Hj. apply IH; [exact E1|].
    rewrite (only_measured_llm_test_cases _ _ Hom), Hj. exact Hset.
Qed.

Section TwoPhase.
Variables (S T : Type) (RS : S -> T -> Prop).
Variables (test_case : TestCase) (cached : option CachedTestCase.t) (ie : bool).
Variables (body_s : nat -> S -> M S) (body_a : nat -> T -> M T).
Variables (effect_s : MetricData.t -> S -> M unit) (effect_a : MetricData.t -> T -> M unit).
Variable next_s : Metric.t -> MetricData.t -> S -> S -> Prop.
Variable next_a : Metric.t -> T -> T.
Variable guard : MetricKind -> Prop.

Hypothesis body_s_step :
  forall i s ws,
    guard (Metric.kind (metric_objects ws i)) ->
    match sequential_step ie test_case (llm_test_cases ws) cached (metric_objects ws i) with
    | Raise e => fst (body_s i s ws) = Raise e
    | Return (m1, d) =>
        exists s' ws1 ws',
          body_s i s ws = (Return s', ws') /\
          next_s m1 d s s' /\
          only_measured ws ws1 /\
          metric_objects ws1 i = m1 /\
          (forall j, j <> i -> metric_objects ws1 j = metric_objects ws j) /\
          effect_s d s ws1 = (Return tt, ws')
    end.

Hypothesis body_a_step :
  forall i t wb,
    exists wb',
      body_a i t wb = (Return (next_a (metric_objects wb i) t), wb') /\
      effect_a (create_metric_data (metric_objects wb i)) t wb = (Return tt, wb').

Hypothesis effects_agree :
  forall d s t, RS s t -> agree eq (effect_s d s) (effect_a d t).

Hypothesis effect_s_keeps :
  forall d s, keeps (fun w => (metric_objects w, llm_test_cases w)) (effect_s d s).

Hypothesis next_related :
  forall s t s' m1 m2 d,
    RS s t -> next_s m1 d s s' ->
    create_metric_data m2 = d -> Metric.error m2 = Metric.error m1 ->
    Cache_create_metric_configuration m1 = Cache_create_metric_configuration m2 ->
    RS s' (next_a m2 t).

Lemma two_phase : forall metrics ws wa s t,
  RS s t -> same_configurations ws wa ->
  llm_test_cases ws = llm_test_cases wa ->
  (forall i, In i metrics ->
     guard (Metric.kind (metric_objects ws i)) /\
     cache_ready cached (metric_objects ws i) (metric_objects wa i)) ->
  match for_each body_s metrics s ws with
  | (Raise e, _) =>
      fst (for_each (metric_runner test_case cached ie) metrics tt wa) = Raise e
  | (Return s', ws') =>
      exists wa1,
        for_each (metric_runner test_case cached ie) metrics tt wa = (Return tt, wa1) /\
        same_configurations ws' wa1 /\
        same_kinds ws ws' /\
        only_measured wa wa1 /\
        forall wb,
          (forall i, In i metrics -> metric_objects wb i = metric_objects wa1 i) ->
          same_records ws wb ->
          exists t' wb',
            for_each body_a metrics t wb = (Return t', wb') /\
            RS s' t' /\ same_records ws' wb' /\
            metric_objects wb' = metric_objects wb
  end.
Proof.
  induction metrics as [|i metrics IH]; intros ws wa s t Hst Hc Hl Hpre.
  - simpl. exists wa. split; [reflexivity|]. split; [exact Hc|].
    split; [intros j; reflexivity|]. split; [apply only_measured_refl|].
    intros wb _ Hrec. exists t, wb. auto.
  - destruct (Hpre i (or_introl eq_refl)) as [Hguard Hready].
    pose proof (steps_agree ie test_case (llm_test_cases ws) cached
                  (metric_objects ws i) (metric_objects wa i) (Hc i) Hready) as Hstep.
    pose proof (body_s_step i s ws Hguard) as Hs.
    pose proof (metric_runner_step test_case cached ie i wa) as Hr.
    rewrite <- Hl in Hr.
    cbn [for_each]. unfold bind.
    destruct (sequential_step ie test_case (llm_test_cases ws) cached
                (metric_objects ws i)) as [[m1 d]|e];
      destruct (concurrent_step ie test_case (llm_test_cases ws) cached
                  (metric_objects wa i)) as [m2|e'] eqn:Estep; try contradiction.
    + destruct Hstep as (Hd & Herr & Hcfg & Hkind & Hstr & Hready1).
      destruct Hs as (s1 & ws1 & ws1' & Ebs & Hnext & Hom & Hm1 & Hfr & Eeff).
      destruct Hr as (wai & Er & Hm2 & Hfra & Homa).
      rewrite Ebs.
      pose proof (effect_s_keeps d s ws1) as Hkeep. rewrite Eeff in Hkeep.
      simpl in Hkeep. injection Hkeep as Hkm Hkl.
      assert (Hst1 : RS s1 (next_a m2 t)) by (eapply next_related; eauto).
      assert (Hc1 : same_configurations ws1' wai).
      { intros j. rewrite Hkm. destruct (Nat.eq_dec j i) as [->|Hj].
        - now rewrite Hm1, Hm2.
        - rewrite (Hfr j Hj), (Hfra j Hj). apply Hc. }
      assert (Hl1 : llm_test_cases ws1' = llm_test_cases wai).
      { rewrite Hkl, (only_measured_llm_test_cases _ _ Hom),
          (only_measured_llm_test_cases _ _ Homa). exact Hl. }
      assert (Hpre1 : forall j, In j metrics ->
                guard (Metric.kind (metric_objects ws1' j)) /\
                cache_ready cached (metric_objects ws1' j) (metric_objects wai j)).
      { intros j Hj. rewrite Hkm. destruct (Nat.eq_dec j i) as [->|Hji].
        - rewrite Hm1, Hm2, Hkind. now split.
        - rewrite (Hfr j), (Hfra j) by assumption. apply Hpre. now right. }
      specialize (IH ws1' wai s1 (next_a m2 t) Hst1 Hc1 Hl1 Hpre1).
      destruct (for_each body_s metrics s1 ws1') as [[s'|e] ws'].
      * destruct IH as (wa1 & E1 & Hc' & Hk' & Hom1 & Hph2).
        exists wa1. rewrite Er. split; [exact E1|]. split; [exact Hc'|].
        split.
        { intros j. rewrite (Hk' j), Hkm. destruct (Nat.eq_dec j i) as [->|Hj].
          - now rewrite Hm1.
          - now rewrite (Hfr j Hj). }
        split; [eapply only_measured_trans; eassumption|].
        intros wb Hwb Hrec.
        assert (Hwbi : metric_objects wb i = m2).
        { rewrite (Hwb i (or_introl eq_refl)), <- Hm2.
          apply (metric_runner_keeps_settled test_case cached ie i metrics wai wa1 E1).
          rewrite Hm2, (only_measured_llm_test_cases _ _ Homa), <- Hl.
          exact (concurrent_step_settled _ _ _ _ _ _ Estep). }
        destruct (body_a_step i t wb) as (wb1 & Eba & Eeffa).
        rewrite Hwbi in Eba, Eeffa. rewrite Hd in Eeffa.
        pose proof (effects_agree d s t Hst ws1 wb
                      (same_records_only_measured _ _ _ _ Hrec Hom
                         (only_measured_refl wb))) as Hag.
        rewrite Eeff, Eeffa in Hag. destruct Hag as (_ & Hrec1 & _ & Hmb).
        destruct (Hph2 wb1) as (t' & wb' & Eloop & Hst' & Hrec' & Hmb').
        { intros j Hj. rewrite Hmb. apply Hwb. now right. }
        { exact Hrec1. }
        exists t', wb'. rewrite Eba. split; [exact Eloop|].
        split; [exact Hst'|]. split; [exact Hrec'|]. now rewrite Hmb'.
      * rewrite Er. exact IH.
    + subst e'. destruct (body_s i s ws) as [[s1|e1] ws1]; simpl in Hs;
        [discriminate|].
      injection Hs as ->.
      destruct (metric_runner test_case cached ie i tt wa) as [[[]|e2] wa1];
        simpl in Hr; [discriminate|]. exact Hr.
Qed.

End TwoPhase.

(** *** Units of work *)

Lemma outcomes_bind {A B C D} (Qmid : A -> World -> B -> World -> Prop)
    (Q : C -> World -> D -> World -> Prop) ms ma (ks : A -> M C) (ka : B -> M D) ws wa :
  outcomes Qmid (ms ws) (ma wa) ->
  (forall a w1 b w2, Qmid a w1 b w2 -> outcomes Q (ks a w1) (ka b w2)) ->
  outcomes Q (bind ms ks ws) (bind ma ka wa).
Proof.
  unfold outcomes, bind. intros Hm Hk.
  destruct (ms ws) as [[a|e] w1], (ma wa) as [[b|e'] w2]; try contradiction; auto.
  apply Hk, Hm.
Qed.

Lemma outcomes_bind_left {A C D} (Q : C -> World -> D -> World -> Prop)
    (ms : M A) (ks : A -> M C) ws a ws1 (r : outcome D * World) :
  ms ws = (Return a, ws1) -> outcomes Q (ks a ws1) r -> outcomes Q (bind ms ks ws) r.
Proof. intros E1 Hk. unfold bind. now rewrite E1. Qed.

Lemma outcomes_bind_right {B C D} (Q : C -> World -> D -> World -> Prop)
    (ma : M B) (ka : B -> M D) wa b wa1 (r : outcome C * World) :
  ma wa = (Return b, wa1) -> outcomes Q r (ka b wa1) -> outcomes Q r (bind ma ka wa).
Proof. intros E1 Hk. unfold bind. now rewrite E1. Qed.

Lemma outcomes_raise {A B C D} (Q : C -> World -> D -> World -> Prop)
    (ms : M A) (ma : M B) (ks : A -> M C) (ka : B -> M D) ws wa e ws1 :
  ms ws = (Raise e, ws1) -> fst (ma wa) = Raise e ->
  outcomes Q (bind ms ks ws) (bind ma ka wa).
Proof.
  intros E1 E2. unfold outcomes, bind. rewrite E1.
  destruct (ma wa) as [[b|e'] w2]; simpl in E2; [discriminate|]. now injection E2.
Qed.

Lemma agree_outcomes {A B} (RA : A -> B -> Prop) ms ma ws wa :
  agree RA ms ma -> same_records ws wa ->
  outcomes
    (fun a ws' b wa' =>
       RA a b /\ same_records ws' wa' /\
       metric_objects ws' = metric_objects ws /\
       metric_objects wa' = metric_objects wa)
    (ms ws) (ma wa).
Proof. intros Hag Hrec. exact (Hag ws wa Hrec). Qed.

Lemma same_kinds_of_configurations w w' :
  (forall i, configuration (metric_objects w' i) = configuration (metric_objects w i)) ->
  same_kinds w w'.
Proof. intros Hc i. apply kind_of_configuration, Hc. Qed.

Lemma keeps_metrics_llm_update_metric_data_call api d :
  keeps (fun w => (metric_objects w, llm_test_cases w))
    (llm_update_metric_data_call api d).
Proof. unfold llm_update_metric_data_call. keeps_tac. Qed.

(** The metric loop of a single-turn unit against the Metric Runner followed
    by the loop that builds the results. *)
Lemma llm_metric_loops_agree ie test_case cached api llm_metrics ws wa :
  same_configurations ws wa ->
  llm_test_cases ws = llm_test_cases wa ->
  (forall i, In i llm_metrics ->
     cache_ready cached (metric_objects ws i) (metric_objects wa i)) ->
  match for_each (llm_metric_body ie test_case cached api) llm_metrics (true, []) ws with
  | (Raise e, _) =>
      fst (spec_measure_metrics_with_indicator llm_metrics (LLM test_case) cached ie wa)
      = Raise e
  | (Return s', ws') =>
      exists wa1,
        spec_measure_metrics_with_indicator llm_metrics (LLM test_case) cached ie wa =
          (Return tt, wa1) /\
        same_configurations ws' wa1 /\
        same_kinds ws ws' /\
        only_measured wa wa1 /\
        forall wb,
          (forall i, In i llm_metrics -> metric_objects wb i = metric_objects wa1 i) ->
          same_records ws wb ->
          exists wb',
            for_each (a_llm_metric_body api) llm_metrics [] wb = (Return (snd s'), wb') /\
            same_records ws' wb' /\
            metric_objects wb' = metric_objects wb
  end.
Proof.
  intros Hc Hl Hpre.
  pose proof (two_phase (bool * list CachedMetricData.t) (list CachedMetricData.t)
    (fun s t => snd s = t) (LLM test_case) cached ie
    (llm_metric_body ie test_case cached api) (a_llm_metric_body api)
    (fun d _ => llm_update_metric_data_call api d)
    (fun d _ => llm_update_metric_data_call api d)
    (fun m1 d s s' => snd s' = snd s ++ queued_for_cache m1 d)
    (fun m t => t ++ queued_for_cache m (create_metric_data m))
    (fun _ => True)) as Htp.
  unfold spec_measure_metrics_with_indicator.
  assert (H1 : forall i s w,
    True ->
    match sequential_step ie (LLM test_case) (llm_test_cases w) cached
            (metric_objects w i) with
    | Raise e => fst (llm_metric_body ie test_case cached api i s w) = Raise e
    | Return (m1, d) =>
        exists s' ws1 ws',
          llm_metric_body ie test_case cached api i s w = (Return s', ws') /\
          snd s' = snd s ++ queued_for_cache m1 d /\
          only_measured w ws1 /\
          metric_objects ws1 i = m1 /\
          (forall j, j <> i -> metric_objects ws1 j = metric_objects w j) /\
          llm_update_metric_data_call api d ws1 = (Return tt, ws')
    end).
  { intros i s w _. pose proof (llm_metric_body_step ie test_case cached api i s w) as Hb.
    destruct (sequential_step _ _ _ _ _) as [[m1 d]|e]; [|exact Hb].
    destruct Hb as (ra & ws1 & ws2 & Eb & Ho & Hm & Hf & Ee).
    exists (ra, snd s ++ queued_for_cache m1 d), ws1, ws2. auto 10. }
  assert (H2 : forall i t wb,
    exists wb',
      a_llm_metric_body api i t wb =
        (Return (t ++ queued_for_cache (metric_objects wb i)
                        (create_metric_data (metric_objects wb i))), wb') /\
      llm_update_metric_data_call api (create_metric_data (metric_objects wb i)) wb =
        (Return tt, wb')).
  { intros. apply a_llm_metric_body_step. }
  assert (H3 : forall d (s : bool * list CachedMetricData.t)
                 (t : list CachedMetricData.t),
    snd s = t ->
    agree eq (llm_update_metric_data_call api d) (llm_update_metric_data_call api d)).
  { intros. apply agree_llm_update_metric_data_call. }
  assert (H4 : forall d (s : bool * list CachedMetricData.t),
    keeps (fun w => (metric_objects w, llm_test_cases w))
      (llm_update_metric_data_call api d)).
  { intros. apply keeps_metrics_llm_update_metric_data_call. }
  assert (H5 : forall (s : bool * list CachedMetricData.t)
                 (t : list CachedMetricData.t)
                 (s' : bool * list CachedMetricData.t) m1 m2 d,
    snd s = t -> snd s' = snd s ++ queued_for_cache m1 d ->
    create_metric_data m2 = d -> Metric.error m2 = Metric.error m1 ->
    Cache_create_metric_configuration m1 = Cache_create_metric_configuration m2 ->
    snd s' = t ++ queued_for_cache m2 (create_metric_data m2)).
  { intros s t s' m1 m2 d <- -> <- He Hs. unfold queued_for_cache.
    now rewrite He, Hs. }
  specialize (Htp H1 H2 H3 H4 H5 llm_metrics ws wa (true, []) [] eq_refl Hc Hl).
  destruct (for_each (llm_metric_body ie test_case cached api) llm_metrics (true, []) ws)
    as [[s'|e] ws']; [|apply Htp; auto].
  destruct Htp as (wa1 & E1 & Hc' & Hk' & Hom & Hph2); [auto|].
  exists wa1. split; [exact E1|]. split; [exact Hc'|]. split; [exact Hk'|].
  split; [exact Hom|].
  intros wb Hwb Hrec. destruct (Hph2 wb Hwb Hrec) as (t' & wb' & El & <- & Hrec' & Hm').
  exists wb'. auto.
Qed.

(** The metric loop of a conversation against the Metric Runner followed by
    the loop that builds the results. *)
Lemma conversational_metric_loops_agree ie c cms a ws wa :
  same_configurations ws wa ->
  llm_test_cases ws = llm_test_cases wa ->
  (forall i, In i cms ->
     is_BaseConversationalMetric (Metric.kind (metric_objects ws i)) = true) ->
  match for_each (conversational_metric_body ie c) cms a ws with
  | (Raise e, _) =>
      fst (spec_measure_metrics_with_indicator cms (Conversational c) None ie wa) = Raise e
  | (Return a', ws') =>
      exists wa1,
        spec_measure_metrics_with_indicator cms (Conversational c) None ie wa =
          (Return tt, wa1) /\
        same_configurations ws' wa1 /\
        same_kinds ws ws' /\
        only_measured wa wa1 /\
        forall wb,
          (forall i, In i cms -> metric_objects wb i = metric_objects wa1 i) ->
          same_records ws wb ->
          exists wb',
            for_each a_conversational_metric_body cms a wb = (Return a', wb') /\
            same_records ws' wb' /\
            metric_objects wb' = metric_objects wb
  end.
Proof.
  intros Hc Hl Hpre.
  pose proof (two_phase ConversationalApiTestCase.t ConversationalApiTestCase.t eq
    (Conversational c) None ie
    (conversational_metric_body ie c) a_conversational_metric_body
    (fun d s => emit (EvUpdateMetricData (ApiConversational s) d))
    (fun d s => emit (EvUpdateMetricData (ApiConversational s) d))
    (fun m1 d s s' => s' = conv_update_metric_data s d)
    (fun m t => conv_update_metric_data t (create_metric_data m))
    (fun k => is_BaseConversationalMetric k = true)) as Htp.
  unfold spec_measure_metrics_with_indicator.
  assert (H1 : forall i s w,
    is_BaseConversationalMetric (Metric.kind (metric_objects w i)) = true ->
    match sequential_step ie (Conversational c) (llm_test_cases w) None
            (metric_objects w i) with
    | Raise e => fst (conversational_metric_body ie c i s w) = Raise e
    | Return (m1, d) =>
        exists s' ws1 ws',
          conversational_metric_body ie c i s w = (Return s', ws') /\
          s' = conv_update_metric_data s d /\
          only_measured w ws1 /\
          metric_objects ws1 i = m1 /\
          (forall j, j <> i -> metric_objects ws1 j = metric_objects w j) /\
          emit (EvUpdateMetricData (ApiConversational s) d) ws1 = (Return tt, ws')
    end).
  { intros i s w Hk. pose proof (conversational_metric_body_step ie c i s w Hk) as Hb.
    destruct (sequential_step _ _ _ _ _) as [[m1 d]|e]; [|exact Hb].
    destruct Hb as (ws1 & ws2 & Eb & Ho & Hm & Hf & Ee).
    exists (conv_update_metric_data s d), ws1, ws2. auto 10. }
  assert (H2 : forall i t wb,
    exists wb',
      a_conversational_metric_body i t wb =
        (Return (conv_update_metric_data t (create_metric_data (metric_objects wb i))),
         wb') /\
      emit (EvUpdateMetricData (ApiConversational t)
              (create_metric_data (metric_objects wb i))) wb = (Return tt, wb')).
  { intros. apply a_conversational_metric_body_step. }
  assert (H3 : forall d (s t : ConversationalApiTestCase.t),
    s = t ->
    agree eq (emit (EvUpdateMetricData (ApiConversational s) d))
      (emit (EvUpdateMetricData (ApiConversational t) d))).
  { intros d s t <-. now apply agree_emit. }
  assert (H4 : forall d (s : ConversationalApiTestCase.t),
    keeps (fun w => (metric_objects w, llm_test_cases w))
      (emit (EvUpdateMetricData (ApiConversational s) d))).
  { intros. keeps_tac. }
  assert (H5 : forall (s t s' : ConversationalApiTestCase.t) m1 m2 d,
    s = t -> s' = conv_update_metric_data s d ->
    create_metric_data m2 = d -> Metric.error m2 = Metric.error m1 ->
    Cache_create_metric_configuration m1 = Cache_create_metric_configuration m2 ->
    s' = conv_update_metric_data t (create_metric_data m2)).
  { intros s t s' m1 m2 d <- -> <- _ _. reflexivity. }
  assert (Hpre' : forall i, In i cms ->
    is_BaseConversationalMetric (Metric.kind (metric_objects ws i)) = true /\
    cache_ready None (metric_objects ws i) (metric_objects wa i)).
  { intros i Hi. split; [now apply Hpre|now left]. }
  specialize (Htp H1 H2 H3 H4 H5 cms ws wa a a eq_refl Hc Hl Hpre').
  destruct (for_each (conversational_metric_body ie c) cms a ws)
    as [[a'|e] ws']; [|exact Htp].
  destruct Htp as (wa1 & E1 & Hc' & Hk' & Hom & Hph2).
  exists wa1. split; [exact E1|]. split; [exact Hc'|]. split; [exact Hk'|].
  split; [exact Hom|].
  intros wb Hwb Hrec. destruct (Hph2 wb Hwb Hrec) as (t' & wb' & El & <- & Hrec' & Hm').
  exists wb'. auto.
Qed.

Lemma outcomes_impl {C D} (Q Q' : C -> World -> D -> World -> Prop) r1 r2 :
  outcomes Q r1 r2 -> (forall c w1 d w2, Q c w1 d w2 -> Q' c w1 d w2) ->
  outcomes Q' r1 r2.
Proof.
  unfold outcomes. destruct r1 as [[c|e] w1], r2 as [[d|e'] w2]; auto.
Qed.

Ltac agree_step lem :=
  eapply outcomes_bind;
  [apply agree_outcomes; [lem|eassumption]
  |intros ? ? ? ? (? & ? & ? & ?)].

(** A single-turn unit of work. *)
Lemma llm_units_agree metrics llm_metrics cms ie uc test_case loc ws wa :
  same_records ws wa -> same_configurations ws wa ->
  (forall i, In i llm_metrics -> In i metrics) ->
  outcomes (units_agree ws)
    (execute_test_case metrics llm_metrics cms ie uc (LLM test_case) loc ws)
    (a_execute_test_case spec_measure_metrics_with_indicator metrics llm_metrics cms
       ie uc (LLM test_case) loc wa).
Proof.
  intros Hrec Hc Hsub.
  unfold execute_test_case, a_execute_test_case, execute_llm_test_case,
    a_execute_llm_test_case.
  destruct (reset_errors_effect metrics ws) as (ws1 & Es & Homs & Herrs & Hcfgs).
  eapply outcomes_bind_left; [exact Es|].
  assert (Hk1 : same_kinds ws ws1) by now apply same_kinds_of_configurations.
  destruct llm_metrics as [|i0 rest].
  - unfold ret, outcomes, units_agree.
    split; [reflexivity|]. split.
    { eapply same_records_only_measured; [exact Hrec|exact Homs|apply only_measured_refl]. }
    split; [|exact Hk1]. intros i. rewrite Hcfgs. apply Hc.
  - set (lm := i0 :: rest) in *.
    destruct (reset_errors_effect metrics wa) as (wa1 & Ea & Homa & Herra & Hcfga).
    eapply outcomes_bind_right; [exact Ea|].
    assert (Hrec1 : same_records ws1 wa1)
      by (eapply same_records_only_measured; eassumption).
    assert (Hc1 : same_configurations ws1 wa1).
    { intros i. rewrite Hcfgs, Hcfga. apply Hc. }
    agree_step ltac:(apply agree_lookup_cache). subst.
    agree_step ltac:(apply agree_create_llm_api_test_case). subst.
    agree_step ltac:(apply agree_perf_counter). subst.
    match goal with
    | |- outcomes _ (bind (for_each _ _ _) _ ?w) (bind _ _ ?w') =>
        rename w into ws4; rename w' into wa4
    end.
    assert (Hms4 : metric_objects ws4 = metric_objects ws1) by congruence.
    assert (Hma4 : metric_objects wa4 = metric_objects wa1) by congruence.
    assert (Hrec4 : same_records ws4 wa4) by assumption.
    match goal with
    | |- outcomes _ (bind (for_each (llm_metric_body _ _ ?cached ?api) _ _) _ _) _ =>
        pose proof (llm_metric_loops_agree ie test_case cached api lm ws4 wa4) as Hloops;
        set (kept := cached) in *; set (api_test_case := api) in *
    end.
    assert (Hc4 : same_configurations ws4 wa4).
    { intros i. rewrite Hms4, Hma4. apply Hc1. }
    specialize (Hloops Hc4 (same_llm_test_cases _ _ Hrec4)).
    assert (Hpre4 : forall i, In i lm ->
              cache_ready kept (metric_objects ws4 i) (metric_objects wa4 i)).
    { intros i Hi. right. rewrite Hms4, Hma4.
      split; [apply Herrs|apply Herra]; now apply Hsub. }
    specialize (Hloops Hpre4).
    destruct (for_each (llm_metric_body ie test_case kept api_test_case) lm (true, []) ws4)
      as [[[read_all new_cached]|e] ws5] eqn:Eloop.
    + destruct Hloops as (wa5 & E1 & Hc5 & Hk5 & Hom5 & Hph2).
      destruct (Hph2 wa5) as (wa6 & El & Hrec6 & Hm6).
      { reflexivity. }
      { eapply same_records_only_measured;
          [exact Hrec4|apply only_measured_refl|exact Hom5]. }
      eapply outcomes_bind_left; [exact Eloop|].
      eapply outcomes_bind_right; [exact E1|].
      eapply outcomes_bind_right; [exact El|].
      cbn [snd].
      agree_step ltac:(apply agree_perf_counter). subst.
      agree_step ltac:(apply agree_llm_update_run_duration_call).
      eapply outcomes_impl;
        [apply agree_outcomes; [apply agree_finish_llm_test_case|eassumption]|].
      intros l wsf l' waf (-> & Hrecf & Hmf & Hmf').
      unfold units_agree. split; [reflexivity|]. split; [exact Hrecf|].
      split.
      * intros i. replace (metric_objects wsf) with (metric_objects ws5) by congruence.
        replace (metric_objects waf) with (metric_objects wa5) by congruence.
        apply Hc5.
      * intros i. replace (metric_objects wsf) with (metric_objects ws5) by congruence.
        rewrite (Hk5 i), Hms4. apply Hk1.
    + eapply outcomes_raise; [exact Eloop|exact Hloops].
Qed.


(** A conversation. *)
Lemma conversational_units_agree metrics llm_metrics cms ie uc c loc ws wa :
  same_records ws wa -> same_configurations ws wa ->
  (forall i, In i cms ->
     is_BaseConversationalMetric (Metric.kind (metric_objects ws i)) = true) ->
  outcomes (units_agree ws)
    (execute_test_case metrics llm_metrics cms ie uc (Conversational c) loc ws)
    (a_execute_test_case spec_measure_metrics_with_indicator metrics llm_metrics cms
       ie uc (Conversational c) loc wa).
Proof.
  intros Hrec Hc Hkinds.
  unfold execute_test_case, a_execute_test_case, execute_conversational_test_case,
    a_execute_conversational_test_case.
  destruct (reset_errors_effect metrics ws) as (ws1 & Es & Homs & Herrs & Hcfgs).
  eapply outcomes_bind_left; [exact Es|].
  assert (Hk1 : same_kinds ws ws1) by now apply same_kinds_of_configurations.
  assert (Hrec1 : same_records ws1 wa).
  { eapply same_records_only_measured; [exact Hrec|exact Homs|apply only_measured_refl]. }
  assert (Hc1 : same_configurations ws1 wa).
  { intros i. rewrite Hcfgs. apply Hc. }
  agree_step ltac:(apply agree_create_conversational_api_test_case). subst.
  agree_step ltac:(apply agree_perf_counter). subst.
  match goal with
  | |- outcomes _ (bind (for_each _ _ _) _ ?w) (bind _ _ ?w') =>
      rename w into ws4; rename w' into wa4
  end.
  assert (Hms4 : metric_objects ws4 = metric_objects ws1) by congruence.
  assert (Hma4 : metric_objects wa4 = metric_objects wa) by congruence.
  assert (Hrec4 : same_records ws4 wa4) by assumption.
  match goal with
  | |- outcomes _ (bind (for_each (conversational_metric_body _ _) _ ?api) _ _) _ =>
      pose proof (conversational_metric_loops_agree ie c cms api ws4 wa4) as Hloops;
      set (api_test_case := api) in *
  end.
  assert (Hc4 : same_configurations ws4 wa4).
  { intros i. rewrite Hms4, Hma4. apply Hc1. }
  assert (Hpre4 : forall i, In i cms ->
            is_BaseConversationalMetric (Metric.kind (metric_objects ws4 i)) = true).
  { intros i Hi. rewrite Hms4, (Hk1 i). now apply Hkinds. }
  specialize (Hloops Hc4 (same_llm_test_cases _ _ Hrec4) Hpre4).
  destruct (for_each (conversational_metric_body ie c) cms api_test_case ws4)
    as [[api'|e] ws5] eqn:Eloop.
  - destruct Hloops as (wa5 & E1 & Hc5 & Hk5 & Hom5 & Hph2).
    destruct (Hph2 wa5) as (wa6 & El & Hrec6 & Hm6).
    { reflexivity. }
    { eapply same_records_only_measured;
        [exact Hrec4|apply only_measured_refl|exact Hom5]. }
    eapply outcomes_bind_left; [exact Eloop|].
    eapply outcomes_bind_right; [exact E1|].
    eapply outcomes_bind_right; [exact El|].
    agree_step ltac:(apply agree_perf_counter). subst.
    eapply outcomes_impl;
      [apply agree_outcomes; [apply agree_finish_conversational_test_case|eassumption]|].
    intros l wsf l' waf (-> & Hrecf & Hmf & Hmf').
    unfold units_agree. split; [reflexivity|]. split; [exact Hrecf|].
    split.
    + intros i. replace (metric_objects wsf) with (metric_objects ws5) by congruence.
      replace (metric_objects waf) with (metric_objects wa5) by congruence.
      apply Hc5.
    + intros i. replace (metric_objects wsf) with (metric_objects ws5) by congruence.
      rewrite (Hk5 i), Hms4. apply Hk1.
  - eapply outcomes_raise; [exact Eloop|exact Hloops].
Qed.

(** The main loop. *)
Lemma main_loops_agree metrics llm_metrics cms ie uc : forall test_cases loc ws wa,
  same_records ws wa -> same_configurations ws wa ->
  (forall i, In i llm_metrics -> In i metrics) ->
  (forall i, In i cms ->
     is_BaseConversationalMetric (Metric.kind (metric_objects ws i)) = true) ->
  outcomes (units_agree ws)
    (for_each (execute_test_case metrics llm_metrics cms ie uc) test_cases loc ws)
    (for_each
       (a_execute_test_case spec_measure_metrics_with_indicator metrics llm_metrics cms
          ie uc) test_cases loc wa).
Proof.
  induction test_cases as [|test_case test_cases IH]; intros loc ws wa Hrec Hc Hsub Hkinds.
  - simpl. unfold ret, units_agree.
    split; [reflexivity|]. split; [exact Hrec|]. split; [exact Hc|].
    intros i; reflexivity.
  - cbn [for_each].
    eapply outcomes_bind with (Qmid := units_agree ws).
    + destruct test_case as [id|c].
      * now apply llm_units_agree.
      * now apply conversational_units_agree.
    + intros l ws1 l' wa1 (-> & Hrec1 & Hc1 & Hk1).
      eapply outcomes_impl.
      * apply IH; auto. intros i Hi. rewrite (Hk1 i). now apply Hkinds.
      * intros l2 ws2 l2' wa2 (-> & Hrec2 & Hc2 & Hk2).
        unfold units_agree.
        split; [reflexivity|]. split; [exact Hrec2|]. split; [exact Hc2|].
        intros i. now rewrite (Hk2 i), (Hk1 i).
Qed.

Lemma same_records_refl w : same_records w w.
Proof. now constructor. Qed.

(** ** The two strategies on the same batch *)


End Agreement.

(** ** The concrete setting follows the specification *)

Lemma same_float_eq x y : Sample.same_float x y = true -> x = y.
Proof.
  destruct x as [n d], y as [n' d']. unfold Sample.same_float. simpl. intros H.
  apply andb_true_iff in H as [Hn Hd].
  apply Z.eqb_eq in Hn. apply Pos.eqb_eq in Hd. now subst.
Qed.

Lemma sample_faithful : Faithful Sample.env.
Proof.
  constructor.
  - intros m test_case llm. now destruct m.
  - intros m test_case llm. simpl. unfold Sample.sample_measure.
    destruct test_case as [id|c].
    + destruct (String.eqb _ _); [now destruct m|].
      destruct (bool_decide _); now destruct m.
    + destruct (ConversationalTestCase.messages c); now destruct m.
  - reflexivity.
  - intros m c. now destruct m.
  - intros b m c. now destruct m.
  - intros m. now destruct m.
  - intros m c cmd Hfind. simpl in Hfind. unfold Sample.sample_get_metric_data in Hfind.
    apply find_some in Hfind as [_ Hu]. unfold Sample.sample_usable in Hu.
    repeat (apply andb_true_iff in Hu as [Hu ?]).
    cbv zeta.
    split; [now apply String.eqb_eq|].
    split; [now apply same_float_eq|].
    split; [now apply Bool.eqb_prop|].
    split; [eapply bool_decide_eq_true_1; eassumption|].
    split; [eapply bool_decide_eq_true_1; eassumption|].
    destruct (MetricData.success (CachedMetricData.metric_data cmd)) as [b|msg];
      [now exists b|discriminate].
  - reflexivity.
  - reflexivity.
  - reflexivity.
  - reflexivity.
Qed.


(** * Further properties of the code *)

(** ** The list of test cases *)

Lemma flat_map_messages_to_append_twice test_cases :
  flat_map messages_to_append (flat_map messages_to_append test_cases) = [].
Proof.
  induction test_cases as [|test_case test_cases IH]; [reflexivity|].
  simpl. rewrite flat_map_app, IH, app_nil_r.
  apply messages_to_append_are_single_turn.
Qed.

Lemma flatten_test_cases_twice test_cases :
  flatten_test_cases (flatten_test_cases test_cases) =
  test_cases ++ flat_map messages_to_append test_cases ++
  flat_map messages_to_append test_cases.
Proof.
  rewrite !flatten_test_cases_closed_form, flat_map_app,
    flat_map_messages_to_append_twice, app_nil_r.
  now rewrite <- app_assoc.
Qed.

Lemma flat_map_messages_to_append_single_turn test_cases :
  forallb is_single_turn test_cases = true ->
  flat_map messages_to_append test_cases = [].
Proof.
  induction test_cases as [|[id|c] test_cases IH]; simpl; auto; discriminate.
Qed.


(** ** What a batch call overwrites before it starts *)

Lemma set_verbose_modes_lookup_map verbose_mode metrics lookup : forall w,
  set_verbose_modes verbose_mode metrics (with_lookup_map lookup w) =
  (fst (set_verbose_modes verbose_mode metrics w),
   with_lookup_map lookup (snd (set_verbose_modes verbose_mode metrics w))).
Proof.
  unfold set_verbose_modes. destruct verbose_mode as [v|]; [|reflexivity].
  induction metrics as [|metric metrics IH]; intros w; [reflexivity|].
  cbn [for_each]. unfold bind at 1 3 5. unfold bind at 1 2 3.
  unfold get_metric, set_metric, modify. cbn [fst snd].
  exact (IH (with_metric_objects _ w)).
Qed.

Lemma prepare_left_over save_to_disk verbose_mode metrics lookup dis std w :
  prepare save_to_disk verbose_mode metrics (left_over lookup dis std w) =
  prepare save_to_disk verbose_mode metrics w.
Proof.
  unfold prepare, left_over, bind, modify.
  replace (with_switches (negb save_to_disk) save_to_disk
             (with_lookup_map lookup (with_switches dis std w)))
    with (with_lookup_map lookup (with_switches (negb save_to_disk) save_to_disk w))
    by now destruct w.
  rewrite set_verbose_modes_lookup_map.
  assert (Hr : returns (set_verbose_modes verbose_mode metrics))
    by (unfold set_verbose_modes; returns_tac).
  destruct (Hr (with_switches (negb save_to_disk) save_to_disk w)) as ([] & w1 & E).
  rewrite E. cbn [fst snd]. now destruct w1.
Qed.

Lemma run_batch_left_over body test_cases metrics save_to_disk verbose_mode
    lookup dis std w :
  run_batch body test_cases metrics save_to_disk verbose_mode (left_over lookup dis std w) =
  run_batch body test_cases metrics save_to_disk verbose_mode w.
Proof.
  unfold run_batch. unfold bind at 1 3 4 6. now rewrite prepare_left_over.
Qed.

(** X2. A batch call starts afresh: what an earlier call left in
    [llm_test_case_lookup_map], in the cache manager's [disable_write_cache]
    and in the test run manager's [save_to_disk] has no influence on it.
    From two states that differ only there, both strategies return or raise
    the same and end in the same state. *)
Theorem batch_starts_afresh `{Env} (measure_metrics_with_indicator : Indicator)
    (test_cases : list TestCase) (metrics : list nat)
    (ignore_errors use_cache save_to_disk : bool) (verbose_mode : option bool)
    (lookup : gmap nat nat) (dis std : bool) (w : World) :
  execute_test_cases test_cases metrics ignore_errors use_cache save_to_disk
    verbose_mode (left_over lookup dis std w) =
  execute_test_cases test_cases metrics ignore_errors use_cache save_to_disk
    verbose_mode w /\
  a_execute_test_cases measure_metrics_with_indicator test_cases metrics
    ignore_errors use_cache save_to_disk verbose_mode (left_over lookup dis std w) =
  a_execute_test_cases measure_metrics_with_indicator test_cases metrics
    ignore_errors use_cache save_to_disk verbose_mode w.
Proof.
  unfold execute_test_cases, a_execute_test_cases.
  split; apply run_batch_left_over.
Qed.

Section Switches.
Context `{Env}.

Lemma keeps_switches_call_measure metric test_case :
  keeps switches (call_measure metric test_case).
Proof. intros w. unfold call_measure. now destruct (measure _ _ _). Qed.

Lemma keeps_switches_measure_guarded ie metric test_case :
  keeps switches (measure_guarded ie metric test_case).
Proof.
  unfold measure_guarded. apply keeps_bind; [apply keeps_switches_call_measure|].
  intros [e|]; [destruct ie|]; keeps_tac.
Qed.

#[local] Hint Resolve keeps_switches_call_measure keeps_switches_measure_guarded : keeps.

Lemma keeps_switches_execute_test_case metrics llm_metrics cms ie uc test_case loc :
  keeps switches (execute_test_case metrics llm_metrics cms ie uc test_case loc).
Proof.
  unfold execute_test_case, execute_llm_test_case, execute_conversational_test_case,
    reset_errors, create_conversational_api_test_case, create_llm_api_test_case,
    llm_metric_body, conversational_metric_body, llm_update_metric_data_call,
    llm_update_run_duration_call, append_if_no_error, finish_llm_test_case,
    finish_conversational_test_case, create_test_result.
  keeps_tac.
Qed.

Lemma switches_prepare save_to_disk verbose_mode metrics w :
  switches (snd (prepare save_to_disk verbose_mode metrics w)) =
  (negb save_to_disk, save_to_disk).
Proof.
  unfold prepare.
  assert (Hk : keeps switches
                 (set_verbose_modes verbose_mode metrics ;;
                  modify (with_lookup_map ∅)))
    by (unfold set_verbose_modes; keeps_tac).
  unfold bind at 1. unfold modify at 1.
  exact (Hk (with_switches (negb save_to_disk) save_to_disk w)).
Qed.

End Switches.

(** X3. [execute_test_cases] leaves the two managers switched as its
    [save_to_disk] argument says, whether it returns or raises: the cache
    manager's [disable_write_cache] is its negation, the test run manager's
    [save_to_disk] is the argument.  Nothing in the call switches them back,
    so the setting outlives the call. *)
Theorem switches_outlive_the_call `{Env} (test_cases : list TestCase)
    (metrics : list nat) (ignore_errors use_cache save_to_disk : bool)
    (verbose_mode : option bool) (w : World) :
  let call :=
    execute_test_cases test_cases metrics ignore_errors use_cache save_to_disk
      verbose_mode w in
  switches (world_after call) = (negb save_to_disk, save_to_disk).
Proof.
  cbv zeta. unfold execute_test_cases.
  match goal with
  | |- context [run_batch ?f test_cases metrics save_to_disk verbose_mode w] =>
      destruct (run_batch_unfold f test_cases metrics save_to_disk verbose_mode w)
        as (w0 & Hw0 & _ & _ & Hwa & _)
  end.
  cbv zeta in Hwa. rewrite Hwa.
  pose proof (switches_prepare save_to_disk verbose_mode metrics w) as Hs.
  rewrite <- Hw0 in Hs.
  match goal with
  | |- context [snd (for_each ?body ?l ?acc w0)] =>
      assert (Hk : keeps switches (for_each body l acc))
        by (apply keeps_for_each; intros; apply keeps_switches_execute_test_case)
  end.
  specialize (Hk w0). now rewrite Hs in Hk.
Qed.

(** ** Records of test cases *)

(** X4. [create_api_test_case] remembers the record it builds for a message:
    after a call for a single-turn test case with a conversation's
    [conversational_instance_id], the lookup map holds the returned record
    under the test case, and every later call for that test case, with any
    index, instance identity, metadata or comments, returns that same record
    and changes nothing (in particular it does not stamp the test case
    again). *)
Theorem message_record_is_reused `{Env} (test_case : nat) (index : option Z)
    (k : nat) (additional_metadata : option Dict) (comments : option string)
    (w : World) :
  let first :=
    create_llm_api_test_case test_case index (Some (S k)) additional_metadata
      comments w in
  exists ref,
    fst first = Return ref /\
    llm_test_case_lookup_map (snd first) !! test_case = Some ref /\
    forall index' cid' additional_metadata' comments',
      create_llm_api_test_case test_case index' cid' additional_metadata' comments'
        (snd first) = (Return ref, snd first).
Proof.
  cbv zeta.
  destruct (llm_test_case_lookup_map w !! test_case) as [ref|] eqn:Elook.
  - rewrite (create_llm_api_test_case_hit _ _ _ _ _ _ _ Elook). exists ref.
    split; [reflexivity|]. split; [exact Elook|].
    intros. now apply create_llm_api_test_case_hit.
  - pose proof (create_llm_api_test_case_message test_case index k
                  additional_metadata comments w Elook) as E.
    cbv zeta in E. rewrite E. exists (S (next_id w)). cbn [fst snd].
    assert (Hlook : llm_test_case_lookup_map
                      (with_lookup_map
                         (<[test_case := S (next_id w)]> (llm_test_case_lookup_map w))
                         (with_api_test_cases
                            (update (api_test_cases w) (S (next_id w))
                               (message_record
                                  (LLMTestCase.stamp additional_metadata comments
                                     (llm_test_cases w test_case)) index (S k)))
                            (with_next_id (S (next_id w))
                               (with_llm_test_cases
                                  (update (llm_test_cases w) test_case
                                     (LLMTestCase.stamp additional_metadata comments
                                        (llm_test_cases w test_case))) w))))
                    !! test_case = Some (S (next_id w))).
    { cbn. apply lookup_insert_eq. }
    split; [reflexivity|]. split; [exact Hlook|].
    intros. now apply create_llm_api_test_case_hit.
Qed.

(** X5. A record built for a stand-alone test case (no
    [conversational_instance_id], or a falsy one) is not remembered: the
    lookup map and the test case object stay as they are, the metadata and
    comments arguments are ignored, and a second call builds a second
    record. *)
Theorem stand_alone_record_is_not_kept `{Env} (test_case : nat)
    (index index' : option Z) (cid cid' : option nat)
    (additional_metadata additional_metadata' : option Dict)
    (comments comments' : option string) (w : World) :
  truthy_id cid = false -> truthy_id cid' = false ->
  llm_test_case_lookup_map w !! test_case = None ->
  let first :=
    create_llm_api_test_case test_case index cid additional_metadata comments w in
  let second :=
    create_llm_api_test_case test_case index' cid' additional_metadata' comments'
      (snd first) in
  let tc := llm_test_cases w test_case in
  fst first = Return (S (next_id w)) /\
  fst second = Return (S (S (next_id w))) /\
  llm_test_case_lookup_map (snd second) = llm_test_case_lookup_map w /\
  llm_test_cases (snd second) = llm_test_cases w /\
  trace (snd second) = trace w /\
  api_test_cases (snd second) (S (next_id w)) =
    LLMApiTestCase.mk
      (default ("test_case_" +:+ str_index index) getenv_PYTEST_RUN_TEST_NAME)
      (LLMTestCase.input tc) (LLMTestCase.actual_output tc)
      (LLMTestCase.expected_output tc) (LLMTestCase.context tc)
      (LLMTestCase.retrieval_context tc) (LLMTestCase.tools_used tc)
      (LLMTestCase.expected_tools tc) (Some true) None None None
      (LLMTestCase._dataset_rank tc) (LLMTestCase.additional_metadata tc)
      (LLMTestCase.comments tc) get_trace_stack cid.
Proof.
  intros Hcid Hcid' Hlook. cbv zeta.
  unfold create_llm_api_test_case, bind, get, get_llm, set_llm, fresh_id, set_api,
    modify, ret.
  rewrite Hlook, Hcid. cbn [fst snd llm_test_case_lookup_map with_api_test_cases
    with_next_id]. rewrite Hlook, Hcid'. cbn.
  repeat split.
  unfold update. rewrite Nat.eqb_refl.
  destruct (Nat.eqb_spec (S (next_id w)) (S (S (next_id w)))); [lia|reflexivity].
Qed.

Lemma stand_alone_record_is_not_kept_witness :
  fst (create_llm_api_test_case (H := Sample.env) 1 (Some 1) None None None
         (snd (create_llm_api_test_case (H := Sample.env) 1 (Some 0) None None None
                 Sample.world))) = Return 2%nat.
Proof.
  refine (proj1 (proj2
    (stand_alone_record_is_not_kept (H := Sample.env) 1%nat (Some 0) (Some 1)
       None None None None None None Sample.world _ _ _))); reflexivity.
Defined.

Section ConversationRecords.
Context `{Env}.
Variables (k0 : nat) (additional_metadata : option Dict) (comments : option string).

Lemma create_message_records : forall messages k acc v,
  exists refs v',
    for_each
      (fun index_message acc =>
         let* r := create_llm_api_test_case
                     (Message.llm_test_case (snd index_message))
                     (Some (fst index_message)) (Some (S k0))
                     additional_metadata comments in
         ret (acc ++ [r]))
      (enumerate_from k messages) acc v = (Return (acc ++ refs), v') /\
    trace v' = trace v /\
    length refs = length messages /\
    (next_id v <= next_id v')%nat /\
    (forall r, (r <= next_id v)%nat -> api_test_cases v' r = api_test_cases v r) /\
    (forall test_case old,
       llm_test_case_lookup_map v !! test_case = Some old ->
       llm_test_case_lookup_map v' !! test_case = Some old /\
       llm_test_cases v' test_case = llm_test_cases v test_case) /\
    (forall p message,
       messages !! p = Some message ->
       let test_case := Message.llm_test_case message in
       exists ref,
         refs !! p = Some ref /\
         llm_test_case_lookup_map v' !! test_case = Some ref /\
         match llm_test_case_lookup_map v !! test_case with
         | Some old => ref = old
         | None =>
             (next_id v < ref)%nat /\
             llm_test_cases v' test_case = stamped additional_metadata comments v test_case /\
             api_test_cases v' ref =
               message_record (stamped additional_metadata comments v test_case)
                 (Some (k + Z.of_nat (first_index test_case messages))) (S k0)
         end).
Proof.
  induction messages as [|message messages IH]; intros k acc v.
  - exists [], v. rewrite app_nil_r. simpl.
    repeat split; auto. intros p message Hp. now rewrite lookup_nil in Hp.
  - cbn [enumerate_from for_each]. unfold bind at 1. unfold bind at 1.
    cbn [fst snd]. set (tc0 := Message.llm_test_case message).
    destruct (llm_test_case_lookup_map v !! tc0) as [old|] eqn:Elook.
    + rewrite (create_llm_api_test_case_hit _ _ _ _ _ _ _ Elook). unfold ret at 1.
      destruct (IH (k + 1) (acc ++ [old]) v)
        as (refs & v' & E & Ht & Hlen & Hn & Ha & Hold & Hmsg).
      exists (old :: refs), v'. rewrite E, <- app_assoc.
      split; [reflexivity|]. split; [exact Ht|]. split; [simpl; now rewrite Hlen|].
      split; [exact Hn|]. split; [exact Ha|]. split; [exact Hold|].
      intros [|p] m Hp; cbn in Hp.
      * injection Hp as <-. exists old. split; [reflexivity|].
        fold tc0. split; [now apply Hold|]. now rewrite Elook.
      * destruct (Hmsg p m Hp) as (ref & Hr & Hl & Hcase). exists ref.
        split; [exact Hr|]. split; [exact Hl|].
        destruct (llm_test_case_lookup_map v !! Message.llm_test_case m) eqn:Em;
          [exact Hcase|].
        destruct Hcase as (Hlt & Hllm & Hapi). split; [exact Hlt|].
        split; [exact Hllm|]. rewrite Hapi. cbn [first_index]. fold tc0.
        destruct (Nat.eqb_spec tc0 (Message.llm_test_case m)) as [Heq|Hne];
          [congruence|].
        do 2 f_equal. lia.
    + rewrite (create_llm_api_test_case_message tc0 (Some k) k0 additional_metadata
                 comments v Elook).
      unfold ret at 1.
      set (r := S (next_id v)).
      set (v1 := with_lookup_map _ _).
      destruct (IH (k + 1) (acc ++ [r]) v1)
        as (refs & v' & E & Ht & Hlen & Hn & Ha & Hold & Hmsg).
      assert (Hr1 : llm_test_case_lookup_map v1 !! tc0 = Some r)
        by (unfold v1; cbn; apply lookup_insert_eq).
      assert (Hllm1 : llm_test_cases v1 tc0 = stamped additional_metadata comments v tc0)
        by (unfold v1; cbn; apply update_same).
      assert (Hapi1 : api_test_cases v1 r =
                      message_record (stamped additional_metadata comments v tc0) (Some k) (S k0))
        by (unfold v1; cbn; apply update_same).
      assert (Hother : forall test_case, test_case <> tc0 ->
                llm_test_case_lookup_map v1 !! test_case =
                  llm_test_case_lookup_map v !! test_case /\
                llm_test_cases v1 test_case = llm_test_cases v test_case).
      { intros test_case Hne. unfold v1; cbn. split.
        - now apply lookup_insert_ne.
        - unfold update. now destruct (Nat.eqb_spec test_case tc0). }
      assert (Hfirst : llm_test_case_lookup_map v' !! tc0 = Some r /\
                       llm_test_cases v' tc0 = stamped additional_metadata comments v tc0 /\
                       api_test_cases v' r =
                         message_record (stamped additional_metadata comments v tc0) (Some k) (S k0)).
      { destruct (Hold tc0 r Hr1) as [Hl Hs]. split; [exact Hl|].
        split; [now rewrite Hs|]. rewrite Ha; [exact Hapi1|]. unfold v1; cbn. lia. }
      exists (r :: refs), v'. rewrite E, <- app_assoc.
      split; [reflexivity|]. split; [now rewrite Ht|].
      split; [simpl; now rewrite Hlen|].
      split; [unfold v1 in Hn; cbn in Hn; lia|].
      split.
      { intros r' Hr'. rewrite Ha by (unfold v1; cbn; lia).
        unfold v1; cbn. unfold update. destruct (Nat.eqb_spec r' r); [|reflexivity].
        unfold r in *. lia. }
      split.
      { intros test_case old Hl.
        assert (Hne : test_case <> tc0) by congruence.
        destruct (Hother test_case Hne) as [Hm Hs].
        destruct (Hold test_case old) as [Hl' Hs']; [now rewrite Hm|].
        split; [exact Hl'|]. now rewrite Hs'. }
      intros [|p] m Hp; cbn in Hp.
      * injection Hp as <-. exists r. split; [reflexivity|]. fold tc0.
        destruct Hfirst as (Hl & Hs & Hap). split; [exact Hl|]. rewrite Elook.
        split; [unfold r; lia|]. split; [exact Hs|]. rewrite Hap.
        cbn [first_index]. fold tc0. rewrite Nat.eqb_refl. do 2 f_equal. lia.
      * destruct (Hmsg p m Hp) as (ref & Hr & Hl & Hcase). exists ref.
        split; [exact Hr|]. split; [exact Hl|].
        destruct (Nat.eq_dec (Message.llm_test_case m) tc0) as [Heq|Hne].
        -- rewrite Heq in *. rewrite Hr1 in Hcase. subst ref. rewrite Elook.
           destruct Hfirst as (_ & Hs & Hap).
           split; [unfold r; lia|]. split; [exact Hs|]. rewrite Hap.
           cbn [first_index]. fold tc0. rewrite Nat.eqb_refl. do 2 f_equal. lia.
        -- destruct (Hother _ Hne) as [Hm Hs]. rewrite Hm in Hcase.
           destruct (llm_test_case_lookup_map v !! Message.llm_test_case m);
             [exact Hcase|].
           destruct Hcase as (Hlt & Hllm & Hapi).
           split; [unfold v1 in Hlt; cbn in Hlt; lia|].
           unfold stamped in *. rewrite Hs in Hllm, Hapi. split; [exact Hllm|].
           rewrite Hapi. cbn [first_index]. fold tc0.
           destruct (Nat.eqb_spec tc0 (Message.llm_test_case m)) as [Heq|_];
             [congruence|].
           do 2 f_equal. lia.
Qed.

End ConversationRecords.

(** X6. The record [create_api_test_case] builds for a conversation, in any
    state: it has a new identity, success [True], no metric results and run
    duration [0], and one message record per message of the conversation, in
    order and whether or not the message is flagged [should_evaluate]; the
    lookup map then holds each message's record under its test case.  A
    message whose test case was in the lookup map already (it belongs to an
    earlier conversation of the batch) gets the record found there and is
    not stamped; any other message gets the record built at the first
    position at which its test case occurs in the conversation, from the
    test case stamped with the conversation's metadata and comments, which
    replace the test case's own.  No call is made on a collaborator. *)
Theorem conversation_record `{Env} (c : ConversationalTestCase.t) (index : option Z)
    (w : World) :
  let amd := ConversationalTestCase.additional_metadata c in
  let com := ConversationalTestCase.comments c in
  exists a w',
    create_api_test_case (Conversational c) index w =
      (Return (ApiConversational a), w') /\
    trace w' = trace w /\
    ConversationalApiTestCase.instance_id a = S (next_id w) /\
    ConversationalApiTestCase.success a = Some true /\
    ConversationalApiTestCase.metricsData a = None /\
    ConversationalApiTestCase.runDuration a = Some 0%Q /\
    length (ConversationalApiTestCase.messages a) =
      length (ConversationalTestCase.messages c) /\
    forall i message,
      ConversationalTestCase.messages c !! i = Some message ->
      let test_case := Message.llm_test_case message in
      exists ref,
        ConversationalApiTestCase.messages a !! i = Some ref /\
        llm_test_case_lookup_map w' !! test_case = Some ref /\
        match llm_test_case_lookup_map w !! test_case with
        | Some old =>
            ref = old /\ llm_test_cases w' test_case = llm_test_cases w test_case
        | None =>
            llm_test_cases w' test_case = stamped amd com w test_case /\
            api_test_cases w' ref =
              message_record (stamped amd com w test_case)
                (Some (Z.of_nat
                         (first_index test_case (ConversationalTestCase.messages c))))
                (S (next_id w))
        end.
Proof.
  cbv zeta. unfold create_api_test_case, create_conversational_api_test_case.
  unfold bind at 1. unfold bind at 1. unfold fresh_id at 1.
  destruct (create_message_records (next_id w)
              (ConversationalTestCase.additional_metadata c)
              (ConversationalTestCase.comments c)
              (ConversationalTestCase.messages c) 0 [] (with_next_id (S (next_id w)) w))
    as (refs & w' & E & Ht & Hlen & Hn & Ha & Hold & Hmsg).
  unfold bind at 1. rewrite E. unfold ret. cbn [app].
  eexists. exists w'. split; [reflexivity|]. cbn.
  split; [exact Ht|]. repeat (split; [reflexivity|]). split; [exact Hlen|].
  intros i message Hi. destruct (Hmsg i message Hi) as (ref & Hr & Hl & Hcase).
  exists ref. split; [exact Hr|]. split; [exact Hl|]. cbn in Hcase.
  destruct (llm_test_case_lookup_map w !! Message.llm_test_case message) as [old|]
    eqn:Elook.
  - split; [exact Hcase|].
    exact (proj2 (Hold (Message.llm_test_case message) old Elook)).
  - destruct Hcase as (_ & Hllm & Hapi). split; [exact Hllm|exact Hapi].
Qed.

(** ** The calls on the test run manager and the cache manager *)

Lemma manager_calls_app evs evs' :
  manager_calls (evs ++ evs') = manager_calls evs ++ manager_calls evs'.
Proof. apply flat_map_app. Qed.

Lemma manager_calls_silent evs : Forall silent evs -> manager_calls evs = [].
Proof.
  induction 1 as [|e evs He _ IH]; [reflexivity|].
  simpl. rewrite IH. now destruct e.
Qed.

Lemma hands_over_silent {A} (m : M A) : emits silent m -> hands_over [] m.
Proof.
  intros Hm w. destruct (Hm w) as (evs & Ht & Hs). exists evs.
  split; [exact Ht|]. rewrite (manager_calls_silent _ Hs). now destruct (fst (m w)).
Qed.

Lemma hands_over_bind {A B} calls (m : M A) (k : A -> M B) :
  emits silent m -> (forall a, hands_over calls (k a)) -> hands_over calls (bind m k).
Proof.
  intros Hm Hk w. destruct (Hm w) as (evs1 & Ht1 & Hs1). unfold bind.
  destruct (m w) as [[a|e] w1]; cbn [fst snd] in *.
  - destruct (Hk a w1) as (evs2 & Ht2 & Hc2). exists (evs1 ++ evs2).
    rewrite Ht2, Ht1, app_assoc. split; [reflexivity|].
    now rewrite manager_calls_app, (manager_calls_silent _ Hs1).
  - exists evs1. split; [exact Ht1|]. now apply manager_calls_silent.
Qed.

Lemma hands_over_for_each {A} (calls_of : A -> list ManagerCall)
    (body : A -> Locals -> M Locals) :
  (forall x loc, hands_over (calls_of x) (body x loc)) ->
  forall units loc w, exists evs,
    trace (snd (for_each body units loc w)) = trace w ++ evs /\
    match fst (for_each body units loc w) with
    | Return _ => manager_calls evs = flat_map calls_of units
    | Raise _ =>
        exists done rest,
          units = done ++ rest /\ rest <> [] /\
          manager_calls evs = flat_map calls_of done
    end.
Proof.
  intros Hbody. induction units as [|x units IH]; intros loc w.
  - exists []. simpl. now rewrite app_nil_r.
  - cbn [for_each]. unfold bind. destruct (Hbody x loc w) as (evs1 & Ht1 & Hc1).
    destruct (body x loc w) as [[loc1|e] w1]; cbn [fst snd] in *.
    + destruct (IH loc1 w1) as (evs2 & Ht2 & Hc2). exists (evs1 ++ evs2).
      rewrite Ht2, Ht1, app_assoc. split; [reflexivity|].
      rewrite manager_calls_app, Hc1.
      destruct (fst (for_each body units loc1 w1)).
      * cbn [flat_map]. now rewrite Hc2.
      * destruct Hc2 as (done & rest & -> & Hrest & Hc2).
        exists (x :: done), rest. split; [reflexivity|]. split; [exact Hrest|].
        cbn [flat_map]. now rewrite Hc2.
    + exists evs1. split; [exact Ht1|]. exists [], (x :: units).
      split; [reflexivity|]. split; [discriminate|exact Hc1].
Qed.

Section ManagerCalls.
Context `{Env}.

Lemma emits_silent_llm_metric_body ie test_case cached api metric acc :
  emits silent (llm_metric_body ie test_case cached api metric acc).
Proof. apply emits_llm_metric_body; intros; exact I. Qed.

Lemma emits_silent_conversational_metric_body ie c metric api :
  emits silent (conversational_metric_body ie c metric api).
Proof. apply emits_conversational_metric_body; intros; exact I. Qed.

Lemma hands_over_finish_llm_test_case test_case api new_cached count loc :
  hands_over [Handed (LLM test_case); Written false; Written true]
    (finish_llm_test_case test_case api new_cached count loc).
Proof.
  intros w. eexists.
  unfold finish_llm_test_case, create_test_result, bind, emit, modify, get_llm,
    get_api, ret. cbn.
  rewrite <- !app_assoc. split; reflexivity.
Qed.

Lemma hands_over_finish_conversational_test_case cms c api t0 t1 loc :
  hands_over [Handed (Conversational c)]
    (finish_conversational_test_case cms c api t0 t1 loc).
Proof.
  intros w. unfold finish_conversational_test_case.
  destruct cms as [|metric cms]; eexists;
    unfold bind, emit, modify, ret; cbn; rewrite <- ?app_assoc; split; reflexivity.
Qed.

Lemma hands_over_execute_test_case metrics llm_metrics cms ie uc unit loc :
  hands_over (unit_calls llm_metrics unit)
    (execute_test_case metrics llm_metrics cms ie uc unit loc).
Proof.
  unfold execute_test_case.
  apply hands_over_bind; [apply emits_keeps, keeps_trace_reset_errors|intros _].
  destruct unit as [id|c].
  - unfold execute_llm_test_case, unit_calls.
    destruct llm_metrics as [|m ms]; [apply hands_over_silent; emits_tac|].
    apply hands_over_bind; [emits_tac|intros cached].
    apply hands_over_bind;
      [apply emits_keeps, keeps_trace_create_llm_api_test_case|intros api].
    apply hands_over_bind; [emits_tac|intros t0].
    apply hands_over_bind.
    { apply emits_for_each. intros. apply emits_silent_llm_metric_body. }
    intros [read_all new_cached].
    apply hands_over_bind; [emits_tac|intros t1].
    apply hands_over_bind; [unfold llm_update_run_duration_call; emits_tac|intros _].
    apply hands_over_finish_llm_test_case.
  - unfold execute_conversational_test_case, unit_calls.
    replace (match llm_metrics with
             | [] | _ => [Handed (Conversational c)]
             end) with [Handed (Conversational c)] by now destruct llm_metrics.
    apply hands_over_bind;
      [apply emits_keeps, keeps_trace_create_conversational_api_test_case|intros api].
    apply hands_over_bind; [emits_tac|intros t0].
    apply hands_over_bind.
    { apply emits_for_each. intros. apply emits_silent_conversational_metric_body. }
    intros api'.
    apply hands_over_bind; [emits_tac|intros t1].
    apply hands_over_finish_conversational_test_case.
Qed.

End ManagerCalls.

(** X7. What [execute_test_cases] hands to the two managers.  Each unit of
    the flattened batch that is carried through is handed to
    [update_test_run] exactly once, in batch order; a single-turn unit is
    then written to the cache twice, first to the durable and then to the
    transient tier (and is skipped altogether when no single-turn metric is
    configured); a conversation is never written to the cache.  No other
    call reaches the managers.  When the call raises, this has happened for
    the units before the one that failed, and nothing of the failing unit or
    of those after it has reached a manager. *)
Theorem units_reach_the_managers `{Env} (test_cases : list TestCase)
    (metrics : list nat) (ignore_errors use_cache save_to_disk : bool)
    (verbose_mode : option bool) (w : World) :
  let call :=
    execute_test_cases test_cases metrics ignore_errors use_cache save_to_disk
      verbose_mode w in
  let llm_metrics := select_metrics is_BaseMetric w metrics in
  exists evs,
    trace (world_after call) = trace w ++ evs /\
    match returned call with
    | Return _ =>
        manager_calls evs = flat_map (unit_calls llm_metrics) (test_cases_after call)
    | Raise _ =>
        exists done rest,
          test_cases_after call = done ++ rest /\ rest <> [] /\
          manager_calls evs = flat_map (unit_calls llm_metrics) done
    end.
Proof.
  cbv zeta. unfold execute_test_cases.
  match goal with
  | |- context [run_batch ?f test_cases metrics save_to_disk verbose_mode w] =>
      destruct (run_batch_unfold f test_cases metrics save_to_disk verbose_mode w)
        as (w0 & _ & Ht0 & Hsel & Hwa & Hret)
  end.
  cbv zeta in Hwa, Hret. rewrite Hwa, Hret. unfold run_batch at 1 2.
  cbn [test_cases_after]. rewrite <- Ht0, <- (Hsel is_BaseMetric).
  match goal with
  | |- context [for_each ?body ?units ?loc w0] =>
      destruct (hands_over_for_each
                  (unit_calls (select_metrics is_BaseMetric w0 metrics)) body
                  (fun unit loc' =>
                     hands_over_execute_test_case metrics _ _ ignore_errors use_cache
                       unit loc')
                  units loc w0) as (evs & Ht & Hc)
  end.
  exists evs. split; [exact Ht|].
  destruct (fst (for_each _ _ _ w0)); exact Hc.
Qed.

(** ** Which metric is measured on which test case *)

Lemma emits_for_each_in {A S} (P : Event -> Prop) (body : A -> S -> M S) l :
  (forall x, In x l -> forall acc, emits P (body x acc)) ->
  forall acc, emits P (for_each body l acc).
Proof.
  induction l as [|x l IH]; intros Hbody acc.
  - apply emits_keeps. intros w. reflexivity.
  - cbn [for_each]. apply emits_bind; [apply Hbody; now left|].
    intros acc'. apply IH. intros y Hy. apply Hbody. now right.
Qed.

Section Fitting.
Context `{Env}.

Lemma emits_llm_metric_body_of (P : Event -> Prop) ie test_case cached api metric acc :
  (forall raised, P (EvMeasure metric (LLM test_case) raised)) ->
  (forall a metric_data, P (EvUpdateMetricData a metric_data)) ->
  emits P (llm_metric_body ie test_case cached api metric acc).
Proof.
  intros Hm Hu. unfold llm_metric_body.
  apply emits_bind; [emits_tac|intros m0].
  apply emits_bind.
  - destruct (cached_metric_data m0 cached); [emits_tac|].
    apply emits_bind; [emits_tac|intros _].
    apply emits_bind; [now apply emits_measure_guarded|intros _]. emits_tac.
  - intros [metric_data read_all].
    unfold llm_update_metric_data_call, append_if_no_error.
    apply emits_bind; [|intros; emits_tac].
    apply emits_bind; [emits_tac|intros a].
    apply emits_bind; [emits_tac|intros _]. now apply emits_emit.
Qed.

Lemma emits_conversational_metric_body_of (P : Event -> Prop) ie c metric api :
  (forall raised, P (EvMeasure metric (Conversational c) raised)) ->
  (forall a metric_data, P (EvUpdateMetricData a metric_data)) ->
  emits P (conversational_metric_body ie c metric api).
Proof.
  intros Hm Hu. unfold conversational_metric_body.
  apply emits_bind; [emits_tac|intros m0].
  destruct (is_BaseConversationalMetric _); [|emits_tac].
  apply emits_bind; [emits_tac|intros _].
  apply emits_bind; [now apply emits_measure_guarded|intros _].
  apply emits_bind; [emits_tac|intros m1].
  apply emits_bind; [now apply emits_emit|intros _]. emits_tac.
Qed.

Lemma emits_fitting_execute_test_case w metrics ie uc test_case loc :
  emits (fitting w metrics)
    (execute_test_case metrics (select_metrics is_BaseMetric w metrics)
       (select_metrics is_BaseConversationalMetric w metrics) ie uc test_case loc).
Proof.
  assert (Hkind : forall p k metric,
            (forall k', p k' = true -> k' = k) ->
            In metric (select_metrics p w metrics) ->
            In metric metrics /\ Metric.kind (metric_objects w metric) = k).
  { intros p k metric Hp Hin. unfold select_metrics in Hin.
    apply filter_In in Hin as [Hin Hk]. split; [exact Hin|now apply Hp]. }
  unfold execute_test_case.
  apply emits_bind; [apply emits_keeps, keeps_trace_reset_errors|intros _].
  destruct test_case as [id|c].
  - unfold execute_llm_test_case.
    destruct (select_metrics is_BaseMetric w metrics) as [|m ms] eqn:Esel;
      [emits_tac|].
    rewrite <- Esel.
    apply emits_bind; [emits_tac|intros cached].
    apply emits_bind;
      [apply emits_keeps, keeps_trace_create_llm_api_test_case|intros api].
    apply emits_bind; [emits_tac|intros t0].
    apply emits_bind.
    { apply emits_for_each_in. intros metric Hin acc.
      apply emits_llm_metric_body_of; [|intros; exact I].
      intros raised. apply (Hkind is_BaseMetric); [now intros []|exact Hin]. }
    intros [read_all new_cached].
    apply emits_bind; [emits_tac|intros t1].
    apply emits_bind; [unfold llm_update_run_duration_call; emits_tac|intros _].
    unfold finish_llm_test_case, create_test_result. emits_tac.
  - unfold execute_conversational_test_case.
    apply emits_bind;
      [apply emits_keeps, keeps_trace_create_conversational_api_test_case|intros api].
    apply emits_bind; [emits_tac|intros t0].
    apply emits_bind.
    { apply emits_for_each_in. intros metric Hin acc.
      apply emits_conversational_metric_body_of; [|intros; exact I].
      intros raised.
      apply (Hkind is_BaseConversationalMetric); [now intros []|exact Hin]. }
    intros api'.
    apply emits_bind; [emits_tac|intros t1].
    unfold finish_conversational_test_case. emits_tac.
Qed.

End Fitting.

(** X8. In [execute_test_cases] a metric never runs against a test case of
    the variant it does not support: every [measure] call of the batch,
    whether the batch returns or raises, is made on one of the metrics that
    were passed in, a single-turn test case is only measured by a
    [BaseMetric] and a conversation only by a [BaseConversationalMetric]
    (the class the metric had when the call started). *)
Theorem metrics_run_on_their_variant `{Env} (test_cases : list TestCase)
    (metrics : list nat) (ignore_errors use_cache save_to_disk : bool)
    (verbose_mode : option bool) (w : World) :
  let call :=
    execute_test_cases test_cases metrics ignore_errors use_cache save_to_disk
      verbose_mode w in
  exists evs,
    trace (world_after call) = trace w ++ evs /\
    Forall (fitting w metrics) evs.
Proof.
  cbv zeta. unfold execute_test_cases.
  match goal with
  | |- context [run_batch ?f test_cases metrics save_to_disk verbose_mode w] =>
      destruct (run_batch_unfold f test_cases metrics save_to_disk verbose_mode w)
        as (w0 & _ & Ht0 & Hsel & Hwa & _)
  end.
  cbv zeta in Hwa. rewrite Hwa, !Hsel, <- Ht0.
  match goal with
  | |- context [for_each ?body ?units ?loc w0] =>
      assert (He : emits (fitting w metrics) (for_each body units loc))
        by (apply emits_for_each; intros; apply emits_fitting_execute_test_case)
  end.
  exact (He w0).
Qed.

(** ** The run duration of a single-turn unit in [execute_test_cases] *)

Lemma measured_app evs evs' : measured (evs ++ evs') = measured evs ++ measured evs'.
Proof. apply flat_map_app. Qed.

Lemma run_durations_app evs evs' :
  run_durations (evs ++ evs') = run_durations evs ++ run_durations evs'.
Proof. apply flat_map_app. Qed.

Lemma none_measured_app evs evs' :
  none_measured (evs ++ evs') = none_measured evs && none_measured evs'.
Proof.
  unfold none_measured. rewrite measured_app.
  now destruct (measured evs).
Qed.

Section Durations.
Context `{Env}.

Lemma llm_metric_body_read_all ie test_case cached api metric acc w :
  let r := llm_metric_body ie test_case cached api metric acc w in
  perf_counter_calls (snd r) = perf_counter_calls w /\
  exists evs,
    trace (snd r) = trace w ++ evs /\
    run_durations evs = [] /\
    match fst r with
    | Return acc' => fst acc' = fst acc && none_measured evs
    | Raise _ => True
    end.
Proof.
  cbv zeta. unfold llm_metric_body, bind, get_metric.
  destruct (cached_metric_data (metric_objects w metric) cached) as [metric_data|].
  - unfold llm_update_metric_data_call, append_if_no_error, bind, get_api, get_metric,
      set_api, emit, modify, ret. cbn.
    split; [now destruct (Metric.error _)|].
    exists [EvUpdateMetricData (ApiLLM api) metric_data].
    destruct (Metric.error (metric_objects w metric)); cbn;
      now rewrite andb_true_r.
  - unfold set_metric, modify, measure_guarded, bind, call_measure. cbn.
    rewrite update_same.
    destruct (measure _ _ _) as [m' [e|]]; cbn.
    + destruct ie; cbn.
      * unfold llm_update_metric_data_call, append_if_no_error, bind, get_api,
          get_metric, set_api, emit, modify, ret. cbn. rewrite !update_same. cbn.
        split; [reflexivity|]. eexists. rewrite <- app_assoc. split; [reflexivity|].
        cbn. now rewrite andb_false_r.
      * split; [reflexivity|]. eexists. split; [reflexivity|]. now cbn.
    + unfold llm_update_metric_data_call, append_if_no_error, bind, get_api,
        get_metric, set_api, emit, modify, ret. cbn. rewrite !update_same.
      split; [now destruct (Metric.error m')|].
      eexists. destruct (Metric.error m'); cbn; rewrite <- app_assoc;
        (split; [reflexivity|]); cbn; now rewrite andb_false_r.
Qed.

Lemma for_each_llm_metric_body_read_all ie test_case cached api llm_metrics :
  forall acc w,
    let r := for_each (llm_metric_body ie test_case cached api) llm_metrics acc w in
    perf_counter_calls (snd r) = perf_counter_calls w /\
    exists evs,
      trace (snd r) = trace w ++ evs /\
      run_durations evs = [] /\
      match fst r with
      | Return acc' => fst acc' = fst acc && none_measured evs
      | Raise _ => True
      end.
Proof.
  induction llm_metrics as [|metric llm_metrics IH]; intros acc w; cbv zeta.
  - cbn. split; [reflexivity|]. exists []. rewrite app_nil_r.
    now rewrite andb_true_r.
  - cbn [for_each]. unfold bind.
    destruct (llm_metric_body_read_all ie test_case cached api metric acc w)
      as (Hp1 & evs1 & Ht1 & Hd1 & Hf1).
    destruct (llm_metric_body ie test_case cached api metric acc w) as [[acc1|e] w1];
      cbn [fst snd] in *.
    + destruct (IH acc1 w1) as (Hp2 & evs2 & Ht2 & Hd2 & Hf2).
      split; [congruence|]. exists (evs1 ++ evs2).
      rewrite Ht2, Ht1, app_assoc. split; [reflexivity|].
      rewrite run_durations_app, Hd1, Hd2. split; [reflexivity|].
      destruct (fst (for_each _ llm_metrics acc1 w1)); [|exact I].
      now rewrite Hf2, Hf1, none_measured_app, andb_assoc.
    + split; [exact Hp1|]. exists evs1. auto.
Qed.

End Durations.

(** X9. The run duration [execute_test_cases] stamps on a single-turn unit:
    a unit that is carried through gets exactly one [update_run_duration]
    call, with [0] when no [measure] call was made for it (every metric
    result was read from the cache) and with the difference of the two
    clock readings taken around the metric loop as soon as one metric was
    measured; a unit that raises gets none. *)
Theorem sequential_run_duration `{Env} (metric : nat) (llm_metrics : list nat)
    (ignore_errors use_cache : bool) (test_case : nat) (loc : Locals) (w : World) :
  let r :=
    execute_llm_test_case (metric :: llm_metrics) ignore_errors use_cache test_case
      loc w in
  let test_start_time := perf_counter_reading (perf_counter_calls w) in
  let test_end_time := perf_counter_reading (S (perf_counter_calls w)) in
  exists evs,
    trace (snd r) = trace w ++ evs /\
    run_durations evs =
      match fst r with
      | Return _ =>
          [if none_measured evs then 0%Q else (test_end_time - test_start_time)%Q]
      | Raise _ => []
      end.
Proof.
  cbv zeta. unfold execute_llm_test_case, bind, lookup_cache.
  set (cached := if use_cache then _ else None).
  pose proof (keeps_trace_create_llm_api_test_case test_case
    (Some (llm_test_case_count loc + 1)) None None None w) as Hk.
  assert (Hkp : keeps perf_counter_calls
                  (create_llm_api_test_case test_case
                     (Some (llm_test_case_count loc + 1)) None None None))
    by (unfold create_llm_api_test_case; keeps_tac).
  specialize (Hkp w).
  destruct (returns_create_llm_api_test_case test_case
    (Some (llm_test_case_count loc + 1)) None None None w) as (api & w0 & E0).
  rewrite E0 in *. cbn [snd] in Hk, Hkp. unfold perf_counter at 1 3.
  rewrite Hkp.
  set (w0' := with_perf_counter_calls _ w0).
  destruct (for_each_llm_metric_body_read_all ignore_errors test_case cached api
              (metric :: llm_metrics) (true, []) w0') as (Hp & evs & Ht & Hd & Hf).
  destruct (for_each _ _ _ w0') as [[[read_all new_cached]|e] w1];
    cbn [fst snd] in *.
  - unfold perf_counter, llm_update_run_duration_call, finish_llm_test_case,
      bind, get_api, set_api, emit, modify, get_llm, create_test_result, ret. cbn.
    eexists. rewrite Ht. unfold w0'. cbn [trace with_perf_counter_calls]. rewrite Hk.
    rewrite <- !app_assoc. split; [reflexivity|].
    rewrite run_durations_app, Hd, none_measured_app, Hf, Hp. cbn.
    now rewrite andb_true_r.
  - exists evs. rewrite Ht. unfold w0'. cbn [trace with_perf_counter_calls].
    rewrite Hk. split; [reflexivity|exact Hd].
Qed.

(** ** The [measure] calls of a batch that does not read the cache *)

Lemma measured_none evs :
  Forall (fun e => is_measure e = false) evs -> measured evs = [].
Proof.
  induction 1 as [|e evs He _ IH]; [reflexivity|].
  simpl. rewrite IH. now destruct e.
Qed.

Lemma measures_quiet {A} w0 (m : M A) :
  emits (fun e => is_measure e = false) m -> keeps metric_objects m ->
  measures w0 [] m.
Proof.
  intros He Hk w Hw. destruct (He w) as (evs & Ht & Hq). exists evs, [].
  split; [exact Ht|]. rewrite (measured_none _ Hq). split; [reflexivity|].
  destruct (fst (m w)); [|exact I]. split; [reflexivity|].
  intros i. rewrite (Hk w). apply Hw.
Qed.

Lemma measures_bind {A B} w0 l1 l2 (m : M A) (k : A -> M B) :
  measures w0 l1 m -> (forall a, measures w0 l2 (k a)) ->
  measures w0 (l1 ++ l2) (bind m k).
Proof.
  intros Hm Hk w Hw. destruct (Hm w Hw) as (evs1 & rest1 & Ht1 & Hl1 & Hr1).
  unfold bind. destruct (m w) as [[a|e] w1]; cbn [fst snd] in *.
  - destruct Hr1 as [-> Hw1].
    destruct (Hk a w1 Hw1) as (evs2 & rest2 & Ht2 & Hl2 & Hr2).
    exists (evs1 ++ evs2), rest2. rewrite Ht2, Ht1, app_assoc.
    split; [reflexivity|]. split; [|exact Hr2].
    now rewrite measured_app, Hl1, Hl2, app_nil_r, app_assoc.
  - exists evs1, (rest1 ++ l2). split; [exact Ht1|].
    split; [|exact I]. now rewrite Hl1, app_assoc.
Qed.

Lemma measures_bind_last {A B} w0 l (m : M A) (k : A -> M B) :
  measures w0 l m -> (forall a, measures w0 [] (k a)) -> measures w0 l (bind m k).
Proof. intros Hm Hk. rewrite <- (app_nil_r l). now apply measures_bind. Qed.

Lemma measures_singletons {S} w0 (body : nat -> S -> M S) l :
  (forall x, In x l -> forall acc, measures w0 [x] (body x acc)) ->
  forall acc, measures w0 l (for_each body l acc).
Proof.
  induction l as [|x l IH]; intros Hbody acc.
  - intros w Hw. exists [], []. simpl. rewrite app_nil_r. auto.
  - cbn [for_each]. apply (measures_bind w0 [x] l); [apply Hbody; now left|].
    intros acc'. apply IH. intros y Hy. apply Hbody. now right.
Qed.

Lemma measures_for_each {A S} w0 (f : A -> list nat) (body : A -> S -> M S) l :
  (forall x, In x l -> forall acc, measures w0 (f x) (body x acc)) ->
  forall acc, measures w0 (flat_map f l) (for_each body l acc).
Proof.
  induction l as [|x l IH]; intros Hbody acc.
  - intros w Hw. exists [], []. simpl. rewrite app_nil_r. auto.
  - cbn [for_each flat_map]. apply measures_bind; [apply Hbody; now left|].
    intros acc'. apply IH. intros y Hy. apply Hbody. now right.
Qed.

Ltac kinds_tac Hw Hk :=
  let i := fresh "i" in
  let Ei := fresh "Ei" in
  intros i; cbn; unfold update; rewrite ?Nat.eqb_refl;
  destruct (Nat.eqb i _) eqn:Ei;
  [apply Nat.eqb_eq in Ei; subst i; cbn; rewrite ?Hk; cbn|cbn];
  apply Hw.

Section MeasuredOnce.
Context `{Env}.
Hypothesis measure_keeps_kind :
  forall m test_case llm,
    Metric.kind (fst (measure m test_case llm)) = Metric.kind m.

Lemma measures_reset_errors w0 metrics : measures w0 [] (reset_errors metrics).
Proof.
  intros w Hw. exists [], []. rewrite app_nil_r.
  split; [apply keeps_trace_reset_errors|]. split; [reflexivity|].
  destruct (reset_errors_effect metrics w) as (w' & E & _ & _ & Hcfg). rewrite E.
  split; [reflexivity|]. intros i. cbn [snd].
  rewrite (kind_of_configuration _ _ (Hcfg i)). apply Hw.
Qed.

Lemma measures_measure_guarded w0 ie metric test_case :
  measures w0 [metric] (measure_guarded ie metric test_case).
Proof.
  intros w Hw. unfold measure_guarded, bind, call_measure.
  pose proof (measure_keeps_kind (metric_objects w metric) test_case
                (llm_test_cases w)) as Hk.
  destruct (measure (metric_objects w metric) test_case (llm_test_cases w))
    as [m' raised]. cbn [fst] in Hk.
  exists [EvMeasure metric test_case raised].
  destruct raised as [e|]; [destruct ie|].
  - exists []. cbn. split; [reflexivity|]. split; [reflexivity|].
    split; [reflexivity|]. intros i. cbn. unfold update. rewrite ?Nat.eqb_refl.
    destruct (Nat.eqb i metric) eqn:Ei; [|apply Hw].
    apply Nat.eqb_eq in Ei. subst i. cbn. rewrite Hk. apply Hw.
  - exists []. cbn. auto.
  - exists []. cbn. split; [reflexivity|]. split; [reflexivity|].
    split; [reflexivity|]. intros i. cbn. unfold update.
    destruct (Nat.eqb i metric) eqn:Ei; [|apply Hw].
    apply Nat.eqb_eq in Ei. subst i. rewrite Hk. apply Hw.
Qed.

Lemma measures_set_async_mode w0 metric :
  measures w0 []
    (let* m := get_metric metric in set_metric metric (Metric.set_async_mode false m)).
Proof.
  intros w Hw. exists [], []. cbn. rewrite app_nil_r.
  repeat split. intros i. cbn. unfold update.
  destruct (Nat.eqb i metric) eqn:Ei; [|apply Hw].
  apply Nat.eqb_eq in Ei. subst i. cbn. apply Hw.
Qed.

Lemma measures_llm_metric_body w0 ie test_case api metric acc :
  measures w0 [metric] (llm_metric_body ie test_case None api metric acc).
Proof.
  intros w Hw. unfold llm_metric_body, bind, get_metric. cbn [cached_metric_data].
  unfold set_metric, modify, measure_guarded, bind, call_measure. cbn.
  rewrite update_same.
  pose proof (measure_keeps_kind (Metric.set_async_mode false (metric_objects w metric))
                (LLM test_case) (llm_test_cases w)) as Hk.
  destruct (measure _ _ _) as [m' [e|]]; cbn [fst] in Hk; cbn.
  - destruct ie; cbn.
    + unfold llm_update_metric_data_call, append_if_no_error, bind, get_api,
        get_metric, set_api, emit, modify, ret. cbn. rewrite !update_same. cbn.
      eexists. exists []. rewrite <- app_assoc. split; [reflexivity|].
      split; [reflexivity|]. split; [reflexivity|]. kinds_tac Hw Hk.
    + eexists. exists []. split; [reflexivity|]. now cbn.
  - unfold llm_update_metric_data_call, append_if_no_error, bind, get_api,
      get_metric, set_api, emit, modify, ret. cbn. rewrite !update_same.
    eexists. exists [].
    destruct (Metric.error m'); cbn; rewrite <- app_assoc;
      (split; [reflexivity|]); (split; [reflexivity|]); (split; [reflexivity|]);
      kinds_tac Hw Hk.
Qed.

Lemma measures_conversational_metric_body w0 ie c metric api :
  Metric.kind (metric_objects w0 metric) = BaseConversationalMetric ->
  measures w0 [metric] (conversational_metric_body ie c metric api).
Proof.
  intros Hconv w Hw. unfold conversational_metric_body, bind, get_metric.
  rewrite (Hw metric), Hconv. cbn [is_BaseConversationalMetric].
  unfold set_metric, modify, measure_guarded, bind, call_measure. cbn.
  rewrite update_same.
  pose proof (measure_keeps_kind (Metric.set_async_mode false (metric_objects w metric))
                (Conversational c) (llm_test_cases w)) as Hk.
  destruct (measure _ _ _) as [m' [e|]]; cbn [fst] in Hk; cbn.
  - destruct ie; cbn.
    + unfold get_metric, emit, modify, ret. cbn. rewrite !update_same. cbn.
      eexists. exists []. rewrite <- app_assoc. split; [reflexivity|].
      split; [reflexivity|]. split; [reflexivity|]. kinds_tac Hw Hk.
    + eexists. exists []. split; [reflexivity|]. now cbn.
  - unfold get_metric, emit, modify, ret. cbn. rewrite !update_same.
    eexists. exists []. rewrite <- app_assoc. split; [reflexivity|].
    split; [reflexivity|]. split; [reflexivity|]. kinds_tac Hw Hk.
Qed.

Ltac measures_quiet_tac :=
  apply measures_quiet; [emits_tac|keeps_tac].

Lemma measures_execute_test_case w0 metrics llm_metrics cms ie unit loc :
  (forall metric, In metric cms ->
     Metric.kind (metric_objects w0 metric) = BaseConversationalMetric) ->
  measures w0 (unit_metrics llm_metrics cms unit)
    (execute_test_case metrics llm_metrics cms ie false unit loc).
Proof.
  intros Hcms. unfold execute_test_case.
  apply (measures_bind w0 []); [apply measures_reset_errors|intros _].
  destruct unit as [id|c]; cbn [unit_metrics].
  - unfold execute_llm_test_case.
    destruct llm_metrics as [|m ms]; [measures_quiet_tac|].
    set (lm := m :: ms).
    unfold bind at 1. unfold lookup_cache at 1.
    change (measures w0 lm
              (let* api_test_case :=
                 create_llm_api_test_case id (Some (llm_test_case_count loc + 1))
                   None None None in
               let* test_start_time := perf_counter in
               let* '(read_all_metrics_from_cache, new_cached) :=
                 for_each (llm_metric_body ie id None api_test_case) lm (true, []) in
               let* test_end_time := perf_counter in
               let run_duration :=
                 if read_all_metrics_from_cache then 0%Q
                 else (test_end_time - test_start_time)%Q in
               llm_update_run_duration_call api_test_case run_duration ;;
               finish_llm_test_case id api_test_case new_cached
                 (llm_test_case_count loc + 1) loc)).
    apply (measures_bind w0 []).
    { apply measures_quiet;
        [apply emits_keeps, keeps_trace_create_llm_api_test_case
        |unfold create_llm_api_test_case; keeps_tac]. }
    intros api. apply (measures_bind w0 []); [measures_quiet_tac|intros t0].
    apply measures_bind_last.
    { apply measures_singletons. intros metric _ acc.
      apply measures_llm_metric_body. }
    intros [read_all new_cached].
    apply (measures_bind w0 []); [measures_quiet_tac|intros t1].
    apply (measures_bind w0 []);
      [unfold llm_update_run_duration_call; measures_quiet_tac|intros _].
    unfold finish_llm_test_case, create_test_result. measures_quiet_tac.
  - unfold execute_conversational_test_case.
    apply (measures_bind w0 []).
    { apply measures_quiet;
        [apply emits_keeps, keeps_trace_create_conversational_api_test_case
        |unfold create_conversational_api_test_case, create_llm_api_test_case;
         keeps_tac]. }
    intros api. apply (measures_bind w0 []); [measures_quiet_tac|intros t0].
    apply measures_bind_last.
    { apply measures_singletons. intros metric Hin acc.
      apply measures_conversational_metric_body. now apply Hcms. }
    intros api'.
    apply (measures_bind w0 []); [measures_quiet_tac|intros t1].
    unfold finish_conversational_test_case. measures_quiet_tac.
Qed.

End MeasuredOnce.



(** ** [assert_test] without a result to judge *)

Lemma a_execute_test_cases_results `{Env} ind test_cases metrics ie uc sd vm w results :
  returned (a_execute_test_cases ind test_cases metrics ie uc sd vm w) =
    Return results ->
  length results =
  expected_results (select_metrics is_BaseMetric w metrics)
    (test_cases_after (a_execute_test_cases ind test_cases metrics ie uc sd vm w)).
Proof.
  intros E.
  pose proof (run_batch_results
    (fun metrics llm_metrics cms =>
       a_execute_test_case ind metrics llm_metrics cms ie uc)
    test_cases metrics sd vm w
    (fun llm_metrics cms tc loc w' =>
       a_execute_test_case_results ind metrics llm_metrics cms ie uc tc loc w')) as Hr.
  unfold a_execute_test_cases in *. cbv zeta in Hr. now rewrite E in Hr.
Qed.

Lemma no_single_turn_unit test_case :
  length (List.filter is_single_turn (flatten_test_cases [test_case])) = 0%nat <->
  exists c,
    test_case = Conversational c /\
    Forall (fun message => Message.should_evaluate message = false)
      (ConversationalTestCase.messages c).
Proof.
  rewrite flatten_test_cases_closed_form. cbn [flat_map app].
  rewrite app_nil_r. destruct test_case as [id|c]; cbn.
  - split; [discriminate|]. now intros (c & [=] & _).
  - split.
    + intros Hlen. exists c. split; [reflexivity|].
      induction (ConversationalTestCase.messages c) as [|message messages IH];
        [constructor|].
      cbn in Hlen. destruct (Message.should_evaluate message) eqn:Es;
        [discriminate|].
      constructor; [exact Es|now apply IH].
    + intros (c' & [= <-] & Hall).
      induction Hall as [|message messages Hm _ IH]; [reflexivity|].
      cbn. now rewrite Hm.
Qed.

(** X11. [assert_test] takes element [0] of the list the batch call
    returns, so it fails with [IndexError] exactly when that list is empty:
    when none of the metrics is a [BaseMetric], or when the test case is a
    conversation none of whose messages is flagged [should_evaluate]. In
    every other case a result is judged, and when the batch call raises,
    its exception is what [assert_test] raises. *)
Theorem assert_test_index_error `{Env} (measure_metrics_with_indicator : Indicator)
    (test_case : TestCase) (metrics : list nat) (run_async : bool) (w : World) :
  let call :=
    if run_async then
      a_execute_test_cases measure_metrics_with_indicator [test_case] metrics
        should_ignore_errors should_use_cache get_is_running_deepeval
        should_verbose_print w
    else
      execute_test_cases [test_case] metrics
        should_ignore_errors should_use_cache get_is_running_deepeval
        should_verbose_print w in
  let outcome :=
    fst (assert_test measure_metrics_with_indicator test_case metrics run_async w) in
  match returned call with
  | Return results =>
      outcome = Raise IndexError <->
      (select_metrics is_BaseMetric w metrics = [] \/
       exists c,
         test_case = Conversational c /\
         Forall (fun message => Message.should_evaluate message = false)
           (ConversationalTestCase.messages c))
  | Raise e => outcome = Raise e
  end.
Proof.
  cbv zeta. unfold assert_test.
  set (call := if run_async then _ else _).
  assert (Hlen : forall results, returned call = Return results ->
            length results =
            expected_results (select_metrics is_BaseMetric w metrics)
              (flatten_test_cases [test_case])).
  { intros results E. unfold call in *. destruct run_async.
    - now rewrite (a_execute_test_cases_results _ _ _ _ _ _ _ _ _ E).
    - now rewrite (execute_test_cases_results _ _ _ _ _ _ _ _ E). }
  destruct (returned call) as [results|e]; [|reflexivity].
  specialize (Hlen results eq_refl). rewrite <- no_single_turn_unit.
  unfold expected_results in Hlen.
  destruct results as [|test_result results]; cbn [first_of fst].
  - split; [intros _|reflexivity].
    destruct (select_metrics is_BaseMetric w metrics); [now left|right].
    now rewrite <- Hlen.
  - split.
    + unfold check_test_result.
      destruct (not_success _); [|discriminate].
      destruct (TestResult.metrics_data test_result); discriminate.
    + intros [Hnone|Hzero]; [rewrite Hnone in Hlen|rewrite Hzero in Hlen];
        [discriminate|].
      destruct (select_metrics is_BaseMetric w metrics); discriminate.
Qed.

(** ** The pass rates *)

Lemma named_app metric_name l l' :
  named metric_name (l ++ l') = named metric_name l ++ named metric_name l'.
Proof. apply List.filter_app. Qed.

Lemma tally_metric_tallied l acc metric_data :
  tallied l acc ->
  match tally_metric metric_data acc with
  | Return acc' =>
      tallied (l ++ [metric_data]) acc' /\
      exists b, MetricData.success metric_data = Flag b
  | Raise _ => exists msg, MetricData.success metric_data = FlagRaises msg
  end.
Proof.
  intros Hacc. unfold tally_metric. destruct acc as [cs ss]. cbn [fst snd] in *.
  set (key := MetricData.name metric_data).
  assert (Hstep : forall (b : bool) counts successes,
    (counts, successes) =
      match cs !! key with
      | Some _ => (cs, ss)
      | None => (<[key := 0%nat]> cs, <[key := 0%nat]> ss)
      end ->
    MetricData.success metric_data = Flag b ->
    tallied (l ++ [metric_data])
      (<[key := S (default 0%nat (counts !! key))]> counts,
       if b then <[key := S (default 0%nat (successes !! key))]> successes
       else successes)).
  { intros b counts successes Hcs Hb metric_name. specialize (Hacc metric_name).
    cbn [fst snd] in Hacc.
    assert (Hp : passed metric_data = b) by (unfold passed; now rewrite Hb).
    rewrite named_app, length_app, List.filter_app, length_app.
    cbn [named List.filter]. fold key.
    destruct (String.eqb_spec key metric_name) as [<-|Hne].
    - cbn [List.filter length]. rewrite Hp.
      assert (Hkey : counts !! key = Some (length (named key l)) /\
                     successes !! key =
                       Some (length (List.filter passed (named key l)))).
      { destruct (named key l) as [|d0 others]; cbn [length] in Hacc;
          destruct Hacc as [Hc Hs]; rewrite Hc in Hcs; injection Hcs as -> ->.
        - now rewrite !lookup_insert_eq.
        - now split. }
      destruct Hkey as [Hc Hs]. rewrite Nat.add_1_r. cbn [fst snd].
      rewrite lookup_insert_eq, Hc. cbn [default]. split; [reflexivity|].
      destruct b; cbn [length].
      + rewrite lookup_insert_eq, Hs. cbn. unfold id. f_equal. lia.
      + rewrite Hs. cbn. f_equal. lia.
    - cbn [length]. rewrite !Nat.add_0_r.
      assert (Hc : counts !! metric_name = cs !! metric_name /\
                   successes !! metric_name = ss !! metric_name).
      { destruct (cs !! key); injection Hcs as -> ->; [now split|].
        now rewrite !lookup_insert_ne. }
      destruct Hc as [Hc Hs]. cbn [fst snd].
      rewrite lookup_insert_ne, Hc by exact Hne.
      replace ((if b then <[key := S (default 0%nat (successes !! key))]> successes
                else successes) !! metric_name)
        with (ss !! metric_name)
        by (destruct b; [rewrite lookup_insert_ne by exact Hne|]; now rewrite Hs).
      exact Hacc. }
  destruct (match cs !! key with
            | Some _ => (cs, ss)
            | None => (<[key := 0%nat]> cs, <[key := 0%nat]> ss)
            end) as [counts successes] eqn:Hcs.
  destruct (MetricData.success metric_data) as [b|msg] eqn:Hb; cbn [truth_of].
  - specialize (Hstep b counts successes eq_refl eq_refl).
    destruct b; (split; [exact Hstep|now eexists]).
  - now exists msg.
Qed.

Lemma tally_metrics_tallied metrics_data : forall l acc,
  tallied l acc ->
  match tally_metrics metrics_data acc with
  | Return acc' =>
      tallied (l ++ metrics_data) acc' /\
      Forall (fun metric_data => exists b, MetricData.success metric_data = Flag b)
        metrics_data
  | Raise _ =>
      Exists (fun metric_data =>
                exists msg, MetricData.success metric_data = FlagRaises msg)
        metrics_data
  end.
Proof.
  induction metrics_data as [|metric_data metrics_data IH]; intros l acc Hacc.
  - cbn. rewrite app_nil_r. now split.
  - cbn [tally_metrics].
    pose proof (tally_metric_tallied l acc metric_data Hacc) as Hstep.
    destruct (tally_metric metric_data acc) as [acc1|e].
    + destruct Hstep as [Hacc1 Hflag]. specialize (IH _ _ Hacc1).
      rewrite <- app_assoc in IH. cbn [app] in IH.
      destruct (tally_metrics metrics_data acc1) as [acc'|e].
      * destruct IH as [Hacc' Hflags]. split; [exact Hacc'|now constructor].
      * now apply Exists_cons_tl.
    + now apply Exists_cons_hd.
Qed.

Lemma tally_results_tallied test_results : forall l acc,
  tallied l acc ->
  match tally_results test_results acc with
  | Return acc' =>
      tallied (l ++ all_metrics_data test_results) acc' /\
      Forall (fun result => TestResult.metrics_data result <> None) test_results /\
      Forall (fun metric_data => exists b, MetricData.success metric_data = Flag b)
        (all_metrics_data test_results)
  | Raise _ =>
      Exists (fun result => TestResult.metrics_data result = None) test_results \/
      Exists (fun metric_data =>
                exists msg, MetricData.success metric_data = FlagRaises msg)
        (all_metrics_data test_results)
  end.
Proof.
  induction test_results as [|result test_results IH]; intros l acc Hacc.
  - cbn. rewrite app_nil_r. now repeat split.
  - cbn [tally_results all_metrics_data flat_map].
    fold (all_metrics_data test_results).
    destruct (TestResult.metrics_data result) as [metrics_data|] eqn:Edata;
      [|left; now apply Exists_cons_hd].
    cbn [default].
    pose proof (tally_metrics_tallied metrics_data l acc Hacc) as Hstep.
    destruct (tally_metrics metrics_data acc) as [acc1|e].
    + destruct Hstep as [Hacc1 Hflags]. specialize (IH _ _ Hacc1).
      rewrite <- app_assoc in IH.
      destruct (tally_results test_results acc1) as [acc'|e].
      * destruct IH as (Hacc' & Hdata & Hflags'). split; [exact Hacc'|].
        split; [constructor; [congruence|exact Hdata]|].
        apply Forall_app. now split.
      * destruct IH as [Hnone|Hraises]; [left; now apply Exists_cons_tl|right].
        apply Exists_app. now right.
    + right. apply Exists_app. now left.
Qed.

Lemma pass_rate_is_a_fraction successes k :
  (successes <= S k)%nat ->
  (0 <= pass_rate successes (S k) <= 1)%Q.
Proof.
  intros Hle. unfold pass_rate, Qle. cbn [Qnum Qden].
  split; [lia|].
  rewrite Z.mul_1_r, Z.mul_1_l.
  replace (Z.pos (Pos.of_nat (S k))) with (Z.of_nat (S k)); [lia|].
  rewrite <- Pos.of_nat_succ. now rewrite Zpos_P_of_succ_nat, Nat2Z.inj_succ.
Qed.

(** X12. What [aggregate_metric_pass_rates] computes.  It gets through
    exactly when every test result has a list of metric results and every
    success flag can be evaluated.  Then a name is in the table exactly when
    some metric result carries it; results are pooled by name across all
    test results; the rate of a name is the number of its results whose
    flag is true over the number of all its results, so the division is
    never by zero and every rate lies between 0 and 1.  When it raises, some
    test result has no list ([None]) or some flag raises. *)
Theorem pass_rates_by_name (test_results : list TestResult.t) :
  let all := all_metrics_data test_results in
  match aggregate_metric_pass_rates test_results with
  | Return rates =>
      Forall (fun result => TestResult.metrics_data result <> None) test_results /\
      Forall (fun metric_data => exists b, MetricData.success metric_data = Flag b)
        all /\
      (forall metric_name,
         rates !! metric_name =
         match length (named metric_name all) with
         | O => None
         | S k =>
             Some (pass_rate (length (List.filter passed (named metric_name all)))
                     (S k))
         end) /\
      (forall metric_name rate,
         rates !! metric_name = Some rate -> (0 <= rate <= 1)%Q)
  | Raise _ =>
      Exists (fun result => TestResult.metrics_data result = None) test_results \/
      Exists (fun metric_data =>
                exists msg, MetricData.success metric_data = FlagRaises msg)
        all
  end.
Proof.
  cbv zeta. unfold aggregate_metric_pass_rates.
  assert (Hempty : tallied [] (∅, ∅)) by (intros metric_name; now cbn).
  pose proof (tally_results_tallied test_results [] (∅, ∅) Hempty) as Htally.
  cbn [app] in Htally.
  destruct (tally_results test_results (∅, ∅)) as [[counts successes]|e];
    [|exact Htally].
  destruct Htally as (Hacc & Hdata & Hflags).
  assert (Hrates : forall metric_name,
    map_imap
      (fun metric count =>
         Some (pass_rate (default 0%nat (successes !! metric)) count)) counts
      !! metric_name =
    match length (named metric_name (all_metrics_data test_results)) with
    | O => None
    | S k =>
        Some (pass_rate
                (length (List.filter passed
                           (named metric_name (all_metrics_data test_results))))
                (S k))
    end).
  { intros metric_name. rewrite map_lookup_imap. specialize (Hacc metric_name).
    cbn [fst snd] in Hacc.
    destruct (length (named metric_name (all_metrics_data test_results)));
      destruct Hacc as [Hc Hs]; rewrite Hc; cbn; [reflexivity|].
    now rewrite Hs. }
  split; [exact Hdata|]. split; [exact Hflags|]. split; [exact Hrates|].
  intros metric_name rate Hrate. rewrite Hrates in Hrate.
  destruct (length (named metric_name (all_metrics_data test_results))) as [|k]
    eqn:Hlen; [discriminate|].
  injection Hrate as <-. apply pass_rate_is_a_fraction.
  rewrite <- Hlen. apply List.filter_length_le.
Qed.

(** ** One metric result, three verdicts *)

(** X13. How the three readers of a metric result judge it.
    [print_test_result] marks a result as failed exactly when [assert_test]
    lists it among the failed metrics, for every metric result.  On a result
    built by [create_metric_data], [aggregate_metric_pass_rates] agrees with
    them: evaluating the success flag never raises there, and it counts a
    success exactly when the result is marked successful.  On a result that
    carries an error together with a true success flag (which
    [create_metric_data] never builds), the aggregator counts a success
    that the other two report as a failure. *)
Theorem three_verdicts `{Env} :
  (forall metric_data, successful metric_data = negb (metric_failed metric_data)) /\
  (forall metric,
     truth_of (MetricData.success (create_metric_data metric)) =
       Return (successful (create_metric_data metric)) /\
     passed (create_metric_data metric) = successful (create_metric_data metric) /\
     successful (create_metric_data metric) =
       match Metric.error metric with
       | Some _ => false
       | None => is_successful metric
       end) /\
  (forall metric_data e,
     MetricData.error metric_data = Some e ->
     MetricData.success metric_data = Flag true ->
     successful metric_data = false /\
     metric_failed metric_data = true /\
     truth_of (MetricData.success metric_data) = Return true /\
     forall metric, create_metric_data metric <> metric_data).
Proof.
  split; [|split].
  - intros metric_data. unfold successful, metric_failed.
    destruct (MetricData.error metric_data); [reflexivity|].
    destruct (MetricData.success metric_data) as [[]|]; reflexivity.
  - intros metric. unfold create_metric_data, successful, passed.
    destruct (Metric.error metric); cbn; auto.
  - intros metric_data e He Hs. unfold successful, metric_failed.
    rewrite He, Hs. repeat split. intros metric Heq. subst metric_data.
    unfold create_metric_data in He, Hs.
    destruct (Metric.error metric); cbn in He, Hs; discriminate.
Qed.

(** ** A single-turn unit that is skipped *)

Lemma reset_errors_objects metrics : forall w,
  exists w',
    reset_errors metrics w = (Return tt, w') /\
    w' = with_metric_objects (metric_objects w') w /\
    forall i,
      metric_objects w' i =
      if existsb (Nat.eqb i) metrics then Metric.set_error None (metric_objects w i)
      else metric_objects w i.
Proof.
  unfold reset_errors.
  induction metrics as [|metric metrics IH]; intros w.
  - exists w. cbn. split; [reflexivity|]. split; [now destruct w|reflexivity].
  - cbn [for_each]. unfold bind at 1. unfold bind at 1. unfold get_metric at 1.
    unfold set_metric at 1. unfold modify at 1.
    set (w1 := with_metric_objects _ w).
    destruct (IH w1) as (w' & E & Hw' & Hobj). exists w'.
    split; [exact E|]. split; [rewrite Hw' at 1; now destruct w|].
    intros i. rewrite Hobj. unfold w1. cbn. unfold update.
    destruct (Nat.eqb i metric) eqn:Ei; cbn.
    + apply Nat.eqb_eq in Ei. subst i.
      destruct (existsb _ metrics); [now destruct (metric_objects w metric)|reflexivity].
    + reflexivity.
Qed.

(** X14. A single-turn test case met when no single-turn metric is
    configured is skipped by both strategies, with the same counters and
    results as before and without any call on a collaborator; but the
    sequential strategy has by then cleared the [error] of every metric that
    was passed in (and changed nothing else), while the concurrent strategy
    leaves the state exactly as it was. *)
Theorem skipped_unit `{Env} (measure_metrics_with_indicator : Indicator)
    (metrics conversational_metrics : list nat) (ignore_errors use_cache : bool)
    (test_case : nat) (loc : Locals) (w : World) :
  (exists w',
     execute_test_case metrics [] conversational_metrics ignore_errors use_cache
       (LLM test_case) loc w = (Return loc, w') /\
     w' = with_metric_objects (metric_objects w') w /\
     forall i,
       metric_objects w' i =
       if existsb (Nat.eqb i) metrics then Metric.set_error None (metric_objects w i)
       else metric_objects w i) /\
  a_execute_test_case measure_metrics_with_indicator metrics []
    conversational_metrics ignore_errors use_cache (LLM test_case) loc w =
    (Return loc, w).
Proof.
  split; [|reflexivity].
  destruct (reset_errors_objects metrics w) as (w' & E & Hw' & Hobj).
  exists w'. unfold execute_test_case, bind. rewrite E. cbn. auto.
Qed.

(** ** [evaluate] *)

Section Evaluate.
Context `{Env}.
Variables (measure_metrics_with_indicator : Indicator)
  (process_hyperparameters : gmap string HyperValue -> Dict).

Lemma print_all_ends test_results :
  snd (print_all test_results) =
  match aggregate_metric_pass_rates test_results with
  | Return _ => Return tt
  | Raise e =>
      match snd (print_test_results test_results) with
      | Raise e' => Raise e'
      | Return _ => Raise e
      end
  end /\
  (forall e, snd (print_test_results test_results) = Raise e ->
     exists e', aggregate_metric_pass_rates test_results = Raise e').
Proof.
  unfold print_all, aggregate_metric_pass_rates.
  assert (Hnone : forall acc,
            snd (print_test_results test_results) <> Return tt ->
            exists e, tally_results test_results acc = Raise e).
  { induction test_results as [|test_result rest IH]; intros acc Hp;
      [now contradiction Hp|].
    cbn [print_test_results tally_results] in *. unfold print_test_result in Hp.
    destruct (TestResult.metrics_data test_result) as [metrics_data|];
      [|now eexists].
    destruct (tally_metrics metrics_data acc) as [acc1|e]; [|now eexists].
    apply IH. destruct (print_test_results rest) as [printed' end']. exact Hp. }
  destruct (print_test_results test_results) as [printed [[]|e]] eqn:Ep;
    cbn [snd] in *.
  - split; [|discriminate].
    destruct (tally_results test_results (∅, ∅)) as [[counts successes]|e];
      reflexivity.
  - destruct (Hnone (∅, ∅)) as (e' & He'); [discriminate|]. rewrite He'.
    split; [reflexivity|]. intros e0 _. now exists e'.
Qed.

Lemma evaluate_unfold test_cases metrics hyperparameters
    (run_async show_indicator print_results write_cache use_cache ignore_errors : bool)
    verbose_mode w :
  lacks_key hyperparameters = false ->
  let w1 := with_perf_counter_calls (S (perf_counter_calls w)) w in
  let call :=
    if run_async then
      a_execute_test_cases measure_metrics_with_indicator test_cases metrics
        ignore_errors use_cache write_cache verbose_mode w1
    else
      execute_test_cases test_cases metrics ignore_errors use_cache write_cache
        verbose_mode w1 in
  let before :=
    [StSetIndicator show_indicator; StReset] ++
    (if print_results then [StPrint (OutText "Evaluating test cases...")] else []) in
  let batch := StBatch (drop (length (trace w1)) (trace (world_after call))) in
  let w2 :=
    with_perf_counter_calls (S (perf_counter_calls (world_after call)))
      (world_after call) in
  let run_duration :=
    (perf_counter_reading (perf_counter_calls (world_after call)) -
     perf_counter_reading (perf_counter_calls w))%Q in
  evaluate measure_metrics_with_indicator process_hyperparameters test_cases
    metrics hyperparameters run_async show_indicator print_results write_cache
    use_cache ignore_errors verbose_mode w =
  match returned call with
  | Raise e =>
      mkEvaluation (RaisedOther e) (before ++ [batch]) (test_cases_after call)
        (world_after call)
  | Return test_results =>
      let printing :=
        if print_results then print_all test_results else ([], Return tt) in
      match snd printing with
      | Raise e =>
          mkEvaluation (RaisedOther e)
            (before ++ [batch] ++ map StPrint (fst printing))
            (test_cases_after call) w2
      | Return _ =>
          mkEvaluation (Returned test_results)
            (before ++ [batch] ++ map StPrint (fst printing) ++
             [StSetHyperparameters (option_map process_hyperparameters hyperparameters);
              StSaveTestRun; StWrapUp run_duration false])
            (test_cases_after call) w2
      end
  end.
Proof.
  intros El. cbv zeta. unfold evaluate. rewrite El.
  destruct (returned _) as [test_results|e]; [|reflexivity].
  destruct (if print_results then _ else _) as [printed [[]|e]]; reflexivity.
Qed.

(** X15. [evaluate] checks the hyperparameters before anything else: it
    raises [ValueError] exactly when a dictionary is given that lacks the
    key ["model"] or the key ["prompt template"], and it has then neither
    reset the test run, nor read the clock, nor touched the list of test
    cases, nor run anything. *)
Theorem evaluate_checks_hyperparameters (test_cases : list TestCase)
    (metrics : list nat) (hyperparameters : option (gmap string HyperValue))
    (run_async show_indicator print_results write_cache use_cache ignore_errors : bool)
    (verbose_mode : option bool) (w : World) :
  let evaluation :=
    evaluate measure_metrics_with_indicator process_hyperparameters test_cases
      metrics hyperparameters run_async show_indicator print_results write_cache
      use_cache ignore_errors verbose_mode w in
  ((exists msg, ended evaluation = RaisedValueError msg) <->
   exists h,
     hyperparameters = Some h /\
     (h !! "model" = None \/ h !! "prompt template" = None)) /\
  ((exists msg, ended evaluation = RaisedValueError msg) ->
   steps evaluation = [] /\
   evaluated_world evaluation = w /\
   evaluated_test_cases evaluation = test_cases).
Proof.
  cbv zeta.
  assert (Hlacks : lacks_key hyperparameters = true <->
            exists h,
              hyperparameters = Some h /\
              (h !! "model" = None \/ h !! "prompt template" = None)).
  { unfold lacks_key. destruct hyperparameters as [h|].
    - destruct (h !! "model") eqn:Em; destruct (h !! "prompt template") eqn:Ep.
      + split; [discriminate|]. intros (h' & [= <-] & [Hm|Hp]); congruence.
      + split; [intros _; exists h; auto|reflexivity].
      + split; [intros _; exists h; auto|reflexivity].
      + split; [intros _; exists h; auto|reflexivity].
    - split; [discriminate|]. now intros (h & [=] & _). }
  destruct (lacks_key hyperparameters) eqn:El.
  - unfold evaluate. rewrite El. cbn.
    split; [|auto]. split; [intros _; now apply Hlacks|now eexists].
  - rewrite (evaluate_unfold _ _ _ _ _ _ _ _ _ _ _ El). cbv zeta.
    assert (Hno : forall msg,
              ended
                (evaluate measure_metrics_with_indicator process_hyperparameters
                   test_cases metrics hyperparameters run_async show_indicator
                   print_results write_cache use_cache ignore_errors verbose_mode w)
              <> RaisedValueError msg).
    { intros msg. rewrite (evaluate_unfold _ _ _ _ _ _ _ _ _ _ _ El). cbv zeta.
      destruct (returned _) as [test_results|e]; [|discriminate].
      destruct (snd _) as [[]|e]; discriminate. }
    rewrite (evaluate_unfold _ _ _ _ _ _ _ _ _ _ _ El) in Hno. cbv zeta in Hno.
    split; [|intros (msg & Hmsg); now contradiction (Hno msg)].
    split; [intros (msg & Hmsg); now contradiction (Hno msg)|].
    intros Hex. apply Hlacks in Hex. discriminate.
Qed.

(** X16. [evaluate] closes the test run last, and only when everything
    before went through.  When it returns, the results are the ones the batch
    call returned and its last three steps are: the processed hyperparameters
    put on the test run, [save_test_run], and
    [wrap_up_test_run(run_duration, display_table=False)], where
    [run_duration] is the time between the two clock readings around the
    batch call (the printing is not counted); none of the three happens
    earlier.  When it raises, none of the three happens at all. *)
Theorem evaluate_closes_the_run_last test_cases metrics hyperparameters
    (run_async show_indicator print_results write_cache use_cache ignore_errors : bool)
    verbose_mode w :
  let evaluation :=
    evaluate measure_metrics_with_indicator process_hyperparameters test_cases
      metrics hyperparameters run_async show_indicator print_results write_cache
      use_cache ignore_errors verbose_mode w in
  let w1 := with_perf_counter_calls (S (perf_counter_calls w)) w in
  let call :=
    if run_async then
      a_execute_test_cases measure_metrics_with_indicator test_cases metrics
        ignore_errors use_cache write_cache verbose_mode w1
    else
      execute_test_cases test_cases metrics ignore_errors use_cache write_cache
        verbose_mode w1 in
  match ended evaluation with
  | Returned test_results =>
      returned call = Return test_results /\
      exists before,
        steps evaluation =
          before ++
          [StSetHyperparameters (option_map process_hyperparameters hyperparameters);
           StSaveTestRun;
           StWrapUp
             (perf_counter_reading (perf_counter_calls (world_after call)) -
              perf_counter_reading (perf_counter_calls w))%Q false] /\
        Forall open_step before
  | _ => Forall open_step (steps evaluation)
  end.
Proof.
  cbv zeta. destruct (lacks_key hyperparameters) eqn:El.
  - unfold evaluate. rewrite El. cbn. constructor.
  - rewrite (evaluate_unfold _ _ _ _ _ _ _ _ _ _ _ El). cbv zeta.
    assert (Hbefore : forall calls printed,
              Forall open_step
                (([StSetIndicator show_indicator; StReset] ++
                  (if print_results
                   then [StPrint (OutText "Evaluating test cases...")] else [])) ++
                 [StBatch calls] ++ map StPrint printed)).
    { intros calls printed. apply Forall_app. split.
      - destruct print_results; repeat constructor.
      - constructor; [exact I|]. apply Forall_map, Forall_forall. now intros. }
    destruct (returned _) as [test_results|e] eqn:Ecall; cbn [ended steps].
    + destruct (snd _) as [[]|e] eqn:Eprint; cbn [ended steps].
      * split; [reflexivity|]. eexists. split; [|apply Hbefore].
        now rewrite <- !app_assoc.
      * apply Hbefore.
    + specialize (Hbefore (drop (length (trace (with_perf_counter_calls (S (perf_counter_calls w)) w)))
                             (trace (world_after
                                (if run_async
                                 then a_execute_test_cases measure_metrics_with_indicator
                                        test_cases metrics ignore_errors use_cache
                                        write_cache verbose_mode
                                        (with_perf_counter_calls (S (perf_counter_calls w)) w)
                                 else execute_test_cases test_cases metrics ignore_errors
                                        use_cache write_cache verbose_mode
                                        (with_perf_counter_calls (S (perf_counter_calls w)) w)))))
                          []).
      cbn [map] in Hbefore. now rewrite app_nil_r in Hbefore.
Qed.

(** X17. When [evaluate] returns.  It returns [test_results] exactly when
    the hyperparameters pass the check, the batch call returns
    [test_results] and, with [print_results] on,
    [aggregate_metric_pass_rates(test_results)] gets through: printing the
    results one by one can fail only where the aggregation fails too. *)
Theorem evaluate_returns test_cases metrics hyperparameters
    (run_async show_indicator print_results write_cache use_cache ignore_errors : bool)
    verbose_mode w test_results :
  let w1 := with_perf_counter_calls (S (perf_counter_calls w)) w in
  let call :=
    if run_async then
      a_execute_test_cases measure_metrics_with_indicator test_cases metrics
        ignore_errors use_cache write_cache verbose_mode w1
    else
      execute_test_cases test_cases metrics ignore_errors use_cache write_cache
        verbose_mode w1 in
  ended
    (evaluate measure_metrics_with_indicator process_hyperparameters test_cases
       metrics hyperparameters run_async show_indicator print_results write_cache
       use_cache ignore_errors verbose_mode w) = Returned test_results <->
  lacks_key hyperparameters = false /\
  returned call = Return test_results /\
  (print_results = false \/
   exists rates, aggregate_metric_pass_rates test_results = Return rates).
Proof.
  cbv zeta. destruct (lacks_key hyperparameters) eqn:El.
  - unfold evaluate. rewrite El. cbn. split; [discriminate|now intros [? _]].
  - rewrite (evaluate_unfold _ _ _ _ _ _ _ _ _ _ _ El). cbv zeta.
    destruct (returned _) as [results|e] eqn:Ecall; cbn [ended].
    + destruct print_results.
      * destruct (print_all_ends results) as [Hend _]. rewrite Hend.
        destruct (aggregate_metric_pass_rates results) as [rates|e] eqn:Ea;
          cbn [ended].
        -- split.
           ++ intros [= <-]. rewrite Ea. repeat split; eauto.
           ++ now intros (_ & [= <-] & _).
        -- split.
           ++ destruct (snd (print_test_results results)); discriminate.
           ++ intros (_ & [= <-] & [?|(rates & Hr)]); [discriminate|].
              rewrite Ea in Hr. discriminate.
      * cbn [snd ended]. split.
        -- intros [= <-]. auto.
        -- now intros (_ & [= <-] & _).
    + split; [discriminate|]. now intros (_ & ? & _).
Qed.

End Evaluate.
